(** * PDF signing CA and incremental signing engine: a shallow embedding

    The Python sources embedded here are
    - [pdf_signature/certificate_authority.py]  (class [PDFSigningCA]),
    - [pdf_signature/utils.py]                  (endesive signing engine, verifier),
    - [pdf_signature/pyhanko_signer.py]         (pyHanko signing engine, verifier).

    The programs are effectful: they read and write files, read the clock,
    draw fresh key material and call third-party libraries.  They are
    embedded in a state-and-exception monad over an explicit [world];
    third-party libraries are the fields of an interface record. *)

From Stdlib Require Import ZArith String Ascii List Lia Bool.
From Stdlib Require Import DecimalString DecimalZ DecimalFacts Decimal.
From stdpp Require Import gmap strings list fin_maps sorting.

Local Open Scope string_scope.
Local Open Scope Z_scope.

(* ===================================================================== *)
(** * Python values, int/str conversions, exceptions *)
(* ===================================================================== *)

Module Py.

#[global] Instance byte_eq_dec : EqDecision Byte.byte := Byte.byte_eq_dec.

(** Python objects that travel through the dictionaries and tuples of the
    modelled code. *)
#[warnings="-register-all"]
Inductive pyval :=
| VNone
| VBool (b : bool)
| VInt (z : Z)
| VStr (s : string)
| VBytes (b : list Byte.byte)
| VTuple (l : list pyval)
| VList (l : list pyval).

#[global] Instance pyval_eq_dec : EqDecision pyval.
Proof.
  refine (fix go (x y : pyval) {struct x} : Decision (x = y) :=
    match x, y with
    | VNone, VNone => left eq_refl
    | VBool a, VBool b => cast_if (decide (a = b))
    | VInt a, VInt b => cast_if (decide (a = b))
    | VStr a, VStr b => cast_if (decide (a = b))
    | VBytes a, VBytes b => cast_if (decide (a = b))
    | VTuple a, VTuple b => cast_if (@list_eq_dec _ go a b)
    | VList a, VList b => cast_if (@list_eq_dec _ go a b)
    | _, _ => right _
    end); congruence.
Defined.

(** Truth value of an object, as used by [if x], [x and y], [not x]. *)
Definition truthy (v : pyval) : bool :=
  match v with
  | VNone => false
  | VBool b => b
  | VInt z => negb (Z.eqb z 0)
  | VStr s => negb (String.eqb s "")
  | VBytes b => match b with [] => false | _ => true end
  | VTuple l => match l with [] => false | _ => true end
  | VList l => match l with [] => false | _ => true end
  end.

(** [a and b]. *)
Definition py_and (a b : pyval) : pyval := if truthy a then b else a.

(** [len(x)]; [None] stands for the [TypeError] on objects without length. *)
Definition py_len (v : pyval) : option Z :=
  match v with
  | VStr s => Some (Z.of_nat (String.length s))
  | VBytes b => Some (Z.of_nat (List.length b))
  | VTuple l | VList l => Some (Z.of_nat (List.length l))
  | VNone | VBool _ | VInt _ => None
  end.

(** What [for x in v] and tuple unpacking run over; [None] stands for the
    [TypeError] on objects that cannot be iterated. *)
Definition py_iter (v : pyval) : option (list pyval) :=
  match v with
  | VList l | VTuple l => Some l
  | VStr s => Some ((λ c, VStr (String c EmptyString)) <$> list_ascii_of_string s)
  | VBytes b => Some ((λ x, VInt (Z.of_N (Byte.to_N x))) <$> b)
  | VNone | VBool _ | VInt _ => None
  end.

(** Exceptions raised by the modelled code and by the libraries it calls. *)
Inductive exn :=
| FileNotFoundError (msg : string)
| ValueError (msg : string)
| ImportError (msg : string)
| Exception (msg : string)
| SigningError (msg : string)
| SignatureValidationError (msg : string)
| LibraryError (msg : string).

Inductive result (A : Type) :=
| Ok (a : A)
| Raise (e : exn).
Arguments Ok {A} a.
Arguments Raise {A} e.

Definition is_ok {A} (r : result A) : bool :=
  match r with Ok _ => true | Raise _ => false end.

(** ** [str(n)] and [int(s.strip())] on decimal text *)

Definition is_space (c : ascii) : bool :=
  match c with
  | " "%char | "009"%char | "010"%char | "011"%char | "012"%char | "013"%char => true
  | _ => false
  end.

Fixpoint lstrip (s : string) : string :=
  match s with
  | EmptyString => EmptyString
  | String c r => if is_space c then lstrip r else s
  end.

Fixpoint rstrip (s : string) : string :=
  match s with
  | EmptyString => EmptyString
  | String c r =>
      match rstrip r with
      | EmptyString => if is_space c then EmptyString else String c EmptyString
      | r' => String c r'
      end
  end.

(** No character of [s] is white space. *)
Fixpoint no_space (s : string) : bool :=
  match s with
  | EmptyString => true
  | String c r => negb (is_space c) && no_space r
  end.

(** [s.strip()] for ASCII white space. *)
Definition strip (s : string) : string := rstrip (lstrip s).

(** [str(n)] for an integer [n]. *)
Definition str (n : Z) : string := NilZero.string_of_int (Z.to_int n).

(** [int(s)] for text of the shape [[+-]?[0-9]+]; [None] stands for the
    [ValueError] Python raises on text that is no integer literal.  (The
    digit separators and non-ASCII digits Python also accepts are outside
    this model and read as [None].) *)
Definition int (s : string) : option Z :=
  match s with
  | EmptyString => None
  | String "+" r => option_map (fun d => Z.of_int (Pos d)) (NilZero.uint_of_string r)
  | String "-" r => option_map (fun d => Z.of_int (Neg d)) (NilZero.uint_of_string r)
  | _ => option_map (fun d => Z.of_int (Pos d)) (NilZero.uint_of_string s)
  end.

End Py.
Export Py.


(* ===================================================================== *)
(** * X.509 objects (the [cryptography] package), symbolically *)
(* ===================================================================== *)

Module X509.

Abbreviation bytes := (list Byte.byte).

(** Key material is symbolic: a key is the identity drawn when it was
    generated, together with its modulus size. *)
Record private_key := { key_id : nat; key_size : Z; public_exponent : Z }.
Record public_key := { pk_id : nat; pk_size : Z }.

Definition public_key_of (k : private_key) : public_key :=
  {| pk_id := key_id k; pk_size := key_size k |}.

Inductive name_oid :=
| COUNTRY_NAME | STATE_OR_PROVINCE_NAME | LOCALITY_NAME | ORGANIZATION_NAME
| ORGANIZATIONAL_UNIT_NAME | COMMON_NAME | EMAIL_ADDRESS.

#[global] Instance name_oid_eq_dec : EqDecision name_oid.
Proof. solve_decision. Defined.

(** [x509.Name]: the ordered list of [NameAttribute]s. *)
Definition x509_name := list (name_oid * string).

(** [name.get_attributes_for_oid(oid)], values only. *)
Definition get_attributes_for_oid (n : x509_name) (oid : name_oid) : list string :=
  snd <$> filter (λ a, a.1 = oid) n.

Record key_usage := {
  digital_signature : bool; content_commitment : bool; key_encipherment : bool;
  data_encipherment : bool; key_agreement : bool; key_cert_sign : bool;
  crl_sign : bool; encipher_only : bool; decipher_only : bool }.

Inductive extended_key_usage_oid := CODE_SIGNING | EMAIL_PROTECTION | CLIENT_AUTH.

Inductive extension :=
| BasicConstraints (ca : bool) (path_length : option Z)
| KeyUsage (ku : key_usage)
| ExtendedKeyUsage (usages : list extended_key_usage_oid)
| SubjectAlternativeName (rfc822_names : list string)
| SubjectKeyIdentifier (of_key : public_key)
| AuthorityKeyIdentifier (of_key : public_key)
| CRLDistributionPoints (full_names : list string)
| AuthorityInformationAccess (ca_issuers : list string).

Inductive hash_algorithm := SHA256.

(** A certificate as [CertificateBuilder ... .sign(key, hash)] returns it.
    Times are whole seconds since the epoch (the resolution of the
    encoded certificate). *)
Record certificate := {
  subject : x509_name;
  issuer : x509_name;
  cert_public_key : public_key;
  serial_number : Z;
  not_valid_before : Z;
  not_valid_after : Z;
  extensions : list (extension * bool);       (* extension, critical *)
  signature_by : public_key;                  (* public half of the signing key *)
  signature_hash : hash_algorithm }.

Record revoked_certificate := { rc_serial_number : Z; revocation_date : Z }.

Record crl := {
  crl_issuer : x509_name;
  last_update : Z;
  next_update : Z;
  revoked : list revoked_certificate;
  crl_signature_by : public_key;
  crl_signature_hash : hash_algorithm }.

(** A PKCS#12 bundle: friendly name, key, certificate, extra certificates. *)
Record pkcs12 := {
  p12_name : option string;
  p12_key : private_key;
  p12_cert : certificate;
  p12_cas : list certificate }.

(** [timedelta(days=d)] in seconds. *)
Definition timedelta_days (d : Z) : Z := d * 86400.

(** The builders' [serial_number(n)] accepts [n] when it is positive and
    shorter than 160 bits, and raises [ValueError] otherwise. *)
Definition serial_number_ok (n : Z) : bool := (0 <? n) && (n <? 2 ^ 159).

(** Does the extension list carry this extension? *)
Definition has_extension (c : certificate) (P : extension → bool) : bool :=
  existsb (λ e, P e.1) (extensions c).

Definition is_ca (c : certificate) : bool :=
  has_extension c (λ e, match e with BasicConstraints true _ => true | _ => false end).

Definition can_sign_certs_and_crls (c : certificate) : bool :=
  has_extension c (λ e, match e with
                        | KeyUsage ku => key_cert_sign ku && crl_sign ku
                        | _ => false end).

Definition self_signed (c : certificate) : Prop :=
  issuer c = subject c ∧ signature_by c = cert_public_key c.

End X509.
Export X509.

(* ===================================================================== *)
(** * Dates and [strftime] *)
(* ===================================================================== *)

Module Dates.

(** An aware [datetime]: broken-down local time and the offset from UTC
    in seconds. *)
Record datetime := {
  year : Z; month : Z; day : Z; hour : Z; minute : Z; second : Z;
  utcoffset : Z }.

(** Day number since 1970-01-01 to proleptic Gregorian (year, month, day). *)
Definition civil_from_days (z : Z) : Z * Z * Z :=
  let z := z + 719468 in
  let era := z / 146097 in
  let doe := z - era * 146097 in
  let yoe := (doe - doe / 1460 + doe / 36524 - doe / 146096) / 365 in
  let doy := doe - (365 * yoe + yoe / 4 - yoe / 100) in
  let mp := (5 * doy + 2) / 153 in
  let d := doy - (153 * mp + 2) / 5 + 1 in
  let m := if mp <? 10 then mp + 3 else mp - 9 in
  (yoe + era * 400 + (if m <=? 2 then 1 else 0), m, d).

(** [datetime.fromtimestamp(t, timezone(timedelta(seconds=offset)))], which
    is also [datetime.now(utc).astimezone(tz)] when the clock shows [t]. *)
Definition datetime_at (t offset : Z) : datetime :=
  let local := t + offset in
  let '(y, m, d) := civil_from_days (local / 86400) in
  let secs := local mod 86400 in
  {| year := y; month := m; day := d;
     hour := secs / 3600; minute := secs mod 3600 / 60; second := secs mod 60;
     utcoffset := offset |}.

Definition digit (n : Z) : ascii := ascii_of_nat (48 + Z.to_nat n).

(** Zero-padded decimal fields, two and four digits wide. *)
Definition two_digits (n : Z) : string :=
  String (digit (n / 10)) (String (digit (n mod 10)) EmptyString).
Definition four_digits (n : Z) : string :=
  String (digit (n / 1000)) (String (digit (n / 100 mod 10))
    (String (digit (n / 10 mod 10)) (String (digit (n mod 10)) EmptyString))).

(** The directives the sources use; years are between 1000 and 9999. *)
Definition directive (c : ascii) (dt : datetime) : string :=
  match c with
  | "Y"%char => four_digits (year dt)
  | "m"%char => two_digits (month dt)
  | "d"%char => two_digits (day dt)
  | "H"%char => two_digits (hour dt)
  | "M"%char => two_digits (minute dt)
  | "S"%char => two_digits (second dt)
  | "%"%char => "%"
  | _ => String "%" (String c EmptyString)
  end.

(** [dt.strftime(fmt)] *)
Fixpoint strftime (fmt : string) (dt : datetime) : string :=
  match fmt with
  | EmptyString => EmptyString
  | String "%" (String c r) => directive c dt +:+ strftime r dt
  | String c r => String c (strftime r dt)
  end.

(** The +05:30 offset, in seconds. *)
Definition chennai_offset : Z := 5 * 3600 + 30 * 60.

(** ** Reading the rendered strings back *)

Definition digit_value (c : ascii) : option Z :=
  let n := Z.of_nat (nat_of_ascii c) in
  if (48 <=? n) && (n <=? 57) then Some (n - 48) else None.

Definition number2 (a b : ascii) : option Z :=
  x ← digit_value a; y ← digit_value b; Some (10 * x + y).

Definition number4 (a b c d : ascii) : option Z :=
  x ← number2 a b; y ← number2 c d; Some (100 * x + y).

(** A local date and time of day to the minute, with the UTC offset it
    is expressed in: what a rendered time stamp denotes. *)
Record local_minute := {
  lm_year : Z; lm_month : Z; lm_day : Z; lm_hour : Z; lm_minute : Z;
  lm_offset : Z }.

(** The PDF date string [D:YYYYMMDDHHmmSS+HH'mm'] read back, seconds dropped. *)
Definition denote_pdf_date (s : string) : option local_minute :=
  match s with
  | String "D" (String ":" (String y1 (String y2 (String y3 (String y4
    (String m1 (String m2 (String da (String db (String H1 (String H2
    (String M1 (String M2 (String S1 (String S2 (String "+"
    (String o1 (String o2 (String "'" (String o3 (String o4
    (String "'" EmptyString)))))))))))))))))))))) =>
      y ← number4 y1 y2 y3 y4; m ← number2 m1 m2; d ← number2 da db;
      H ← number2 H1 H2; M ← number2 M1 M2; _ ← number2 S1 S2;
      oh ← number2 o1 o2; om ← number2 o3 o4;
      Some {| lm_year := y; lm_month := m; lm_day := d; lm_hour := H;
              lm_minute := M; lm_offset := oh * 3600 + om * 60 |}
  | _ => None
  end.

(** The visible lines ["Date: dd/mm/YYYY"] and ["Time: HH:MM GMT +5:30"]
    read back. *)
Definition denote_visible (date_line time_line : string) : option local_minute :=
  match date_line, time_line with
  | String "D" (String "a" (String "t" (String "e" (String ":" (String " "
    (String da (String db (String "/" (String m1 (String m2 (String "/"
    (String y1 (String y2 (String y3 (String y4 EmptyString))))))))))))))),
    String "T" (String "i" (String "m" (String "e" (String ":" (String " "
    (String H1 (String H2 (String ":" (String M1 (String M2
    (String " " (String "G" (String "M" (String "T" (String " " (String "+"
    (String o1 (String ":" (String o2 (String o3 EmptyString))))))))))))))))))))
    =>
      y ← number4 y1 y2 y3 y4; m ← number2 m1 m2; d ← number2 da db;
      H ← number2 H1 H2; M ← number2 M1 M2;
      oh ← digit_value o1; om ← number2 o2 o3;
      Some {| lm_year := y; lm_month := m; lm_day := d; lm_hour := H;
              lm_minute := M; lm_offset := oh * 3600 + om * 60 |}
  | _, _ => None
  end.

(** The local date and time of day of [dt], to the minute. *)
Definition local_minute_of (dt : datetime) : local_minute :=
  {| lm_year := year dt; lm_month := month dt; lm_day := day dt;
     lm_hour := hour dt; lm_minute := minute dt; lm_offset := utcoffset dt |}.

(** Instants from 1970 on whose local year has four digits (this bound is
    in the year 9600). *)
Definition four_digit_years (t : Z) : Prop := 0 ≤ t ∧ t < 240000000000.

End Dates.
Export Dates.

(* ===================================================================== *)
(** * The world: files, clock, entropy, library calls *)
(* ===================================================================== *)

Module World.

(** A path is either a path named by the caller or the configuration, or
    a file below a directory made by [tempfile.mkdtemp()] (which is new
    each time: directory [d] is the [d]-th one made). *)
Inductive path :=
| Path (s : string)
| TempPath (d : nat) (name : string).

#[global] Instance path_eq_dec : EqDecision path.
Proof. solve_decision. Defined.

#[global] Instance path_countable : Countable path.
Proof.
  refine (inj_countable'
            (λ p, match p with Path s => inl s | TempPath d n => inr (d, n) end)
            (λ x, match x with inl s => Path s | inr (d, n) => TempPath d n end) _).
  by intros [].
Defined.

(** What a file holds.  Encodings (PEM, DER, PKCS#12) are symbolic: a
    file written from an object reads back as that object, and any other
    content fails to parse. *)
Inductive file_content :=
| PemCertificate (c : certificate)
| PemEncryptedKey (k : private_key) (password : string)
| PemCrl (l : crl)
| Pkcs12File (b : pkcs12) (password : string)
| Text (s : string)
| Binary (b : bytes).

(** pyHanko's [SimpleSigner] and [TextStampStyle], as far as the code
    fills them in. *)
Record simple_signer := {
  signer_key : private_key;
  signer_cert : certificate;
  signer_registry : list certificate }.

Record text_stamp_style := {
  stamp_text : string;
  text_box_font_size : Z;
  box_width : Z;
  box_height : Z }.

(** One call into a signing library, as seen at the call boundary: the
    document handed over, the signature parameters, and what came back.
    For pyHanko the parameters are the keyword arguments given to
    [PdfSignatureMetadata]. *)
Inductive lib_call :=
| EndesiveSign (datau : bytes) (udct : gmap string pyval) (key : private_key)
    (cert : certificate) (othercerts : list certificate) (algomd : string)
    (ret : result bytes)
| PyhankoSign (pdf_in : bytes) (signature_meta : gmap string pyval)
    (signer : simple_signer) (stamp_style : option text_stamp_style)
    (certify : bool) (ret : result bytes).

(** Which way of building a PKCS#12 bundle the installation offers. *)
Inductive pkcs12_support :=
| NativePkcs12          (* [serialization.pkcs12] is there *)
| OpenSSLCommand        (* the [openssl pkcs12 -export] command succeeds *)
| PyOpenSSL             (* the command fails, [OpenSSL.crypto] imports *)
| NoPkcs12.             (* the command fails and [OpenSSL] is missing *)

Record world := {
  files : gmap path file_content;
  clock : Z;                       (* what [datetime.now()] returns next *)
  ticks : list N;                  (* by how much the clock then advances *)
  next_key_id : nat;               (* identity of the next generated key *)
  next_tmp : nat;                  (* the next [mkdtemp] directory *)
  pkcs12_backend : pkcs12_support;
  lib_calls : list lib_call }.     (* signing-library calls so far, oldest first *)

Definition set_files (f : gmap path file_content → gmap path file_content)
    (w : world) : world :=
  {| files := f (files w); clock := clock w; ticks := ticks w;
     next_key_id := next_key_id w; next_tmp := next_tmp w;
     pkcs12_backend := pkcs12_backend w; lib_calls := lib_calls w |}.

(** ** The monad: state passing with exceptions *)

Definition M (A : Type) : Type := world → result A * world.

#[global] Instance M_ret : MRet M := λ A a w, (Ok a, w).

#[global] Instance M_bind : MBind M := λ A B f m w,
  match m w with
  | (Ok a, w') => f a w'
  | (Raise e, w') => (Raise e, w')
  end.

Definition raise {A} (e : exn) : M A := λ w, (Raise e, w).

(** [try: m  except Exception as e: h e] *)
Definition try_except {A} (m : M A) (h : exn → M A) : M A := λ w,
  match m w with
  | (Ok a, w') => (Ok a, w')
  | (Raise e, w') => h e w'
  end.

(** [try: m  finally: c]; an exception of [c] replaces the outcome of [m]. *)
Definition try_finally {A} (m : M A) (c : M unit) : M A := λ w,
  match m w with
  | (r, w') =>
      match c w' with
      | (Ok _, w'') => (r, w'')
      | (Raise e, w'') => (Raise e, w'')
      end
  end.

(** ** Primitive effects *)

Definition os_path_exists (p : path) : M bool := λ w,
  (Ok (bool_decide (is_Some (files w !! p))), w).

(** [open(p, "rb").read()] *)
Definition read_file (p : path) : M file_content := λ w,
  match files w !! p with
  | Some c => (Ok c, w)
  | None => (Raise (FileNotFoundError "No such file or directory"), w)
  end.

(** [open(p, "wb").write(c)]; the file is closed on leaving [with]. *)
Definition write_file (p : path) (c : file_content) : M unit := λ w,
  (Ok tt, set_files (insert p c) w).

(** [datetime.now(tz)]: the instant, in seconds since the epoch. *)
Definition datetime_now : M Z := λ w,
  (Ok (clock w),
   {| files := files w;
      clock := clock w + Z.of_N (hd 0%N (ticks w)); ticks := tl (ticks w);
      next_key_id := next_key_id w; next_tmp := next_tmp w;
      pkcs12_backend := pkcs12_backend w; lib_calls := lib_calls w |}).

(** [rsa.generate_private_key(public_exponent, key_size)] *)
Definition generate_private_key (e bits : Z) : M private_key := λ w,
  (Ok {| key_id := next_key_id w; key_size := bits; public_exponent := e |},
   {| files := files w; clock := clock w; ticks := ticks w;
      next_key_id := S (next_key_id w); next_tmp := next_tmp w;
      pkcs12_backend := pkcs12_backend w; lib_calls := lib_calls w |}).

(** [tempfile.mkdtemp()] *)
Definition mkdtemp : M nat := λ w,
  (Ok (next_tmp w),
   {| files := files w; clock := clock w; ticks := ticks w;
      next_key_id := next_key_id w; next_tmp := S (next_tmp w);
      pkcs12_backend := pkcs12_backend w; lib_calls := lib_calls w |}).

Definition in_temp_dir (d : nat) (p : path) : bool :=
  match p with TempPath d' _ => Nat.eqb d d' | Path _ => false end.

(** [shutil.rmtree(temp_dir)] *)
Definition rmtree (d : nat) : M unit := λ w,
  (Ok tt, set_files (filter (λ kv, in_temp_dir d kv.1 = false)) w).

(** [shutil.move(src, dst)] between files. *)
Definition shutil_move (src dst : path) : M unit := λ w,
  match files w !! src with
  | Some c => (Ok tt, set_files (λ f, <[dst := c]> (delete src f)) w)
  | None => (Raise (FileNotFoundError "No such file or directory"), w)
  end.

(** [shutil.copy2(src, dst)] *)
Definition shutil_copy2 (src dst : path) : M unit := λ w,
  match files w !! src with
  | Some c => (Ok tt, set_files (insert dst c) w)
  | None => (Raise (FileNotFoundError "No such file or directory"), w)
  end.

Definition record_call (c : lib_call) : M unit := λ w,
  (Ok tt,
   {| files := files w; clock := clock w; ticks := ticks w;
      next_key_id := next_key_id w; next_tmp := next_tmp w;
      pkcs12_backend := pkcs12_backend w; lib_calls := lib_calls w ++ [c] |}).

Definition get_pkcs12_backend : M pkcs12_support := λ w, (Ok (pkcs12_backend w), w).

(** ** [os.path] on POSIX path strings *)

Fixpoint ends_with_slash (s : string) : bool :=
  match s with
  | EmptyString => false
  | String c EmptyString => Ascii.eqb c "/"
  | String _ r => ends_with_slash r
  end.

(** [os.path.join(a, b)] *)
Definition os_path_join (a b : string) : string :=
  match b with
  | String "/" _ => b
  | _ => if String.eqb a "" || ends_with_slash a then a +:+ b
         else a +:+ "/" +:+ b
  end.

Fixpoint has_slash (s : string) : bool :=
  match s with
  | EmptyString => false
  | String c r => Ascii.eqb c "/" || has_slash r
  end.

(** [p[:p.rfind("/") + 1]] *)
Fixpoint up_to_last_slash (s : string) : string :=
  match s with
  | EmptyString => EmptyString
  | String c r =>
      if has_slash r then String c (up_to_last_slash r)
      else if Ascii.eqb c "/" then String c EmptyString else EmptyString
  end.

Fixpoint all_slashes (s : string) : bool :=
  match s with
  | EmptyString => true
  | String c r => Ascii.eqb c "/" && all_slashes r
  end.

Fixpoint rstrip_slashes (s : string) : string :=
  match s with
  | EmptyString => EmptyString
  | String c r =>
      match rstrip_slashes r with
      | EmptyString => if Ascii.eqb c "/" then EmptyString else String c EmptyString
      | r' => String c r'
      end
  end.

(** [os.path.dirname(p)] *)
Definition os_path_dirname (p : string) : string :=
  let head := up_to_last_slash p in
  if negb (String.eqb head "") && negb (all_slashes head)
  then rstrip_slashes head else head.

End World.
Export World.

(* ===================================================================== *)
(** * [certificate_authority.py]: class [PDFSigningCA] *)
(* ===================================================================== *)

Module CA.

Record PDFSigningCA := {
  ca_dir : string;
  ca_cert_path : string;
  ca_key_path : string;
  crl_path : string;
  serial_file : string }.

(** [PDFSigningCA.__init__] (the directory itself is not modelled). *)
Definition PDFSigningCA_init (ca_dir : string) : PDFSigningCA :=
  {| ca_dir := ca_dir;
     ca_cert_path := os_path_join ca_dir "ca_cert.pem";
     ca_key_path := os_path_join ca_dir "ca_key.pem";
     crl_path := os_path_join ca_dir "ca_crl.pem";
     serial_file := os_path_join ca_dir "serial.txt" |}.

(** [PDFSigningCA()] with the default [ca_dir="certificates/ca"]. *)
Definition default_ca : PDFSigningCA := PDFSigningCA_init "certificates/ca".

(** Where [create_pdf_signing_certificate] stores its two files. *)
Definition cert_dir (self : PDFSigningCA) : string := os_path_dirname (ca_dir self).
Definition cert_path (self : PDFSigningCA) : string :=
  os_path_join (cert_dir self) "signing_cert.p12".
Definition ca_bundle_path (self : PDFSigningCA) : string :=
  os_path_join (cert_dir self) "ca_bundle.pem".

Definition ca_password : string := "ca_password_2024".
Definition p12_password : string := "digital_workspace_2024".

(** [x509.load_pem_x509_certificate(data)] *)
Definition load_pem_x509_certificate (data : file_content) : M certificate :=
  match data with
  | PemCertificate c => mret c
  | _ => raise (ValueError "Unable to load PEM file")
  end.

(** [serialization.load_pem_private_key(data, password)] *)
Definition load_pem_private_key (data : file_content) (password : string)
    : M private_key :=
  match data with
  | PemEncryptedKey k pw =>
      if String.eqb pw password then mret k
      else raise (ValueError "Bad decrypt. Incorrect password?")
  | _ => raise (ValueError "Could not deserialize key data")
  end.

(** The builders' [.serial_number(n)] check. *)
Definition builder_serial_number (n : Z) : M unit :=
  if serial_number_ok n then mret tt
  else raise (ValueError "The serial number should be positive and fit in 159 bits").

Definition ca_subject : x509_name :=
  [ (COUNTRY_NAME, "IN"); (STATE_OR_PROVINCE_NAME, "Tamil Nadu");
    (LOCALITY_NAME, "Chennai"); (ORGANIZATION_NAME, "FTE Digital Workspace CA");
    (ORGANIZATIONAL_UNIT_NAME, "Certificate Authority");
    (COMMON_NAME, "FTE PDF Signing Root CA"); (EMAIL_ADDRESS, "ca@fte.com") ].

(** [create_ca_certificate] *)
Definition create_ca_certificate (self : PDFSigningCA)
    : M (certificate * private_key) :=
  ca_private_key ← generate_private_key 65537 4096;
  builder_serial_number 1;;
  t_before ← datetime_now;
  t_after ← datetime_now;
  let ca_cert :=
    {| subject := ca_subject;
       issuer := ca_subject;
       cert_public_key := public_key_of ca_private_key;
       serial_number := 1;
       not_valid_before := t_before;
       not_valid_after := t_after + timedelta_days (365 * 10);
       extensions :=
         [ (BasicConstraints true (Some 0), true);
           (KeyUsage {| digital_signature := true; content_commitment := false;
                        key_encipherment := false; data_encipherment := false;
                        key_agreement := false; key_cert_sign := true;
                        crl_sign := true; encipher_only := false;
                        decipher_only := false |}, true);
           (SubjectKeyIdentifier (public_key_of ca_private_key), false);
           (AuthorityKeyIdentifier (public_key_of ca_private_key), false) ];
       signature_by := public_key_of ca_private_key;
       signature_hash := SHA256 |} in
  write_file (Path (ca_cert_path self)) (PemCertificate ca_cert);;
  write_file (Path (ca_key_path self)) (PemEncryptedKey ca_private_key ca_password);;
  write_file (Path (serial_file self)) (Text "2");;
  mret (ca_cert, ca_private_key).

(** [load_ca_certificate] *)
Definition load_ca_certificate (self : PDFSigningCA)
    : M (certificate * private_key) :=
  cert_there ← os_path_exists (Path (ca_cert_path self));
  key_there ← os_path_exists (Path (ca_key_path self));
  if negb cert_there || negb key_there then create_ca_certificate self
  else
    cert_data ← read_file (Path (ca_cert_path self));
    ca_cert ← load_pem_x509_certificate cert_data;
    key_data ← read_file (Path (ca_key_path self));
    ca_private_key ← load_pem_private_key key_data ca_password;
    mret (ca_cert, ca_private_key).

(** [get_next_serial_number].  The file is read in text mode; content
    that does not decode or is no integer literal raises [ValueError]. *)
Definition get_next_serial_number (self : PDFSigningCA) : M Z :=
  there ← os_path_exists (Path (serial_file self));
  serial ← (if negb there then mret 2
            else
              data ← read_file (Path (serial_file self));
              match data with
              | Text s =>
                  match int (strip s) with
                  | Some n => mret n
                  | None => raise (ValueError "invalid literal for int() with base 10")
                  end
              | _ => raise (ValueError "invalid literal for int() with base 10")
              end);
  write_file (Path (serial_file self)) (Text (str (serial + 1)));;
  mret serial.

(** [_create_simple_pkcs12]: pyOpenSSL, key and certificate only. *)
Definition _create_simple_pkcs12 (key : private_key) (cert : certificate)
    : M pkcs12 :=
  backend ← get_pkcs12_backend;
  match backend with
  | NoPkcs12 => raise (Exception "Cannot create PKCS#12 bundle - missing dependencies")
  | _ => mret {| p12_name := None; p12_key := key; p12_cert := cert; p12_cas := [] |}
  end.

(** [_create_pkcs12_with_openssl]: the [openssl] command line, with the
    manual bundle when the command fails.  (Its scratch files live in a
    private [TemporaryDirectory] and are not modelled.) *)
Definition _create_pkcs12_with_openssl (key : private_key) (cert ca_cert : certificate)
    (common_name : string) : M pkcs12 :=
  backend ← get_pkcs12_backend;
  match backend with
  | NativePkcs12 | OpenSSLCommand =>
      mret {| p12_name := Some (common_name +:+ " PDF Signing Certificate");
              p12_key := key; p12_cert := cert; p12_cas := [ca_cert] |}
  | _ => _create_simple_pkcs12 key cert
  end.

Definition signing_subject (common_name email : string) : x509_name :=
  [ (COUNTRY_NAME, "IN"); (STATE_OR_PROVINCE_NAME, "Tamil Nadu");
    (LOCALITY_NAME, "Chennai"); (ORGANIZATION_NAME, "PERSONAL");
    (ORGANIZATIONAL_UNIT_NAME, "Individual");
    (COMMON_NAME, common_name); (EMAIL_ADDRESS, email) ].

(** [create_pdf_signing_certificate(common_name, email)].  The subject
    strings are taken to be ones the x509 library accepts. *)
Definition create_pdf_signing_certificate (self : PDFSigningCA)
    (common_name email : string) : M (string * string) :=
  '(ca_cert, ca_private_key) ← load_ca_certificate self;
  cert_private_key ← generate_private_key 65537 2048;
  let cert_subject := signing_subject common_name email in
  serial_number ← get_next_serial_number self;
  builder_serial_number serial_number;;
  t_before ← datetime_now;
  t_after ← datetime_now;
  let cert :=
    {| subject := cert_subject;
       issuer := subject ca_cert;
       cert_public_key := public_key_of cert_private_key;
       serial_number := serial_number;
       not_valid_before := t_before;
       not_valid_after := t_after + timedelta_days (365 * 3);
       extensions :=
         [ (BasicConstraints false None, true);
           (KeyUsage {| digital_signature := true; content_commitment := true;
                        key_encipherment := false; data_encipherment := false;
                        key_agreement := false; key_cert_sign := false;
                        crl_sign := false; encipher_only := false;
                        decipher_only := false |}, true);
           (ExtendedKeyUsage [CODE_SIGNING; EMAIL_PROTECTION; CLIENT_AUTH], true);
           (SubjectAlternativeName [email], false);
           (SubjectKeyIdentifier (public_key_of cert_private_key), false);
           (AuthorityKeyIdentifier (public_key_of ca_private_key), false);
           (CRLDistributionPoints ["http://localhost:8000/pdf-signature/crl/"], false);
           (AuthorityInformationAccess
              ["http://localhost:8000/pdf-signature/ca-cert/"], false) ];
       signature_by := public_key_of ca_private_key;
       signature_hash := SHA256 |} in
  backend ← get_pkcs12_backend;
  p12_data ← match backend with
             | NativePkcs12 =>
                 mret {| p12_name := Some (common_name +:+ " PDF Signing Certificate");
                         p12_key := cert_private_key; p12_cert := cert;
                         p12_cas := [ca_cert] |}
             | _ => _create_pkcs12_with_openssl cert_private_key cert ca_cert common_name
             end;
  write_file (Path (cert_path self)) (Pkcs12File p12_data p12_password);;
  write_file (Path (ca_bundle_path self)) (PemCertificate ca_cert);;
  mret (cert_path self, ca_bundle_path self).

(** The [for serial in revoked_serials] loop of [create_crl]. *)
Fixpoint add_revoked_certificates (revoked_serials : list Z)
    : M (list revoked_certificate) :=
  match revoked_serials with
  | [] => mret []
  | serial :: rest =>
      builder_serial_number serial;;
      t ← datetime_now;
      entries ← add_revoked_certificates rest;
      mret ({| rc_serial_number := serial; revocation_date := t |} :: entries)
  end.

(** [create_crl(revoked_serials=None)] *)
Definition create_crl (self : PDFSigningCA) (revoked_serials : option (list Z))
    : M string :=
  '(ca_cert, ca_private_key) ← load_ca_certificate self;
  let revoked_serials := default [] revoked_serials in
  t_last ← datetime_now;
  t_next ← datetime_now;
  entries ← add_revoked_certificates revoked_serials;
  let crl :=
    {| crl_issuer := subject ca_cert;
       last_update := t_last;
       next_update := t_next + timedelta_days 30;
       revoked := entries;
       crl_signature_by := public_key_of ca_private_key;
       crl_signature_hash := SHA256 |} in
  write_file (Path (crl_path self)) (PemCrl crl);;
  mret (crl_path self).

(** [setup_ca_infrastructure()] *)
Definition setup_ca_infrastructure : M (string * string * string * string) :=
  let ca := default_ca in
  load_ca_certificate ca;;
  '(cert_path, ca_bundle_path) ← create_pdf_signing_certificate ca "ARUL M" "m.arul@fte.com";
  crl_path ← create_crl ca None;
  mret (cert_path, ca_bundle_path, crl_path, ca_cert_path ca).

(** ** Histories of CA operations *)

(** The entry points of the class a caller uses. *)
Inductive ca_op :=
| OpLoad
| OpIssue (common_name email : string)
| OpCrl (revoked_serials : option (list Z)).

Definition run_op (self : PDFSigningCA) (op : ca_op) (w : world) : world :=
  match op with
  | OpLoad => (load_ca_certificate self w).2
  | OpIssue cn email => (create_pdf_signing_certificate self cn email w).2
  | OpCrl l => (create_crl self l w).2
  end.

Definition run_ops (self : PDFSigningCA) (ops : list ca_op) (w : world) : world :=
  fold_left (λ w op, run_op self op w) ops w.

(** The serial number of the certificate an issuance has just stored. *)
Definition stored_serial (self : PDFSigningCA) (w : world) : option Z :=
  match files w !! Path (cert_path self) with
  | Some (Pkcs12File b _) => Some (serial_number (p12_cert b))
  | _ => None
  end.

(** Runs the issuances one after the other; for each one that returns,
    the serial number of the certificate it issued. *)
Fixpoint issued_serials (self : PDFSigningCA) (reqs : list (string * string))
    (w : world) : list Z :=
  match reqs with
  | [] => []
  | (cn, email) :: rest =>
      match create_pdf_signing_certificate self cn email w with
      | (Ok _, w') =>
          match stored_serial self w' with
          | Some s => s :: issued_serials self rest w'
          | None => issued_serials self rest w'
          end
      | (Raise _, w') => issued_serials self rest w'
      end
  end.

(** How [create_pdf_signing_certificate] begins, up to and including its
    call of the allocator. *)
Definition allocation_step (self : PDFSigningCA) : M Z :=
  load_ca_certificate self ;; generate_private_key 65537 2048 ;;
  get_next_serial_number self.

(** All values the allocator hands out during a run of issuances: each
    issuance loads the CA, draws the leaf key and then calls the
    allocator; [allocated] follows exactly these steps and keeps what the
    allocator returned, whether or not the issuance later completes. *)
Fixpoint allocated (self : PDFSigningCA) (reqs : list (string * string))
    (w : world) : list Z :=
  match reqs with
  | [] => []
  | (cn, email) :: rest =>
      let w' := (create_pdf_signing_certificate self cn email w).2 in
      match allocation_step self w with
      | (Ok s, _) => s :: allocated self rest w'
      | (Raise _, _) => allocated self rest w'
      end
  end.

(** The files of one CA instance are pairwise different paths. *)
Definition paths_distinct (self : PDFSigningCA) : Prop :=
  NoDup [ca_cert_path self; ca_key_path self; crl_path self; serial_file self;
         cert_path self; ca_bundle_path self].

#[global] Instance paths_distinct_dec self : Decision (paths_distinct self).
Proof. unfold paths_distinct. apply _. Defined.

(** Both files of the root are there. *)
Definition ca_present (self : PDFSigningCA) (w : world) : Prop :=
  is_Some (files w !! Path (ca_cert_path self)) ∧
  is_Some (files w !! Path (ca_key_path self)).

#[global] Instance ca_present_dec self w : Decision (ca_present self w).
Proof. unfold ca_present. apply _. Defined.

(** What the serial file stands for: the next serial number, or nothing
    when its content is no integer. *)
Definition next_value (self : PDFSigningCA) (w : world) : option Z :=
  match files w !! Path (serial_file self) with
  | None => Some 2
  | Some (Text s) => int (strip s)
  | Some _ => None
  end.

(** The length of the validity window. *)
Definition validity_window (c : certificate) : Z :=
  not_valid_after c - not_valid_before c.

(** The world after the issuance requests [reqs], run one after the other. *)
Definition after_issuing (self : PDFSigningCA) (reqs : list (string * string))
    (w : world) : world :=
  run_ops self ((λ r, OpIssue r.1 r.2) <$> reqs) w.

(** The revoke contract as the specification words it, for the serial
    numbers [issued_serials] has seen issued: revoking [s] adds an entry
    for [s] exactly when [s] was issued, and fails when it was not. *)
Definition revoke_contract (self : PDFSigningCA) (reqs : list (string * string))
    (w0 : world) (s : Z) : Prop :=
  match create_crl self (Some [s]) (after_issuing self reqs w0) with
  | (Ok _, w') =>
      s ∈ issued_serials self reqs w0 ∧
      ∃ l, files w' !! Path (crl_path self) = Some (PemCrl l) ∧
           s ∈ rc_serial_number <$> revoked l
  | (Raise _, _) => s ∉ issued_serials self reqs w0
  end.

(** A world with no files at all, at a given instant. *)
Definition empty_world (t : Z) : world :=
  {| files := ∅; clock := t; ticks := []; next_key_id := 0; next_tmp := 0;
     pkcs12_backend := NativePkcs12; lib_calls := [] |}.

End CA.
Export CA.

(* ===================================================================== *)
(** * Third-party libraries, as interfaces *)
(* ===================================================================== *)

Module Lib.

(** [endesive.pdf.cms.sign] returns the bytes of the incremental update
    to append; [endesive.pdf.verify.verify] returns a Python object the
    caller iterates over. *)
Record endesive_lib := {
  endesive_cms_sign :
    bytes → gmap string pyval → private_key → certificate → list certificate →
    string → result bytes;
  endesive_verify_func : bytes → list certificate → result pyval }.

(** What pyHanko's [validate_pdf_signature] reports. *)
Record validation_status := {
  vs_valid : bool;
  vs_trusted : bool;
  vs_modification_level : string;
  vs_summary : string;
  vs_errors : list string;
  vs_warnings : list string }.

Record embedded_signature := { sig_field_name : string; sig_contents : bytes }.

(** [signers.sign_pdf] returns the whole updated document;
    [pages_count] is what the reader finds under [/Pages]: nothing, a
    node without [/Count], or the count. *)
Record pyhanko_lib := {
  pyhanko_sign_pdf :
    bytes → gmap string pyval → simple_signer → option text_stamp_style → bool →
    result bytes;
  pyhanko_pages_count : bytes → result (option (option Z));
  pyhanko_embedded_signatures : bytes → result (list embedded_signature);
  pyhanko_validate_pdf_signature : embedded_signature → result validation_status }.

(** The installation: which libraries import ([ENDESIVE_AVAILABLE],
    [PYHANKO_AVAILABLE]), PyPDF2's page count, and UTF-8 decoding with
    [errors="ignore"]. *)
Record libraries := {
  endesive : option endesive_lib;
  pyhanko : option pyhanko_lib;
  PdfReader_pages : bytes → result nat;
  utf8_decode_ignore : bytes → string }.

(** Module-level configuration of [utils.py], read from the environment. *)
Record config := {
  CERTIFICATE_P12_PATH : string;
  CERTIFICATE_PASSWORD : string;
  TSA_URL : option string }.

Definition default_config : config :=
  {| CERTIFICATE_P12_PATH := "certificates/signing_cert.p12";
     CERTIFICATE_PASSWORD := "digital_workspace_2024";
     TSA_URL := None |}.

End Lib.
Export Lib.

(* ===================================================================== *)
(** * [utils.py]: the endesive signing engine and the verifier *)
(* ===================================================================== *)

Module Utils.

Definition upper_char (c : ascii) : ascii :=
  let n := nat_of_ascii c in
  if Nat.leb 97 n && Nat.leb n 122 then ascii_of_nat (n - 32) else c.

(** [s.upper()] on ASCII letters. *)
Fixpoint upper (s : string) : string :=
  match s with
  | EmptyString => EmptyString
  | String c r => String (upper_char c) (upper r)
  end.

(** [needle in s] *)
Definition contains (needle s : string) : bool :=
  match String.index 0 needle s with Some _ => true | None => false end.

(** [open(p, "rb").read()] of a document.  Files holding certificates or
    keys have no byte representation in this model; handing one to the
    engine as a document reads as an error. *)
Definition read_bytes (p : path) : M bytes :=
  data ← read_file p;
  match data with
  | Binary b => mret b
  | _ => raise (LibraryError "not a document")
  end.

(** [serialization.pkcs12.load_key_and_certificates(data, password)] *)
Definition pkcs12_load_key_and_certificates (data : file_content) (password : string)
    : M (private_key * certificate * list certificate) :=
  match data with
  | Pkcs12File b pw =>
      if String.eqb pw password then mret (p12_key b, p12_cert b, p12_cas b)
      else raise (ValueError "Invalid password or PKCS12 data")
  | _ => raise (ValueError "Could not deserialize PKCS12 data")
  end.

Definition DEFAULT_SIGNER_INFO : gmap string string :=
  <["email" := "m.arul@fte.com"]> (<["locality" := "Chennai"]>
  (<["state" := "Tamil Nadu"]> (<["country" := "IN"]>
  (<["organizational_unit" := "Individual"]> (<["organization" := "PERSONAL"]>
  (<["common_name" := "ARUL M"]> ∅)))))).

Definition attrs_map : list (name_oid * string) :=
  [ (ORGANIZATION_NAME, "organization");
    (ORGANIZATIONAL_UNIT_NAME, "organizational_unit");
    (COUNTRY_NAME, "country"); (STATE_OR_PROVINCE_NAME, "state");
    (LOCALITY_NAME, "locality"); (EMAIL_ADDRESS, "email") ].

(** [get_signer_info_from_cert]: a certificate without a common name
    raises inside the [try] and leaves the defaults. *)
Definition get_signer_info_from_cert (the_cert : certificate)
    : gmap string string :=
  let info := DEFAULT_SIGNER_INFO in
  match get_attributes_for_oid (subject the_cert) COMMON_NAME with
  | [] => info
  | cn :: _ =>
      fold_left
        (λ info (entry : name_oid * string),
           match get_attributes_for_oid (subject the_cert) entry.1 with
           | [] => info
           | v :: _ => <[entry.2 := v]> info
           end)
        attrs_map (<["common_name" := cn]> info)
  end.

(** Class [SignatureAppearance]. *)
Record SignatureAppearance := {
  signer_info : gmap string string;
  box : Z * Z * Z * Z;
  font_size_normal : Z;
  font_size_large : Z;
  font_name : string;
  font_name_fallback : string }.

Definition SignatureAppearance_init (signer_info : gmap string string)
    : SignatureAppearance :=
  {| signer_info := signer_info;
     box := (450, 50, 580, 120);
     font_size_normal := 10; font_size_large := 12;
     font_name := "Helvetica"; font_name_fallback := "Times-Roman" |}.

Definition get_compatible_font (self : SignatureAppearance) : string :=
  font_name self.

Definition box_value (b : Z * Z * Z * Z) : pyval :=
  let '(x1, y1, x2, y2) := b in VTuple [VInt x1; VInt y1; VInt x2; VInt y2].

Definition text_box (self : SignatureAppearance) (text : string)
    (x y height size : Z) : pyval :=
  let '(x1, _, x2, _) := box self in
  VList [VStr "text_box"; VStr text; VStr (get_compatible_font self);
         VInt x; VInt y; VInt (x2 - x1 - x * 2); VInt height; VInt size;
         VBool true; VStr "left"; VStr "top"].

(** [SignatureAppearance.build_appearance_dict(page_num)] *)
Definition build_appearance_dict (self : SignatureAppearance) (page_num : Z)
    : M (gmap string pyval) :=
  current_time ← datetime_now;
  let chennai_time := datetime_at current_time chennai_offset in
  let date_str := strftime "%d/%m/%Y" chennai_time in
  let time_str := strftime "%H:%M GMT +5:30" chennai_time in
  let signer_name := upper (default "Unknown Signer" (signer_info self !! "common_name")) in
  let location := default "Chennai" (signer_info self !! "locality") in
  let line_spacing := 15 in
  let x_offset := 5 in
  let y_line4 := 10 in
  let y_line3 := y_line4 + line_spacing in
  let y_line2 := y_line3 + line_spacing in
  let y_line1 := y_line2 + line_spacing in
  mret
    (<["signature_manual" :=
         VList [ VList [VStr "fill_colour"; VInt 0; VInt 0; VInt 0];
                 text_box self signer_name x_offset y_line1 15 (font_size_large self);
                 text_box self ("Date: " +:+ date_str) x_offset y_line2 12
                   (font_size_normal self);
                 text_box self ("Time: " +:+ time_str) x_offset y_line3 12
                   (font_size_normal self);
                 text_box self ("Location: " +:+ location) x_offset y_line4 12
                   (font_size_normal self) ]]>
     (<["signingdate" := VStr (strftime "D:%Y%m%d%H%M%S+05'30'" chennai_time)]>
     (<["contact" := VStr (default "" (signer_info self !! "email"))]>
     (<["location" := VStr location]> ∅)))).

Section WithInstallation.

Context (L : libraries) (cfg : config).

(** [get_pdf_page_count(pdf_path)] *)
Definition get_pdf_page_count (pdf_path : path) : M nat :=
  data ← read_bytes pdf_path;
  match PdfReader_pages L data with
  | Ok n => mret n
  | Raise e => raise e
  end.

(** [load_certificate_data()] *)
Definition load_certificate_data
    : M (private_key * certificate * list certificate) :=
  there ← os_path_exists (Path (CERTIFICATE_P12_PATH cfg));
  if negb there then
    raise (FileNotFoundError
             ("Certificate file not found: " +:+ CERTIFICATE_P12_PATH cfg))
  else
    try_except
      (p12_data ← read_file (Path (CERTIFICATE_P12_PATH cfg));
       pkcs12_load_key_and_certificates p12_data (CERTIFICATE_PASSWORD cfg))
      (λ e, match e with
            | ValueError msg =>
                if contains "MAC check failed" msg || contains "decryption failed" msg
                then raise (ValueError "Incorrect certificate password.")
                else raise e
            | _ => raise e
            end).

(** The call [endesive_cms.sign(...)], noted in the call trace. *)
Definition cms_sign (E : endesive_lib) (datau : bytes) (udct : gmap string pyval)
    (key : private_key) (cert : certificate) (othercerts : list certificate)
    (algomd : string) : M bytes :=
  let ret := endesive_cms_sign E datau udct key cert othercerts algomd in
  record_call (EndesiveSign datau udct key cert othercerts algomd ret);;
  match ret with
  | Ok sig => mret sig
  | Raise e => raise e
  end.

(** [{"tsaurl": TSA_URL} if TSA_URL else {}] *)
Definition tsa_entries : gmap string pyval :=
  match TSA_URL cfg with
  | Some url => if String.eqb url "" then ∅ else {["tsaurl" := VStr url]}
  | None => ∅
  end.

(** The dictionary of the certification signature, built at instant [t]. *)
Definition certify_dct (signer_info : gmap string string) (t : Z)
    : gmap string pyval :=
  tsa_entries ∪
  (<["docmdp" := VInt 1]>
  (<["subfilter" := VStr "/adbe.pkcs7.detached"]>
  (<["certification_level" := VInt 1]>
  (<["signingdate" := VStr (strftime "D:%Y%m%d%H%M%S+00'00'" (datetime_at t 0))]>
  (<["contact" := VStr (default "" (signer_info !! "email"))]>
  (<["location" := VStr (default "Chennai" (signer_info !! "locality"))]>
  (<["auto_sigfield" := VBool true]>
  (<["sigfield" := VStr "CertificationSig"]>
  (<["sigpage" := VInt 0]>
  (<["sigflags" := VInt 3]> ∅)))))))))).

(** The dictionary of the approval signature of one page; the entries of
    [appearance] come last and win. *)
Definition page_sig_dct (appearance_config : SignatureAppearance) (page_num : Z)
    (appearance : gmap string pyval) : gmap string pyval :=
  appearance ∪ (tsa_entries ∪
  (<["subfilter" := VStr "/adbe.pkcs7.detached"]>
  (<["signaturebox" := box_value (box appearance_config)]>
  (<["auto_sigfield" := VBool true]>
  (<["sigfield" := VStr ("ApprovalSignature_Page" +:+ str (page_num + 1))]>
  (<["sigpage" := VInt page_num]>
  (<["sigflags" := VInt 3]> ∅))))))).

(** The loop [for page_num in range(page_count)], from [page_num] on. *)
Fixpoint approval_loop (E : endesive_lib) (appearance_config : SignatureAppearance)
    (the_key : private_key) (the_cert : certificate)
    (ca_certificates : list certificate) (temp_dir : nat)
    (pages : list nat) (current_pdf_path : path) : M path :=
  match pages with
  | [] => mret current_pdf_path
  | page_num :: rest =>
      let page_num := Z.of_nat page_num in
      let page_output_path :=
        TempPath temp_dir ("page_" +:+ str page_num +:+ "_signed.pdf") in
      pdf_data_page_in ← read_bytes current_pdf_path;
      appearance ← build_appearance_dict appearance_config page_num;
      page_signature_data ←
        cms_sign E pdf_data_page_in
          (page_sig_dct appearance_config page_num appearance)
          the_key the_cert ca_certificates "sha256";
      write_file page_output_path (Binary (pdf_data_page_in ++ page_signature_data));;
      approval_loop E appearance_config the_key the_cert ca_certificates
        temp_dir rest page_output_path
  end.

(** The [try] block shared by the two endesive entry points. *)
Definition signing_steps (E : endesive_lib) (appearance_config : SignatureAppearance)
    (signer_info : gmap string string)
    (the_key : private_key) (the_cert : certificate)
    (ca_certificates : list certificate) (temp_dir : nat)
    (input_path output_path : string) : M string :=
  let certified_pdf_path := TempPath temp_dir "certified.pdf" in
  t ← datetime_now;
  let certify_dct := certify_dct signer_info t in
  pdf_data_in ← read_bytes (Path input_path);
  certify_signature_data ←
    cms_sign E pdf_data_in certify_dct the_key the_cert ca_certificates "sha256";
  write_file certified_pdf_path (Binary (pdf_data_in ++ certify_signature_data));;
  page_count ← get_pdf_page_count certified_pdf_path;
  current_pdf_path ←
    approval_loop E appearance_config the_key the_cert ca_certificates
      temp_dir (seq 0 page_count) certified_pdf_path;
  shutil_move current_pdf_path (Path output_path);;
  mret output_path.

(** [sign_pdf_multi_page_with_proper_mdp(input_path, output_path)] *)
Definition sign_pdf_multi_page_with_proper_mdp (input_path output_path : string)
    : M string :=
  match endesive L with
  | None => raise (Exception "Endesive library is required for PDF signing.")
  | Some E =>
      '(the_key, the_cert, ca_certificates) ← load_certificate_data;
      let signer_info := get_signer_info_from_cert the_cert in
      let appearance_config := SignatureAppearance_init signer_info in
      temp_dir ← mkdtemp;
      try_finally
        (try_except
           (signing_steps E appearance_config signer_info the_key the_cert
              ca_certificates temp_dir input_path output_path)
           (λ e, raise e))
        (try_except (rmtree temp_dir) (λ _, mret tt))
  end.

(** [sign_pdf_multi_page(input_path, output_path)]: the same steps; on
    an exception the original is copied to a missing [output_path]. *)
Definition sign_pdf_multi_page (input_path output_path : string) : M string :=
  match endesive L with
  | None => raise (Exception "Endesive library is required for PDF signing.")
  | Some E =>
      '(the_key, the_cert, ca_certificates) ← load_certificate_data;
      let signer_info := get_signer_info_from_cert the_cert in
      let appearance_config := SignatureAppearance_init signer_info in
      temp_dir ← mkdtemp;
      try_finally
        (try_except
           (signing_steps E appearance_config signer_info the_key the_cert
              ca_certificates temp_dir input_path output_path)
           (λ e,
              out_there ← os_path_exists (Path output_path);
              in_there ← os_path_exists (Path input_path);
              (if negb out_there && in_there
               then try_except (shutil_copy2 (Path input_path) (Path output_path))
                               (λ _, mret tt)
               else mret tt);;
              raise e))
        (rmtree temp_dir)
  end.

(** One entry of the verifier's report: name, validity, details. *)
Definition report_entry : Type := string * pyval * gmap string pyval.

(** The body of the loop over [verified_signatures]: [None] when the
    element is skipped (not five values, or an exception while it is
    unpacked and decoded). *)
Definition process_verification_result (verification_result : pyval)
    : option report_entry :=
  match py_len verification_result with
  | Some 5 =>
      match py_iter verification_result with
      | Some [sig_name; cert_bytes; signed_data; signature_ok; hash_ok] =>
          match sig_name with
          | VBytes b =>
              let sig_name_str := utf8_decode_ignore L b in
              match (if truthy cert_bytes then py_len cert_bytes else Some 0) with
              | Some certificate_size =>
                  Some (sig_name_str, py_and signature_ok hash_ok,
                        <["certificate_size" := VInt certificate_size]>
                        (<["hash_ok" := hash_ok]>
                        (<["cryptographically_valid" := signature_ok]>
                        (<["signature_name" := VStr sig_name_str]> ∅))))
              | None => None
              end
          | _ => None
          end
      | _ => None
      end
  | _ => None
  end.

(** [verify_pdf_signature(pdf_path)] *)
Definition verify_pdf_signature (pdf_path : string) : M (list report_entry) :=
  match endesive L with
  | None => mret []
  | Some E =>
      try_except
        (pdf_data ← read_bytes (Path pdf_path);
         match endesive_verify_func E pdf_data [] with
         | Raise e => raise e
         | Ok verified_signatures =>
             if negb (truthy verified_signatures) then mret []
             else
               match py_len verified_signatures, py_iter verified_signatures with
               | Some _, Some results =>
                   mret (omap process_verification_result results)
               | _, _ => raise (LibraryError "TypeError")
               end
         end)
        (λ _, mret [])
  end.

(** [verify_individual_page_signatures(pdf_path)] *)
Definition verify_individual_page_signatures (pdf_path : string)
    : M (list report_entry) :=
  verify_pdf_signature pdf_path.

End WithInstallation.

End Utils.
Export Utils.

(* ===================================================================== *)
(** * [pyhanko_signer.py] *)
(* ===================================================================== *)

Module PyHanko.

Definition SIGNATURE_LOCATION : string := "Chennai".
Definition SIGNER_NAME : string := "ARUL M".

(** [SigMDPPerm.NO_CHANGES] *)
Definition NO_CHANGES : pyval := VInt 1.
(** [SigSeedSubFilter.ADOBE_PKCS7_DETACHED] *)
Definition ADOBE_PKCS7_DETACHED : pyval := VStr "/adbe.pkcs7.detached".

(** Keyword arguments of the certification [PdfSignatureMetadata]. *)
Definition cert_meta : gmap string pyval :=
  <["location" := VStr SIGNATURE_LOCATION]>
  (<["subfilter" := ADOBE_PKCS7_DETACHED]>
  (<["docmdp_permissions" := NO_CHANGES]>
  (<["certify" := VBool true]>
  (<["field_name" := VStr "CertificationSignature"]> ∅)))).

(** Keyword arguments of the approval [PdfSignatureMetadata] of page [i]. *)
Definition approval_meta (i : Z) : gmap string pyval :=
  <["box" := VTuple [VInt 450; VInt 50; VInt 580; VInt 120]]>
  (<["page" := VInt i]>
  (<["location" := VStr SIGNATURE_LOCATION]>
  (<["field_name" := VStr ("ApprovalSignaturePage" +:+ str (i + 1))]> ∅))).

Definition newline : string := String "010"%char EmptyString.

(** The [TextStampStyle] of page [i], rendered from [now_local]. *)
Definition approval_stamp (now_local : datetime) : text_stamp_style :=
  let date_str := strftime "%d/%m/%Y" now_local in
  let time_str := strftime "%H:%M GMT +5:30" now_local in
  {| stamp_text :=
       SIGNER_NAME +:+ newline +:+
       "Date: " +:+ date_str +:+ newline +:+
       "Time: " +:+ time_str +:+ newline +:+
       "Location: " +:+ SIGNATURE_LOCATION;
     text_box_font_size := 10;
     box_width := 130; box_height := 70 |}.

Section WithInstallation.

Context (L : libraries) (cfg : config).

(** The call [signers.sign_pdf(...)] followed by [.getvalue()], noted in
    the call trace. *)
Definition sign_pdf (P : pyhanko_lib) (pdf_in : bytes) (meta : gmap string pyval)
    (signer : simple_signer) (stamp_style : option text_stamp_style)
    (certify : bool) : M bytes :=
  let ret := pyhanko_sign_pdf P pdf_in meta signer stamp_style certify in
  record_call (PyhankoSign pdf_in meta signer stamp_style certify ret);;
  match ret with
  | Ok out => mret out
  | Raise e => raise e
  end.

(** [get_certificate_info_pyhanko(cert_path, password)] *)
Definition get_certificate_info_pyhanko (cert_path password : string)
    : M simple_signer :=
  match pyhanko L with
  | None => raise (ImportError "PyHanko library is not available")
  | Some _ =>
      try_except
        (data ← read_file (Path cert_path);
         match data with
         | Pkcs12File b pw =>
             if String.eqb pw password
             then mret {| signer_key := p12_key b; signer_cert := p12_cert b;
                          signer_registry := p12_cert b :: p12_cas b |}
             else raise (LibraryError "could not load PKCS#12 file")
         | _ => raise (LibraryError "could not load PKCS#12 file")
         end)
        (λ e, raise e)
  end.

(** The loop [for i in range(num_pages)]. *)
Fixpoint pyhanko_approval_loop (P : pyhanko_lib) (signer : simple_signer)
    (pages : list nat) (current_pdf_data : bytes) : M bytes :=
  match pages with
  | [] => mret current_pdf_data
  | i :: rest =>
      let i := Z.of_nat i in
      t ← datetime_now;
      let now_local := datetime_at t chennai_offset in
      out ← sign_pdf P current_pdf_data (approval_meta i) signer
              (Some (approval_stamp now_local)) false;
      pyhanko_approval_loop P signer rest out
  end.

(** [sign_pdf_pyhanko_with_proper_mdp(input_pdf_path, output_pdf_path,
    cert_path, cert_password)] (the output directory is not modelled). *)
Definition sign_pdf_pyhanko_with_proper_mdp
    (input_pdf_path output_pdf_path cert_path cert_password : string) : M string :=
  match pyhanko L with
  | None => raise (ImportError "PyHanko library is not available. Please install: pip install pyHanko")
  | Some P =>
      try_except
        (signer ← get_certificate_info_pyhanko cert_path cert_password;
         pdf_data ← read_bytes (Path input_pdf_path);
         num_pages ←
           match pyhanko_pages_count P pdf_data with
           | Raise e => raise e
           | Ok None => raise (ValueError "Could not find /Pages node in PDF root.")
           | Ok (Some None) =>
               raise (ValueError "Could not determine page count from /Pages dictionary.")
           | Ok (Some (Some n)) => mret n
           end;
         certified_pdf_data ← sign_pdf P pdf_data cert_meta signer None true;
         current_pdf_data ←
           pyhanko_approval_loop P signer (seq 0 (Z.to_nat num_pages))
             certified_pdf_data;
         write_file (Path output_pdf_path) (Binary current_pdf_data);;
         mret output_pdf_path)
        (λ e, raise e)
  end.

(** One entry of the pyHanko verifier's report. *)
Definition pyhanko_entry : Type := string * bool * gmap string pyval.

(** The body of the loop over the embedded signatures. *)
Definition validate_one (P : pyhanko_lib) (sig_obj : embedded_signature)
    : pyhanko_entry :=
  match pyhanko_validate_pdf_signature P sig_obj with
  | Ok validation_status =>
      (sig_field_name sig_obj, vs_valid validation_status,
       <["warnings" := VList (VStr <$> vs_warnings validation_status)]>
       (<["errors" := VList (VStr <$> vs_errors validation_status)]>
       (<["summary" := VStr (vs_summary validation_status)]>
       (<["modification_level" := VStr (vs_modification_level validation_status)]>
       (<["trusted" := VBool (vs_trusted validation_status)]>
       (<["valid" := VBool (vs_valid validation_status)]>
       (<["signature_name" := VStr (sig_field_name sig_obj)]> ∅)))))))
  | Raise e =>
      (sig_field_name sig_obj, false,
       {["error" := VStr match e with
                         | FileNotFoundError m | ValueError m | ImportError m
                         | Exception m | SigningError m
                         | SignatureValidationError m | LibraryError m => m
                         end]})
  end.

(** [verify_pdf_signature_pyhanko(pdf_path)] *)
Definition verify_pdf_signature_pyhanko (pdf_path : string)
    : M (list pyhanko_entry) :=
  match pyhanko L with
  | None => mret []
  | Some P =>
      try_except
        (pdf_data ← read_bytes (Path pdf_path);
         match pyhanko_embedded_signatures P pdf_data with
         | Raise e => raise e
         | Ok embedded_sig_info => mret (validate_one P <$> embedded_sig_info)
         end)
        (λ _, mret [])
  end.

(** [sign_pdf_multi_page_pyhanko(input_path, output_path)] *)
Definition sign_pdf_multi_page_pyhanko (input_path output_path : string) : M string :=
  sign_pdf_pyhanko_with_proper_mdp input_path output_path
    (CERTIFICATE_P12_PATH cfg) (CERTIFICATE_PASSWORD cfg).

(** [utils.sign_pdf_cryptographically(input_path, output_path,
    use_pyhanko=False)]: an [ImportError] of the pyHanko route falls
    back to the endesive engine. *)
Definition sign_pdf_cryptographically (input_path output_path : string)
    (use_pyhanko : bool) : M string :=
  if use_pyhanko then
    try_except (sign_pdf_multi_page_pyhanko input_path output_path)
      (λ e, match e with
            | ImportError _ =>
                sign_pdf_multi_page_with_proper_mdp L cfg input_path output_path
            | _ => raise e
            end)
  else sign_pdf_multi_page_with_proper_mdp L cfg input_path output_path.

End WithInstallation.

End PyHanko.
Export PyHanko.

(* ===================================================================== *)
(** * The entry points of the signing engine *)
(* ===================================================================== *)

Module Engines.

(** The three signing routes the repository offers. *)
Inductive engine :=
| Endesive          (* [sign_pdf_multi_page_with_proper_mdp] *)
| EndesiveLegacy    (* [sign_pdf_multi_page] *)
| PyHankoEngine.    (* [sign_pdf_multi_page_pyhanko] *)

Definition sign_with (e : engine) (L : libraries) (cfg : config)
    (input_path output_path : string) : M string :=
  match e with
  | Endesive => sign_pdf_multi_page_with_proper_mdp L cfg input_path output_path
  | EndesiveLegacy => sign_pdf_multi_page L cfg input_path output_path
  | PyHankoEngine => sign_pdf_multi_page_pyhanko L cfg input_path output_path
  end.

(** The number of pages the route counts: the endesive routes count the
    pages of the certified document, the pyHanko route those of the input. *)
Definition pages_counted (e : engine) (L : libraries) (pdf_in certified : bytes)
    : option nat :=
  match e with
  | Endesive | EndesiveLegacy =>
      match PdfReader_pages L certified with Ok n => Some n | Raise _ => None end
  | PyHankoEngine =>
      match pyhanko L with
      | Some P =>
          match pyhanko_pages_count P pdf_in with
          | Ok (Some (Some n)) => Some (Z.to_nat n)
          | _ => None
          end
      | None => None
      end
  end.

(** Does the route get its key and certificate? *)
Definition identity_loads (e : engine) (L : libraries) (cfg : config) (w : world)
    : bool :=
  match e with
  | Endesive | EndesiveLegacy =>
      bool_decide (is_Some (endesive L)) && is_ok (load_certificate_data cfg w).1
  | PyHankoEngine =>
      is_ok (get_certificate_info_pyhanko L (CERTIFICATE_P12_PATH cfg)
               (CERTIFICATE_PASSWORD cfg) w).1
  end.

End Engines.
Export Engines.

(* ===================================================================== *)
(** * Reading the trace of library calls *)
(* ===================================================================== *)

Module Trace.

(** What a signature request asks for. *)
Inductive request_kind :=
| Certification          (* certifying, DocMDP level 1 (no changes), invisible *)
| Approval (page : Z)    (* approval signature with a visible box on a page *)
| Unclassified.

Definition endesive_kind (udct : gmap string pyval) : request_kind :=
  match udct !! "certification_level", udct !! "docmdp",
        udct !! "signaturebox", udct !! "sigpage" with
  | Some (VInt 1), Some (VInt 1), None, _ => Certification
  | None, None, Some _, Some (VInt k) => Approval k
  | _, _, _, _ => Unclassified
  end.

Definition pyhanko_kind (meta : gmap string pyval) (certify : bool) : request_kind :=
  match certify, meta !! "certify", meta !! "docmdp_permissions", meta !! "page" with
  | true, Some (VBool true), Some (VInt 1), None => Certification
  | false, None, None, Some (VInt k) => Approval k
  | _, _, _, _ => Unclassified
  end.

Definition call_kind (c : lib_call) : request_kind :=
  match c with
  | EndesiveSign _ udct _ _ _ _ _ => endesive_kind udct
  | PyhankoSign _ meta _ _ certify _ => pyhanko_kind meta certify
  end.

(** The document a call was given. *)
Definition call_input (c : lib_call) : bytes :=
  match c with
  | EndesiveSign datau _ _ _ _ _ _ => datau
  | PyhankoSign pdf_in _ _ _ _ _ => pdf_in
  end.

(** The document after a call that succeeded: endesive returns the
    revision to append, pyHanko the whole updated document. *)
Definition call_document (c : lib_call) : option bytes :=
  match c with
  | EndesiveSign datau _ _ _ _ _ (Ok signature_data) =>
      Some (datau ++ signature_data)%list
  | PyhankoSign _ _ _ _ _ (Ok out) => Some out
  | _ => None
  end.

(** The calls form a chain of revisions from [start]: each call is given
    exactly the document the one before it produced.  Returns the final
    document. *)
Fixpoint revision_chain (start : bytes) (calls : list lib_call) : option bytes :=
  match calls with
  | [] => Some start
  | c :: rest =>
      if decide (call_input c = start)
      then doc ← call_document c; revision_chain doc rest
      else None
  end.

(** The kinds of a complete signing run over [n] pages: one certification,
    then the approvals of pages 0 .. n-1 in order. *)
Definition certify_then_approve (n : nat) : list request_kind :=
  Certification :: ((λ k, Approval (Z.of_nat k)) <$> seq 0 n).

(** The parameters of a request: endesive's dictionary, or the keyword
    arguments of pyHanko's [PdfSignatureMetadata]. *)
Definition call_params (c : lib_call) : gmap string pyval :=
  match c with
  | EndesiveSign _ udct _ _ _ _ _ => udct
  | PyhankoSign _ meta _ _ _ _ => meta
  end.

(** The text of entry [line] of [signature_manual], when it is a text box. *)
Definition manual_text (udct : gmap string pyval) (line : nat) : option string :=
  match udct !! "signature_manual" with
  | Some (VList commands) =>
      match commands !! line with
      | Some (VList (VStr "text_box" :: VStr text :: _)) => Some text
      | _ => None
      end
  | _ => None
  end.

(** [s.split("\n")] *)
Fixpoint split_lines (s : string) : list string :=
  match s with
  | EmptyString => [EmptyString]
  | String c r =>
      if Ascii.eqb c "010"%char then EmptyString :: split_lines r
      else match split_lines r with
           | [] => [String c EmptyString]
           | l :: ls => String c l :: ls
           end
  end.

(** The date line and the time line of the visible appearance. *)
Definition visible_lines (c : lib_call) : option (string * string) :=
  match c with
  | EndesiveSign _ udct _ _ _ _ _ =>
      d ← manual_text udct 2; t ← manual_text udct 3; Some (d, t)
  | PyhankoSign _ _ _ (Some style) _ _ =>
      let lines := split_lines (stamp_text style) in
      d ← lines !! 1%nat; t ← lines !! 2%nat; Some (d, t)
  | PyhankoSign _ _ _ None _ _ => None
  end.

(** The same-timestamp contract for one request: among the parameters
    handed to the library there is a signing date, and it denotes the
    local minute and offset that the visible date and time lines denote. *)
Definition same_instant (c : lib_call) : Prop :=
  ∃ k s date_line time_line lm,
    call_params c !! k = Some (VStr s) ∧
    denote_pdf_date s = Some lm ∧
    visible_lines c = Some (date_line, time_line) ∧
    denote_visible date_line time_line = Some lm.

(** The dictionary [udct] carries the signing date and the visible date
    and time lines rendered from the instant [t] in the +05:30 offset. *)
Definition rendered_from (t : Z) (udct : gmap string pyval) : Prop :=
  let dt := datetime_at t chennai_offset in
  udct !! "signingdate" = Some (VStr (strftime "D:%Y%m%d%H%M%S+05'30'" dt)) ∧
  manual_text udct 2 = Some ("Date: " +:+ strftime "%d/%m/%Y" dt) ∧
  manual_text udct 3 = Some ("Time: " +:+ strftime "%H:%M GMT +5:30" dt).

(** An approval request made to endesive, with its time stamps rendered
    from a clock reading between [lo] and [hi]. *)
Definition approval_request (lo hi : Z) (c : lib_call) : Prop :=
  ∃ datau udct key cert others ret t k,
    c = EndesiveSign datau udct key cert others "sha256" ret ∧
    lo ≤ t ≤ hi ∧ endesive_kind udct = Approval k ∧ rendered_from t udct.

(** What a run of a signing route leaves behind: on success the output
    holds the document after one certification and the approvals of all
    pages counted, chained from the input, and no other named file has
    changed; on failure no named file has changed. *)
Definition steps_outcome (L : libraries) (e : engine) (input_path output_path : string)
    (w : world) (r : result string) (w' : world) (calls : list lib_call) : Prop :=
  match r with
  | Ok p =>
      p = output_path ∧
      ∃ pdf_in certified n final,
        files w !! Path input_path = Some (Binary pdf_in) ∧
        call_kind <$> calls = certify_then_approve n ∧
        revision_chain pdf_in (take 1 calls) = Some certified ∧
        pages_counted e L pdf_in certified = Some n ∧
        revision_chain pdf_in calls = Some final ∧
        files w' !! Path output_path = Some (Binary final) ∧
        ∀ q, q ≠ output_path → files w' !! Path q = files w !! Path q
  | Raise _ => ∀ q, files w' !! Path q = files w !! Path q
  end.

End Trace.
Export Trace.

(* ===================================================================== *)
(** * The specification's sentences, as predicates on runs *)
(* ===================================================================== *)

Module Contracts.

(** Failure atomicity as the specification words it: a run that fails
    leaves the input and the output location untouched.  (The other
    outcome it allows, returning the certified document with a list of
    failed pages, is an outcome no route has: each returns the output
    path or raises.) *)
Definition failure_atomic (e : engine) (L : libraries) (cfg : config)
    (input_path output_path : string) (w : world) : Prop :=
  match sign_with e L cfg input_path output_path w with
  | (Ok _, _) => True
  | (Raise _, w') =>
      files w' !! Path input_path = files w !! Path input_path ∧
      files w' !! Path output_path = files w !! Path output_path
  end.

(** The signing certificate's validity has ended. *)
Definition certificate_expired (cfg : config) (w : world) : Prop :=
  ∃ b pw, files w !! Path (CERTIFICATE_P12_PATH cfg) = Some (Pkcs12File b pw) ∧
          not_valid_after (p12_cert b) < clock w.

(** An expired certificate aborts the run before any output is written. *)
Definition expiry_aborts (e : engine) (L : libraries) (cfg : config)
    (input_path output_path : string) (w : world) : Prop :=
  certificate_expired cfg w →
  match sign_with e L cfg input_path output_path w with
  | (Ok _, _) => False
  | (Raise _, w') => files w' !! Path output_path = files w !! Path output_path
  end.

(** The fields [is_certifying] and [permission_level_if_certifying] of
    the specification's SignatureRecord, looked up in a report entry. *)
Definition reports_certifying (entry : report_entry) : bool :=
  bool_decide (entry.2 !! "is_certifying" = Some (VBool true) ∧
               entry.2 !! "permission_level_if_certifying"
                 = Some (VStr "NoChangesAllowed")).

Definition reports_approval (entry : report_entry) : bool :=
  bool_decide (entry.2 !! "is_certifying" = Some (VBool false)).

(** The round trip as the specification words it: the report shows one
    certifying signature with NoChangesAllowed, [n] approval signatures,
    and every signature valid. *)
Definition round_trip_contract (report : list report_entry) (n : nat) : Prop :=
  length (List.filter reports_certifying report) = 1%nat ∧
  length (List.filter reports_approval report) = n ∧
  Forall (λ entry, truthy entry.1.2 = true) report.

(** The request was signed with this certificate. *)
Definition signed_with (c : certificate) (call : lib_call) : Prop :=
  match call with
  | EndesiveSign _ _ _ cert _ _ _ => cert = c
  | PyhankoSign _ _ signer _ _ _ => signer_cert signer = c
  end.

(** Revocation as the specification words it: when the document under
    [pdf_path] was produced by signing calls all made with the configured
    certificate, and the CA's stored CRL revokes that certificate, the
    verifier reports no signature as valid. *)
Definition revoked_means_invalid (L : libraries) (cfg : config)
    (self : PDFSigningCA) (pdf_path : string) (w : world) : Prop :=
  ∀ b pw l pdf_in doc report w',
    files w !! Path (CERTIFICATE_P12_PATH cfg) = Some (Pkcs12File b pw) →
    files w !! Path (crl_path self) = Some (PemCrl l) →
    serial_number (p12_cert b) ∈ rc_serial_number <$> revoked l →
    Forall (signed_with (p12_cert b)) (lib_calls w) →
    revision_chain pdf_in (lib_calls w) = Some doc →
    files w !! Path pdf_path = Some (Binary doc) →
    verify_pdf_signature L pdf_path w = (Ok report, w') →
    Forall (λ entry, truthy entry.1.2 = false) report.

(** The same-timestamp contract as the specification words it: every
    approval request of a run carries a signing date that denotes what
    its visible text denotes. *)
Definition timestamps_agree (e : engine) (L : libraries) (cfg : config)
    (input_path output_path : string) (w : world) : Prop :=
  ∀ c k, c ∈ lib_calls (sign_with e L cfg input_path output_path w).2 →
         call_kind c = Approval k → same_instant c.

(** The keys of the details the verifier reports. *)
Definition report_keys : gset string :=
  {[ "signature_name"; "cryptographically_valid"; "hash_ok"; "certificate_size" ]}.

(** The round trip of one run: signing [n] pages and verifying the output. *)
Definition round_trip (e : engine) (L : libraries) (cfg : config)
    (input_path output_path : string) (w : world) (n : nat) : Prop :=
  ∀ p w' report w'',
    sign_with e L cfg input_path output_path w = (Ok p, w') →
    verify_pdf_signature L output_path w' = (Ok report, w'') →
    round_trip_contract report n.

(** What one entry of the report holds: the four details, and as
    validity [signature_ok and hash_ok]. *)
Definition entry_well_formed (entry : report_entry) : Prop :=
  dom entry.2 = report_keys ∧
  ∃ signature_ok hash_ok,
    entry.2 !! "cryptographically_valid" = Some signature_ok ∧
    entry.2 !! "hash_ok" = Some hash_ok ∧
    entry.1.2 = py_and signature_ok hash_ok.

End Contracts.
Export Contracts.

(* ===================================================================== *)
(** * A small concrete installation, for running the model *)
(* ===================================================================== *)

Module Fixture.

Import Byte.

(** Documents are byte strings in which every [x50] ("P") is a page;
    a signature revision is a single byte, [x43] ("C") for a
    certification and [x41] ("A") for an approval. *)
Definition count_pages (doc : bytes) : nat :=
  length (filter (λ b, b = x50) doc).

Definition is_certification_dct (udct : gmap string pyval) : bool :=
  bool_decide (udct !! "certification_level" = Some (VInt 1)).

(** A signing routine that always succeeds. *)
Definition sign_always (datau : bytes) (udct : gmap string pyval)
    (key : private_key) (cert : certificate) (others : list certificate)
    (algomd : string) : result bytes :=
  Ok (if is_certification_dct udct then [x43] else [x41]).

(** A signing routine that fails on the second page. *)
Definition sign_fails_on_page_2 (datau : bytes) (udct : gmap string pyval)
    (key : private_key) (cert : certificate) (others : list certificate)
    (algomd : string) : result bytes :=
  if bool_decide (udct !! "sigpage" = Some (VInt 1)) && negb (is_certification_dct udct)
  then Raise (LibraryError "signing device unavailable")
  else sign_always datau udct key cert others algomd.

(** A verification routine that finds every revision and reports it as
    sound: five values per signature. *)
Fixpoint found_signatures (doc : bytes) (page : Z) : list pyval :=
  match doc with
  | [] => []
  | b :: rest =>
      if decide (b = x43) then
        VTuple [VBytes (list_byte_of_string "CertificationSig"); VBytes [x30]; VNone;
                VBool true; VBool true] :: found_signatures rest page
      else if decide (b = x41) then
        VTuple [VBytes (list_byte_of_string ("ApprovalSignature_Page" +:+ str page));
                VBytes [x30]; VNone; VBool true; VBool true]
          :: found_signatures rest (page + 1)
      else found_signatures rest page
  end.

Definition toy_endesive (sign : bytes → gmap string pyval → private_key →
    certificate → list certificate → string → result bytes) : endesive_lib :=
  {| endesive_cms_sign := sign;
     endesive_verify_func := λ doc _, Ok (VList (found_signatures doc 1)) |}.

Definition toy_pyhanko : pyhanko_lib :=
  {| pyhanko_sign_pdf := λ doc meta _ _ certify,
       Ok (doc ++ [if certify then x43 else x41])%list;
     pyhanko_pages_count := λ doc, Ok (Some (Some (Z.of_nat (count_pages doc))));
     pyhanko_embedded_signatures := λ doc,
       Ok ((λ b, {| sig_field_name := "Signature"; sig_contents := [b] |})
             <$> filter (λ b, b = x43 ∨ b = x41) doc);
     pyhanko_validate_pdf_signature := λ _,
       Ok {| vs_valid := true; vs_trusted := false;
             vs_modification_level := "ModificationLevel.NONE";
             vs_summary := "INTACT:UNTRUSTED"; vs_errors := []; vs_warnings := [] |} |}.

Definition toy_libraries (sign : bytes → gmap string pyval → private_key →
    certificate → list certificate → string → result bytes) : libraries :=
  {| endesive := Some (toy_endesive sign);
     pyhanko := Some toy_pyhanko;
     PdfReader_pages := λ doc, Ok (count_pages doc);
     utf8_decode_ignore := string_of_list_byte |}.

(** A three-page document. *)
Definition three_pages : bytes := [x50; x50; x50].

(** The world after [setup_ca_infrastructure()] at instant [t], with a
    document stored under ["in.pdf"]. *)
Definition signing_world (t : Z) (doc : bytes) : world :=
  set_files (insert (Path "in.pdf") (Binary doc))
    (setup_ca_infrastructure (empty_world t)).2.

(** A CA directory that has issued up to serial 9 and then lost its
    private-key file. *)
Definition lost_key_world : world :=
  set_files (λ f, delete (Path (ca_key_path default_ca))
                    (<[Path (serial_file default_ca) := Text "10"]> f))
    (setup_ca_infrastructure (empty_world 1750400000)).2.

(** The world after the three-page document has been signed into
    ["out.pdf"] by the endesive route. *)
Definition signed_world : world :=
  (sign_with Endesive (toy_libraries sign_always) default_config "in.pdf" "out.pdf"
     (signing_world 1750400000 three_pages)).2.

(** What the verifier reports for it. *)
Definition signed_report : list report_entry :=
  match (verify_pdf_signature (toy_libraries sign_always) "out.pdf" signed_world).1 with
  | Ok report => report
  | Raise _ => []
  end.

(** ... and after the CA has then put the signing certificate (serial
    number 2) on its CRL. *)
Definition revoked_world : world :=
  (create_crl default_ca (Some [2]) signed_world).2.

(** The signing world ten years on: the three-year certificate has expired. *)
Definition expired_world : world :=
  let w := signing_world 1750400000 three_pages in
  {| files := files w; clock := 2065760000; ticks := ticks w;
     next_key_id := next_key_id w; next_tmp := next_tmp w;
     pkcs12_backend := pkcs12_backend w; lib_calls := lib_calls w |}.

End Fixture.

(* ===================================================================== *)
(** * [management/commands/setup_ca.py] and the reporting helpers *)
(* ===================================================================== *)

Module Commands.

(** [str(e)] of an exception raised with a message. *)
Definition exn_message (e : exn) : string :=
  match e with
  | FileNotFoundError m | ValueError m | ImportError m | Exception m
  | SigningError m | SignatureValidationError m | LibraryError m => m
  end.

(** [Command.test_certificate(cert_path)]: the configured bundle is
    loaded and described on the console; whatever the load raises is
    reported there and swallowed.  (Console output is not modelled.) *)
Definition test_certificate (cfg : config) (cert_path : string) : M unit :=
  try_except (load_certificate_data cfg ;; mret tt) (λ _, mret tt).

(** [Command.handle] with the options [--ca-dir], [--force],
    [--common-name] and [--email]. *)
Definition handle (cfg : config) (ca_dir : string) (force : bool)
    (common_name email : string) : M unit :=
  let ca := PDFSigningCA_init ca_dir in
  cert_there ← os_path_exists (Path (ca_cert_path ca));
  key_there ← os_path_exists (Path (ca_key_path ca));
  let ca_exists := cert_there && key_there in
  cert_exists ← os_path_exists (Path (os_path_join "certificates" "signing_cert.p12"));
  if ca_exists && cert_exists && negb force then mret tt
  else
    try_except
      (load_ca_certificate ca;;
       '(cert_path, ca_bundle_path) ← create_pdf_signing_certificate ca common_name email;
       create_crl ca None;;
       test_certificate cfg cert_path)
      (λ e, raise e).

(** [d[k]] on a dictionary of strings: a missing key raises [KeyError],
    a subclass of [Exception] whose text is the quoted key. *)
Definition item (d : gmap string string) (k : string) : M string :=
  match d !! k with
  | Some v => mret v
  | None => raise (Exception ("'" +:+ k +:+ "'"))
  end.

(** [str(dt)] of an aware UTC [datetime] without microseconds, as
    [not_valid_before_utc] and [not_valid_after_utc] are. *)
Definition str_datetime_utc (t : Z) : string :=
  strftime "%Y-%m-%d %H:%M:%S+00:00" (datetime_at t 0).

(** [utils.get_certificate_info()] *)
Definition get_certificate_info (cfg : config) : M string :=
  try_except
    ('(private_key, certificate, ca_certificates) ← load_certificate_data cfg;
     let signer_info := get_signer_info_from_cert certificate in
     let info := "Certificate Information:" +:+ newline in
     common_name ← item signer_info "common_name";
     let info := info +:+ "Common Name: " +:+ common_name +:+ newline in
     organization ← item signer_info "organization";
     let info := info +:+ "Organization: " +:+ organization +:+ newline in
     country ← item signer_info "country";
     let info := info +:+ "Country: " +:+ country +:+ newline in
     state ← item signer_info "state";
     let info := info +:+ "State: " +:+ state +:+ newline in
     email ← item signer_info "email";
     let info := info +:+ "Email: " +:+ email +:+ newline in
     let info := info +:+ "Valid From: "
                   +:+ str_datetime_utc (not_valid_before certificate) +:+ newline in
     let info := info +:+ "Valid Until: "
                   +:+ str_datetime_utc (not_valid_after certificate) +:+ newline in
     let info := info +:+ "Serial Number: "
                   +:+ str (serial_number certificate) +:+ newline in
     mret info)
    (λ e, mret ("Certificate information not available: " +:+ exn_message e)).

End Commands.
Export Commands.

(* ===================================================================== *)
(** * Facts about the Python layer *)
(* ===================================================================== *)

Section PyFacts.

Lemma lstrip_no_space s : no_space s = true → lstrip s = s.
Proof.
  destruct s as [|c r]; simpl; [done|].
  intros [Hc _]%andb_prop. by destruct (is_space c).
Qed.

Lemma rstrip_no_space s : no_space s = true → rstrip s = s.
Proof.
  induction s as [|c r IH]; simpl; [done|].
  intros [Hc Hr]%andb_prop. rewrite (IH Hr).
  destruct r; [|done]. by destruct (is_space c).
Qed.

Lemma strip_no_space s : no_space s = true → strip s = s.
Proof.
  intros H. unfold strip. rewrite (lstrip_no_space _ H). by apply rstrip_no_space.
Qed.

Lemma no_space_uint d : no_space (NilEmpty.string_of_uint d) = true.
Proof. induction d; simpl; auto. Qed.

Lemma no_space_str n : no_space (str n) = true.
Proof.
  unfold str. destruct n as [|p|p]; simpl; [done| |].
  - destruct (Pos.to_uint p); simpl; auto using no_space_uint.
  - destruct (Pos.to_uint p); simpl; auto using no_space_uint.
Qed.

Lemma int_of_digits d :
  d ≠ Nil → int (NilEmpty.string_of_uint d) = Some (Z.of_int (Pos d)).
Proof.
  intros Hd.
  pose proof (NilZero.usu d Hd) as Hu.
  unfold NilZero.string_of_uint in Hu.
  destruct d; try done; simpl in *; by rewrite Hu.
Qed.

(** Reading back what [str] wrote gives the number written. *)
Lemma int_strip_str n : int (strip (str n)) = Some n.
Proof.
  rewrite strip_no_space by apply no_space_str.
  rewrite <- (DecimalZ.of_to n) at 2.
  unfold str. destruct n as [|p|p]; simpl Z.to_int.
  - reflexivity.
  - pose proof (DecimalPos.Unsigned.to_uint_nonnil p) as Hn.
    unfold NilZero.string_of_int, NilZero.string_of_uint.
    destruct (Pos.to_uint p) eqn:E; try done; rewrite <- E in *;
      rewrite <- (int_of_digits _ Hn); by rewrite E.
  - pose proof (DecimalPos.Unsigned.to_uint_nonnil p) as Hn.
    unfold NilZero.string_of_int. simpl.
    by rewrite NilZero.usu.
Qed.

End PyFacts.

(* ===================================================================== *)
(** * Facts about the certificate authority *)
(* ===================================================================== *)

(** Unfolds the monad and the primitive effects. *)
Ltac run :=
  unfold mbind, M_bind, mret, M_ret, raise, os_path_exists, read_file, write_file,
    datetime_now, generate_private_key, get_pkcs12_backend, builder_serial_number,
    set_files in *; cbn [fst snd files clock ticks next_key_id next_tmp
                         pkcs12_backend lib_calls] in *.

Lemma bind_eq {A B} (m : M A) (f : A → M B) w :
  (m ≫= f) w = match m w with
               | (Ok a, w') => f a w'
               | (Raise e, w') => (Raise e, w')
               end.
Proof. reflexivity. Qed.

Lemma path_ne (a b : string) : a ≠ b → Path a ≠ Path b.
Proof. congruence. Qed.

(** Looks a path up through the writes made so far. *)
Ltac lookups :=
  cbn [files];
  repeat (rewrite lookup_insert_eq ||
          (rewrite lookup_insert_ne
             by (apply path_ne; first [done | symmetry; done]))).

Section CAFacts.

Context (self : PDFSigningCA).

Lemma get_next_serial_number_spec w :
  get_next_serial_number self w =
  match next_value self w with
  | Some s =>
      (Ok s, set_files (insert (Path (serial_file self)) (Text (str (s + 1)))) w)
  | None => (Raise (ValueError "invalid literal for int() with base 10"), w)
  end.
Proof.
  unfold get_next_serial_number, next_value. run.
  destruct (files w !! Path (serial_file self)) as [c|] eqn:E.
  - rewrite bool_decide_true by eauto. cbn. rewrite E.
    destruct c; try reflexivity.
    by destruct (int (strip s)).
  - rewrite bool_decide_false by (by intros [? ?]). reflexivity.
Qed.

Lemma next_value_after_write w s :
  next_value self
    (set_files (insert (Path (serial_file self)) (Text (str s))) w) = Some s.
Proof.
  unfold next_value, set_files; cbn. rewrite lookup_insert_eq. apply int_strip_str.
Qed.

(** With both root files there, loading touches nothing. *)
Lemma load_present w :
  ca_present self w → ∃ r, load_ca_certificate self w = (r, w).
Proof.
  intros [[c Hc] [k Hk]]. unfold load_ca_certificate. run.
  rewrite !bool_decide_true by eauto. cbn. rewrite Hc.
  unfold load_pem_x509_certificate, load_pem_private_key. run.
  destruct c; eauto. rewrite Hk. destruct k; eauto.
  destruct (String.eqb password ca_password); eauto.
Qed.

(** With one of them missing, loading is creating. *)
Lemma load_absent w :
  ¬ ca_present self w →
  load_ca_certificate self w = create_ca_certificate self w.
Proof.
  intros Hn. unfold load_ca_certificate. run.
  destruct (decide (is_Some (files w !! Path (ca_cert_path self)))) as [Hc|Hc].
  - rewrite (bool_decide_true _ Hc).
    rewrite bool_decide_false; [done|]. intros Hk. by apply Hn.
  - by rewrite (bool_decide_false _ Hc).
Qed.

Lemma paths_distinct_ne :
  paths_distinct self →
  ca_cert_path self ≠ ca_key_path self ∧ ca_cert_path self ≠ serial_file self ∧
  ca_key_path self ≠ serial_file self ∧
  cert_path self ≠ ca_cert_path self ∧ cert_path self ≠ ca_key_path self ∧
  cert_path self ≠ serial_file self ∧
  ca_bundle_path self ≠ ca_cert_path self ∧ ca_bundle_path self ≠ ca_key_path self ∧
  ca_bundle_path self ≠ serial_file self ∧ ca_bundle_path self ≠ cert_path self ∧
  crl_path self ≠ ca_cert_path self ∧ crl_path self ≠ ca_key_path self ∧
  crl_path self ≠ serial_file self ∧ crl_path self ≠ cert_path self.
Proof.
  unfold paths_distinct. rewrite !NoDup_cons, !not_elem_of_cons.
  rewrite !elem_of_nil. intros H. repeat split; intros E; symmetry in E; tauto || (symmetry in E; tauto).
Qed.

Lemma issue_present cn email w :
  paths_distinct self → ca_present self w →
  ∃ r w', create_pdf_signing_certificate self cn email w = (r, w') ∧
    ca_present self w' ∧
    ((∃ s w3, allocation_step self w = (Ok s, w3) ∧
        next_value self w = Some s ∧ next_value self w' = Some (s + 1) ∧
        (is_ok r = true → stored_serial self w' = Some s))
     ∨ (∃ e w3, allocation_step self w = (Raise e, w3) ∧ is_ok r = false ∧
        next_value self w' = next_value self w)).
Proof.
  intros Hd Hp. destruct (paths_distinct_ne Hd) as (?&?&?&?&?&?&?&?&?&?&_).
  destruct (load_present w Hp) as [r Hl].
  unfold create_pdf_signing_certificate, allocation_step.
  rewrite !bind_eq, Hl.
  destruct r as [[c k]|e].
  2:{ eexists _, _. split; [reflexivity|]. split; [done|]. right. eauto. }
  rewrite !bind_eq. cbn [generate_private_key].
  rewrite !bind_eq, !get_next_serial_number_spec.
  change (next_value self (Build_world (files w) _ _ _ _ _ _))
    with (next_value self w).
  destruct (next_value self w) as [s|] eqn:Hs.
  2:{ eexists _, _. split; [reflexivity|]. split; [exact Hp|]. right.
      eexists _, _. split; [reflexivity|]. split; [done|].
      unfold next_value in *; cbn [files]. done. }
  run. destruct (serial_number_ok s).
  2:{ eexists _, _. split; [reflexivity|].
      split; [unfold ca_present; lookups; exact Hp|].
      left. eexists _, _. split; [reflexivity|]. split; [done|].
      split; [unfold next_value; lookups; apply int_strip_str|done]. }
  unfold _create_pkcs12_with_openssl, _create_simple_pkcs12. run.
  destruct (pkcs12_backend w);
    (eexists _, _; split; [reflexivity|]);
    (split; [unfold ca_present; lookups; exact Hp|]);
    left; (eexists _, _; split; [reflexivity|]; split; [done|]);
    (split; [unfold next_value; lookups; apply int_strip_str|]);
    try done; intros _; unfold stored_serial; lookups; done.
Qed.

(** What [create_ca_certificate] leaves behind. *)
Lemma create_ca_certificate_spec w :
  ∃ c k w', create_ca_certificate self w = (Ok (c, k), w') ∧
    k = {| key_id := next_key_id w; key_size := 4096; public_exponent := 65537 |} ∧
    c = {| subject := ca_subject; issuer := ca_subject;
           cert_public_key := public_key_of k; serial_number := 1;
           not_valid_before := clock w;
           not_valid_after :=
             clock w + Z.of_N (hd 0%N (ticks w)) + timedelta_days (365 * 10);
           extensions :=
             [ (BasicConstraints true (Some 0), true);
               (KeyUsage {| digital_signature := true; content_commitment := false;
                            key_encipherment := false; data_encipherment := false;
                            key_agreement := false; key_cert_sign := true;
                            crl_sign := true; encipher_only := false;
                            decipher_only := false |}, true);
               (SubjectKeyIdentifier (public_key_of k), false);
               (AuthorityKeyIdentifier (public_key_of k), false) ];
           signature_by := public_key_of k; signature_hash := SHA256 |} ∧
    files w' = <[Path (serial_file self) := Text "2"]>
               (<[Path (ca_key_path self) := PemEncryptedKey k ca_password]>
               (<[Path (ca_cert_path self) := PemCertificate c]> (files w))) ∧
    next_key_id w' = S (next_key_id w) ∧
    lib_calls w' = lib_calls w ∧ pkcs12_backend w' = pkcs12_backend w ∧
    next_tmp w' = next_tmp w.
Proof.
  unfold create_ca_certificate. run.
  eexists _, _, _. split; [reflexivity|]. cbn. done.
Qed.

Lemma issue_absent cn email w :
  paths_distinct self → ¬ ca_present self w →
  ∃ r w' w3, create_pdf_signing_certificate self cn email w = (r, w') ∧
    ca_present self w' ∧
    allocation_step self w = (Ok 2, w3) ∧
    next_value self w' = Some 3 ∧
    (is_ok r = true → stored_serial self w' = Some 2).
Proof.
  intros Hd Hn. destruct (paths_distinct_ne Hd) as (?&?&?&?&?&?&?&?&?&?&_).
  unfold create_pdf_signing_certificate, allocation_step.
  rewrite !bind_eq, (load_absent _ Hn).
  destruct (create_ca_certificate_spec w) as (c&k&w1&->&_&_&Hf&_&_&Hb&_).
  rewrite !bind_eq. cbn [generate_private_key].
  rewrite !bind_eq, !get_next_serial_number_spec.
  assert (next_value self w1 = Some 2) as Hnv.
  { unfold next_value. rewrite Hf. lookups. reflexivity. }
  change (next_value self (Build_world (files w1) _ _ _ _ _ _))
    with (next_value self w1).
  rewrite Hnv. run. change (serial_number_ok 2) with true. cbn match.
  unfold _create_pkcs12_with_openssl, _create_simple_pkcs12. run.
  assert (ca_present self w1) as Hp1.
  { unfold ca_present. rewrite Hf. lookups. eauto. }
  destruct (pkcs12_backend w1);
    (eexists _, _, _; split; [reflexivity|]);
    (split; [unfold ca_present; lookups; exact Hp1|]);
    (split; [reflexivity|]);
    (split; [unfold next_value; lookups; reflexivity|]);
    try done; intros _; unfold stored_serial; lookups; done.
Qed.

Lemma allocated_from reqs : ∀ w,
  paths_distinct self → ca_present self w →
  match next_value self w with
  | Some n => StronglySorted Z.lt (allocated self reqs w) ∧
              Forall (Z.le n) (allocated self reqs w)
  | None => allocated self reqs w = []
  end.
Proof.
  induction reqs as [|[cn email] reqs IH]; intros w Hd Hp.
  - destruct (next_value self w); repeat constructor.
  - cbn [allocated].
    destruct (issue_present cn email w Hd Hp)
      as (r & w' & He & Hp' & [(s & w3 & Ha & Hn & Hn' & _)|(e & w3 & Ha & _ & Hn')]);
      rewrite He, Ha; cbn [snd]; specialize (IH w' Hd Hp').
    + rewrite Hn. rewrite Hn' in IH. destruct IH as [Hs Hf]. split.
      * constructor; [done|]. eapply Forall_impl; [exact Hf|]. intros; cbn in *; lia.
      * constructor; [lia|]. eapply Forall_impl; [exact Hf|]. intros; cbn in *; lia.
    + by rewrite <- Hn'.
Qed.

Lemma allocated_sorted reqs w :
  paths_distinct self → StronglySorted Z.lt (allocated self reqs w).
Proof.
  intros Hd. destruct (decide (ca_present self w)) as [Hp|Hn].
  - pose proof (allocated_from reqs w Hd Hp) as H.
    destruct (next_value self w); [by destruct H|]. rewrite H. constructor.
  - destruct reqs as [|[cn email] reqs]; [constructor|].
    cbn [allocated].
    destruct (issue_absent cn email w Hd Hn) as (r & w' & w3 & He & Hp' & Ha & Hn' & _).
    rewrite He, Ha; cbn [snd].
    pose proof (allocated_from reqs w' Hd Hp') as H. rewrite Hn' in H.
    destruct H as [Hs Hf]. constructor; [done|].
    eapply Forall_impl; [exact Hf|]. intros; cbn in *; lia.
Qed.

Lemma issued_sublist_allocated reqs : ∀ w,
  paths_distinct self →
  issued_serials self reqs w `sublist_of` allocated self reqs w.
Proof.
  induction reqs as [|[cn email] reqs IH]; intros w Hd; [constructor|].
  cbn [issued_serials allocated].
  destruct (decide (ca_present self w)) as [Hp|Hn].
  - destruct (issue_present cn email w Hd Hp)
      as (r & w' & He & Hp' & [(s & w3 & Ha & Hn & Hn' & Hst)|(e & w3 & Ha & Hr & Hn')]);
      rewrite He, Ha; cbn [snd].
    + destruct r; cbn in Hst.
      * rewrite Hst by done. apply sublist_skip, IH, Hd.
      * apply sublist_cons, IH, Hd.
    + destruct r; [done|]. apply IH, Hd.
  - destruct (issue_absent cn email w Hd Hn) as (r & w' & w3 & He & Hp' & Ha & Hn' & Hst).
    rewrite He, Ha; cbn [snd].
    destruct r; cbn in Hst.
    + rewrite Hst by done. apply sublist_skip, IH, Hd.
    + apply sublist_cons, IH, Hd.
Qed.

Lemma StronglySorted_sublist {A} (R : relation A) (l k : list A) :
  l `sublist_of` k → StronglySorted R k → StronglySorted R l.
Proof.
  induction 1 as [|x l k Hlk IH|x l k Hlk IH]; intros Hs; [done| |].
  - apply StronglySorted_inv in Hs as [Hs Hf]. constructor; [by apply IH|].
    rewrite Forall_forall in *. intros y Hy. apply Hf.
    eapply elem_of_submseteq; [exact Hy|]. by apply sublist_submseteq.
  - apply StronglySorted_inv in Hs as [Hs _]. by apply IH.
Qed.

Lemma allocator_persists w s w' :
  get_next_serial_number self w = (Ok s, w') →
  files w' !! Path (serial_file self) = Some (Text (str (s + 1))) ∧
  ∃ w'', get_next_serial_number self w' = (Ok (s + 1), w'').
Proof.
  rewrite get_next_serial_number_spec.
  destruct (next_value self w); intros [= <- <-]. split; [unfold set_files; by lookups|].
  rewrite get_next_serial_number_spec, next_value_after_write. eauto.
Qed.

End CAFacts.

(** ** The claims about the certificate authority *)

(** C1. Serial numbers are strictly increasing and never reused.  For every
    CA object (over pairwise different file names), every starting state of
    the files and every sequence of issuance requests: the values the
    allocator returns, in call order, are strictly increasing, and so are
    the serial numbers of the certificates issued; and whenever the
    allocator returns [s], the serial file already holds [s + 1], so that
    the next call (by this or by a new CA object over the same directory,
    the object holding nothing but file names) returns [s + 1]. *)
Theorem serial_numbers_strictly_increase (dir : string)
    (reqs : list (string * string)) (w : world) :
  let self := PDFSigningCA_init dir in
  paths_distinct self →
  StronglySorted Z.lt (allocated self reqs w) ∧
  issued_serials self reqs w `sublist_of` allocated self reqs w ∧
  StronglySorted Z.lt (issued_serials self reqs w) ∧
  (∀ s w', get_next_serial_number self w = (Ok s, w') →
     files w' !! Path (serial_file self) = Some (Text (str (s + 1))) ∧
     ∃ w'', get_next_serial_number (PDFSigningCA_init (ca_dir self)) w'
            = (Ok (s + 1), w'')).
Proof.
  intros self Hd.
  pose proof (allocated_sorted self reqs w Hd) as Ha.
  pose proof (issued_sublist_allocated self reqs w Hd) as Hi.
  repeat split; try done.
  - by eapply StronglySorted_sublist.
  - by eapply allocator_persists.
  - change (PDFSigningCA_init (ca_dir self)) with self.
    by eapply allocator_persists.
Qed.

(** The default CA directory, a request for two certificates, no files yet. *)
Lemma serial_numbers_strictly_increase_witness :
  paths_distinct default_ca ∧
  allocated default_ca [("ARUL M", "m.arul@fte.com"); ("TEST SIGNER", "t@fte.com")]
    (empty_world 1750400000) = [2; 3] ∧
  StronglySorted Z.lt
    (allocated default_ca [("ARUL M", "m.arul@fte.com"); ("TEST SIGNER", "t@fte.com")]
       (empty_world 1750400000)).
Proof.
  split; [compute_done|]. split; [reflexivity|].
  apply (serial_numbers_strictly_increase "certificates/ca"
           [("ARUL M", "m.arul@fte.com"); ("TEST SIGNER", "t@fte.com")]
           (empty_world 1750400000)).
  compute_done.
Defined.

Section BootstrapFacts.

Context (self : PDFSigningCA).

Lemma load_wellformed w c k :
  files w !! Path (ca_cert_path self) = Some (PemCertificate c) →
  files w !! Path (ca_key_path self) = Some (PemEncryptedKey k ca_password) →
  load_ca_certificate self w = (Ok (c, k), w).
Proof.
  intros Hc Hk. unfold load_ca_certificate. run.
  rewrite !bool_decide_true by eauto. cbn. rewrite Hc. cbn. by rewrite Hk.
Qed.

(** After a load that returned a root, both files hold that root. *)
Lemma load_ok_files w c k w1 :
  paths_distinct self →
  load_ca_certificate self w = (Ok (c, k), w1) →
  files w1 !! Path (ca_cert_path self) = Some (PemCertificate c) ∧
  files w1 !! Path (ca_key_path self) = Some (PemEncryptedKey k ca_password).
Proof.
  intros Hd. destruct (paths_distinct_ne self Hd) as (?&?&?&_).
  destruct (decide (ca_present self w)) as [Hp|Hn].
  - destruct Hp as [[c' Hc] [k' Hk]]. unfold load_ca_certificate. run.
    rewrite !bool_decide_true by eauto. cbn. rewrite Hc.
    destruct c'; cbn; try done. rewrite Hk. destruct k'; cbn; try done.
    destruct (String.eqb password ca_password) eqn:Hpw; cbn; [|done].
    apply String.eqb_eq in Hpw as ->. by intros [= <- <- <-].
  - rewrite (load_absent _ _ Hn).
    destruct (create_ca_certificate_spec self w) as (c'&k'&w'&->&_&_&Hf&_).
    intros [= <- <- <-]. rewrite Hf. by lookups.
Qed.

End BootstrapFacts.

(** C4. Bootstrap is idempotent.  When both root files exist, loading
    changes nothing at all in the world (no file written, no key drawn)
    and a second load returns what the first returned; when the files are
    well formed that is the stored certificate and key.  From any state, a
    bootstrap that returned a root is followed by bootstraps that return
    the same root (same serial number, same public key) and change
    nothing. *)
Theorem bootstrap_idempotent (self : PDFSigningCA) (w : world) :
  paths_distinct self →
  (ca_present self w →
     ∃ r, load_ca_certificate self w = (r, w) ∧
          (load_ca_certificate self ;; load_ca_certificate self) w = (r, w) ∧
          ∀ c k,
            files w !! Path (ca_cert_path self) = Some (PemCertificate c) →
            files w !! Path (ca_key_path self) = Some (PemEncryptedKey k ca_password) →
            r = Ok (c, k)) ∧
  (∀ c k w1, load_ca_certificate self w = (Ok (c, k), w1) →
     load_ca_certificate self w1 = (Ok (c, k), w1)).
Proof.
  intros Hd. split.
  - intros Hp. destruct (load_present self w Hp) as [r Hr]. exists r.
    split; [done|]. split.
    + rewrite bind_eq, Hr. by destruct r.
    + intros c k Hc Hk. rewrite (load_wellformed self w c k Hc Hk) in Hr. congruence.
  - intros c k w1 Hl. destruct (load_ok_files self w c k w1 Hd Hl) as [Hc Hk].
    by apply load_wellformed.
Qed.

(** The world left by [setup_ca_infrastructure()]. *)
Lemma bootstrap_idempotent_witness :
  let w := (setup_ca_infrastructure (empty_world 1750400000)).2 in
  paths_distinct default_ca ∧ ca_present default_ca w ∧
  ∃ r, load_ca_certificate default_ca w = (r, w).
Proof.
  intros w. split; [compute_done|].
  assert (ca_present default_ca w) as Hp by compute_done.
  split; [exact Hp|].
  destruct (bootstrap_idempotent default_ca w) as [H _]; [compute_done|].
  destruct (H Hp) as (r & Hr & _). by exists r.
Defined.

(** C5. Without a persisted root, bootstrap creates one: a 4096-bit key
    (at least 3072), a self-signed certificate that is a CA and may sign
    certificates and CRLs, serial number 1, valid from the clock reading
    until ten years ([timedelta(days=365*10)]) after the clock reading
    that follows it; certificate and key are stored and the serial file is
    initialised to 2. *)
Theorem bootstrap_creates_root (self : PDFSigningCA) (w : world) :
  paths_distinct self → ¬ ca_present self w →
  ∃ ca_cert ca_key w',
    load_ca_certificate self w = (Ok (ca_cert, ca_key), w') ∧
    3072 ≤ key_size ca_key ∧
    cert_public_key ca_cert = public_key_of ca_key ∧
    self_signed ca_cert ∧
    is_ca ca_cert = true ∧
    can_sign_certs_and_crls ca_cert = true ∧
    not_valid_before ca_cert = clock w ∧
    validity_window ca_cert = timedelta_days (365 * 10) + Z.of_N (hd 0%N (ticks w)) ∧
    serial_number ca_cert = 1 ∧
    files w' !! Path (ca_cert_path self) = Some (PemCertificate ca_cert) ∧
    files w' !! Path (ca_key_path self) = Some (PemEncryptedKey ca_key ca_password) ∧
    files w' !! Path (serial_file self) = Some (Text "2") ∧
    next_value self w' = Some 2.
Proof.
  intros Hd Hn. destruct (paths_distinct_ne self Hd) as (?&?&?&_).
  rewrite (load_absent _ _ Hn).
  destruct (create_ca_certificate_spec self w) as (c&k&w'&->&->&->&Hf&_).
  eexists _, _, _. split; [reflexivity|].
  unfold next_value, validity_window, self_signed. rewrite Hf. cbn.
  repeat split; try done; try (by lookups); lia.
Qed.

(** The default CA over an empty directory, the clock not moving. *)
Lemma bootstrap_creates_root_witness :
  ∃ ca_cert ca_key w',
    load_ca_certificate default_ca (empty_world 1750400000)
      = (Ok (ca_cert, ca_key), w') ∧
    key_size ca_key = 4096 ∧ serial_number ca_cert = 1 ∧
    validity_window ca_cert = timedelta_days 3650.
Proof.
  destruct (bootstrap_creates_root default_ca (empty_world 1750400000))
    as (c & k & w' & Hl & _ & _ & _ & _ & _ & _ & Hw & Hs & _);
    [compute_done| by intros [[? ?] _]|].
  pose proof (load_absent default_ca (empty_world 1750400000)) as Hab.
  exists c, k, w'. split; [exact Hl|].
  vm_compute in Hl. injection Hl as <- <- <-. done.
Defined.

(** C10. When the root certificate file or the root key file is missing
    (one of them is enough), loading the CA draws a new key, writes a new
    root over both files and rewrites the serial file to 2 whatever it
    held, so the next serial number allocated is 2 again. *)
Theorem losing_a_ca_file_restarts_serials (self : PDFSigningCA) (w : world)
    (cn email : string) :
  paths_distinct self →
  files w !! Path (ca_cert_path self) = None ∨
  files w !! Path (ca_key_path self) = None →
  (∃ ca_cert ca_key w',
    load_ca_certificate self w = (Ok (ca_cert, ca_key), w') ∧
    key_id ca_key = next_key_id w ∧ next_key_id w' = S (next_key_id w) ∧
    cert_public_key ca_cert = public_key_of ca_key ∧
    files w' !! Path (ca_cert_path self) = Some (PemCertificate ca_cert) ∧
    files w' !! Path (ca_key_path self) = Some (PemEncryptedKey ca_key ca_password) ∧
    files w' !! Path (serial_file self) = Some (Text "2") ∧
    ∃ w'', get_next_serial_number self w' = (Ok 2, w'')) ∧
  allocated self [(cn, email)] w = [2].
Proof.
  intros Hd Hmiss.
  assert (¬ ca_present self w) as Hn.
  { intros [[? Hc] [? Hk]]. destruct Hmiss; congruence. }
  destruct (paths_distinct_ne self Hd) as (?&?&?&_). split.
  - rewrite (load_absent _ _ Hn).
    destruct (create_ca_certificate_spec self w) as (c&k&w'&->&->&->&Hf&Hk&_).
    eexists _, _, _. split; [reflexivity|]. rewrite Hf. cbn.
    repeat split; try done; try (by lookups).
    rewrite get_next_serial_number_spec. unfold next_value. rewrite Hf.
    lookups. cbn. eauto.
  - cbn [allocated].
    destruct (issue_absent self cn email w Hd Hn) as (r & w' & w3 & _ & _ & -> & _).
    done.
Qed.

(** The serial file says 10, the key file is gone: the next serial is 2. *)
Lemma losing_a_ca_file_restarts_serials_witness :
  files Fixture.lost_key_world !! Path (serial_file default_ca) = Some (Text "10") ∧
  files Fixture.lost_key_world !! Path (ca_key_path default_ca) = None ∧
  allocated default_ca [("ARUL M", "m.arul@fte.com")] Fixture.lost_key_world = [2].
Proof.
  split; [reflexivity|]. split; [reflexivity|].
  apply (losing_a_ca_file_restarts_serials default_ca Fixture.lost_key_world).
  - compute_done.
  - right. reflexivity.
Defined.

Section CrlFacts.

Lemma add_revoked_certificates_spec l : ∀ w,
  Forall (λ s, serial_number_ok s = true) l →
  ∃ entries w', add_revoked_certificates l w = (Ok entries, w') ∧
    rc_serial_number <$> entries = l ∧
    files w' = files w ∧ clock w ≤ clock w' ∧
    Forall (λ e, clock w ≤ revocation_date e ≤ clock w') entries.
Proof.
  induction l as [|s l IH]; intros w Hok.
  - eexists _, _. split; [reflexivity|]. repeat split; try done; lia.
  - apply Forall_cons in Hok as [Hs Hl]. cbn [add_revoked_certificates].
    rewrite bind_eq. unfold builder_serial_number at 1. rewrite Hs.
    cbn [mret M_ret]. rewrite bind_eq. cbn [datetime_now]. rewrite bind_eq.
    match goal with |- context [add_revoked_certificates l ?w1] =>
      destruct (IH w1 Hl) as (entries & w' & -> & Hm & Hf & Hc & He) end.
    cbn [clock files] in *.
    eexists _, _. split; [reflexivity|]. cbn. rewrite Hm.
    repeat split; try done; try lia.
    constructor; cbn; [lia|]. eapply Forall_impl; [exact He|]. cbn. lia.
Qed.

Lemma load_clock_mono self w r w1 :
  load_ca_certificate self w = (r, w1) → clock w ≤ clock w1.
Proof.
  destruct (decide (ca_present self w)) as [Hp|Hn].
  - destruct (load_present self w Hp) as [r' ->]. intros [= _ <-]. lia.
  - rewrite (load_absent _ _ Hn). unfold create_ca_certificate. run.
    intros [= _ <-]. cbn. lia.
Qed.

End CrlFacts.

(** C7, as the code has it.  There is no revoke operation and no record
    of issued serial numbers: [create_crl(revoked_serials)] builds and
    stores a list with one entry, stamped with a clock reading taken
    during the call, for every serial number handed to it, in order,
    whether or not that number was ever issued; it fails only when the CA
    cannot be loaded or a number is not an acceptable serial (positive,
    below 2^159), never because the number was not issued. *)
Theorem crl_lists_every_given_serial (self : PDFSigningCA) (w : world)
    (revoked_serials : list Z) (ca_cert : certificate) (ca_key : private_key)
    (w1 : world) :
  load_ca_certificate self w = (Ok (ca_cert, ca_key), w1) →
  Forall (λ s, serial_number_ok s = true) revoked_serials →
  ∃ l w',
    create_crl self (Some revoked_serials) w = (Ok (crl_path self), w') ∧
    files w' !! Path (crl_path self) = Some (PemCrl l) ∧
    rc_serial_number <$> revoked l = revoked_serials ∧
    Forall (λ e, clock w ≤ revocation_date e ≤ clock w') (revoked l) ∧
    next_update l - last_update l = timedelta_days 30 + Z.of_N (hd 0%N (ticks w1)).
Proof.
  intros Hl Hok. pose proof (load_clock_mono _ _ _ _ Hl) as Hmono.
  unfold create_crl. rewrite bind_eq, Hl. cbn [default]. run. unfold id.
  match goal with |- context [add_revoked_certificates _ ?w2] =>
    destruct (add_revoked_certificates_spec revoked_serials w2 Hok)
      as (entries & w' & Heq & Hm & Hf & Hc & He) end.
  rewrite Heq. cbn [clock ticks files] in *.
  eexists _, _. split; [reflexivity|]. cbn. rewrite lookup_insert_eq.
  split; [reflexivity|]. cbn. split; [done|]. split; [|lia].
  eapply Forall_impl; [exact He|]. cbn. lia.
Qed.

(** Revoking the issued serial 2 and the never-issued serial 999 alike. *)
Lemma crl_lists_every_given_serial_witness :
  ∃ l w',
    create_crl default_ca (Some [2; 999])
      (setup_ca_infrastructure (empty_world 1750400000)).2
      = (Ok (crl_path default_ca), w') ∧
    files w' !! Path (crl_path default_ca) = Some (PemCrl l) ∧
    rc_serial_number <$> revoked l = [2; 999].
Proof.
  pose (w := (setup_ca_infrastructure (empty_world 1750400000)).2).
  destruct (load_ca_certificate default_ca w) as [[[c k]|e] w1] eqn:Hl;
    [|vm_compute in Hl; discriminate Hl].
  destruct (crl_lists_every_given_serial default_ca w [2; 999] c k w1 Hl)
    as (l & w' & H1 & H2 & H3 & _).
  - repeat constructor.
  - exists l, w'. split; [exact H1|]. split; [exact H2|exact H3].
Defined.

(** C7, as stated, fails: on a CA that has never issued a certificate,
    revoking serial 999 does not fail but stores a list revoking 999. *)
Lemma revoke_unissued_serial_counterexample :
  ¬ revoke_contract default_ca [] (empty_world 1750400000) 999.
Proof.
  unfold revoke_contract.
  destruct (create_crl default_ca (Some [999])
              (after_issuing default_ca [] (empty_world 1750400000)))
    as [[p|e] w'] eqn:E.
  - intros [Hin _]. cbn in Hin. by apply elem_of_nil in Hin.
  - vm_compute in E. discriminate E.
Qed.

(* ===================================================================== *)
(** * Facts about dates and their rendering *)
(* ===================================================================== *)

Section DateFacts.

Lemma year_of_day_range doe :
  0 ≤ doe ≤ 146096 →
  let yoe := (doe - doe / 1460 + doe / 36524 - doe / 146096) / 365 in
  let doy := doe - (365 * yoe + yoe / 4 - yoe / 100) in
  0 ≤ yoe ≤ 399 ∧ 0 ≤ doy ≤ 365.
Proof. intros H yoe doy. subst doy yoe. Z.div_mod_to_equations; lia. Qed.

Lemma month_day_range doy :
  0 ≤ doy ≤ 365 →
  let mp := (5 * doy + 2) / 153 in
  let d := doy - (153 * mp + 2) / 5 + 1 in
  0 ≤ mp ≤ 11 ∧ 1 ≤ d ≤ 31.
Proof. intros H mp d. subst d mp. Z.div_mod_to_equations; lia. Qed.

Lemma civil_from_days_range z y m d :
  0 ≤ z < 2786860 → civil_from_days z = (y, m, d) →
  1000 ≤ y ≤ 9999 ∧ 1 ≤ m ≤ 12 ∧ 1 ≤ d ≤ 31.
Proof.
  intros Hz. unfold civil_from_days.
  set (z' := z + 719468). set (era := z' / 146097).
  set (doe := z' - era * 146097).
  assert (0 ≤ doe ≤ 146096 ∧ 4 ≤ era ≤ 23) as [Hdoe Hera].
  { subst doe era z'. Z.div_mod_to_equations; lia. }
  destruct (year_of_day_range doe Hdoe) as [Hyoe Hdoy].
  set (yoe := (doe - doe / 1460 + doe / 36524 - doe / 146096) / 365) in *.
  set (doy := doe - (365 * yoe + yoe / 4 - yoe / 100)) in *.
  destruct (month_day_range doy Hdoy) as [Hmp Hd].
  set (mp := (5 * doy + 2) / 153) in *.
  intros [= <- <- <-].
  repeat split; try lia;
    repeat match goal with |- context [if ?b then _ else _] => destruct b eqn:? end;
    lia.
Qed.

Lemma datetime_at_range t :
  four_digit_years t →
  let dt := datetime_at t chennai_offset in
  1000 ≤ year dt ≤ 9999 ∧ 1 ≤ month dt ≤ 12 ∧ 1 ≤ day dt ≤ 31 ∧
  0 ≤ hour dt ≤ 23 ∧ 0 ≤ minute dt ≤ 59 ∧ 0 ≤ second dt ≤ 59 ∧
  utcoffset dt = 5 * 3600 + 30 * 60.
Proof.
  intros [H0 H1]. unfold datetime_at, chennai_offset.
  destruct (civil_from_days ((t + (5 * 3600 + 30 * 60)) / 86400))
    as [[y m] d] eqn:E.
  apply civil_from_days_range in E; [|Z.div_mod_to_equations; lia].
  cbn. repeat split; try lia; Z.div_mod_to_equations; lia.
Qed.

Lemma digit_value_digit n : 0 ≤ n ≤ 9 → digit_value (digit n) = Some n.
Proof.
  intros H.
  assert (n = 0 ∨ n = 1 ∨ n = 2 ∨ n = 3 ∨ n = 4 ∨ n = 5 ∨ n = 6 ∨ n = 7 ∨
          n = 8 ∨ n = 9) as Hn by lia.
  repeat (destruct Hn as [->|Hn]; [reflexivity|]). by subst.
Qed.

Lemma number2_two_digits n :
  0 ≤ n ≤ 99 → number2 (digit (n / 10)) (digit (n mod 10)) = Some n.
Proof.
  intros H. unfold number2.
  rewrite !digit_value_digit by (Z.div_mod_to_equations; lia). cbn.
  f_equal. Z.div_mod_to_equations; lia.
Qed.

Lemma number4_four_digits n :
  0 ≤ n ≤ 9999 →
  number4 (digit (n / 1000)) (digit (n / 100 mod 10)) (digit (n / 10 mod 10))
    (digit (n mod 10)) = Some n.
Proof.
  intros H. unfold number4, number2.
  rewrite !digit_value_digit by (Z.div_mod_to_equations; lia). cbn.
  f_equal. Z.div_mod_to_equations; lia.
Qed.

(** The PDF date string and the two visible lines rendered from one
    instant read back as the same local minute in the same offset. *)
Lemma rendered_strings_agree t :
  four_digit_years t →
  let dt := datetime_at t chennai_offset in
  denote_pdf_date (strftime "D:%Y%m%d%H%M%S+05'30'" dt) = Some (local_minute_of dt) ∧
  denote_visible ("Date: " +:+ strftime "%d/%m/%Y" dt)
                 ("Time: " +:+ strftime "%H:%M GMT +5:30" dt)
    = Some (local_minute_of dt).
Proof.
  intros Ht dt. destruct (datetime_at_range t Ht) as (Hy & Hm & Hd & HH & HM & HS & Ho).
  fold dt in Hy, Hm, Hd, HH, HM, HS, Ho.
  unfold local_minute_of. rewrite Ho.
  generalize dependent dt. intros dt Hy Hm Hd HH HM HS _.
  cbn [strftime directive]. unfold two_digits, four_digits.
  cbv [String.append]. cbn [denote_pdf_date denote_visible].
  rewrite !number4_four_digits, !number2_two_digits by lia.
  split; reflexivity.
Qed.

End DateFacts.

(* ===================================================================== *)
(** * Facts about the endesive signing engine *)
(* ===================================================================== *)

(** Extends [run] with the primitives of the engines. *)
Ltac run_engine :=
  unfold read_bytes, cms_sign, sign_pdf, record_call, get_pdf_page_count, mkdtemp,
    rmtree, shutil_move, shutil_copy2, try_except, try_finally in *; run.

(** Looks a key up in a dictionary literal. *)
Ltac dict :=
  repeat first
    [ rewrite lookup_union
    | rewrite lookup_insert_eq
    | rewrite lookup_insert_ne by done
    | rewrite lookup_empty ];
  cbn [union option_union union_with option_union_with].

Section EngineFacts.

Context (L : libraries) (cfg : config).

Lemma tsa_entries_lookup k : k ≠ "tsaurl" → tsa_entries cfg !! k = None.
Proof.
  intros Hk. unfold tsa_entries. destruct (TSA_URL cfg) as [url|]; [|done].
  destruct (String.eqb url ""); [done|]. by rewrite lookup_singleton_ne.
Qed.

Lemma certify_dct_kind info t : endesive_kind (certify_dct cfg info t) = Certification.
Proof.
  unfold endesive_kind, certify_dct.
  rewrite !lookup_union, !tsa_entries_lookup by done. dict. reflexivity.
Qed.

Lemma build_appearance_dict_spec ac page w :
  ∃ d, build_appearance_dict ac page w =
         (Ok d, (datetime_now w).2) ∧
       (∀ k, k ∉ ["signature_manual"; "signingdate"; "contact"; "location"] →
             d !! k = None) ∧
       rendered_from (clock w) d.
Proof.
  unfold build_appearance_dict. run. eexists. split; [reflexivity|]. split.
  - intros k Hk. rewrite !not_elem_of_cons in Hk. destruct Hk as (?&?&?&?&_).
    by rewrite !lookup_insert_ne, lookup_empty.
  - unfold rendered_from, manual_text. dict. unfold text_box.
    destruct (box ac) as [[[? ?] ?] ?]. repeat split; reflexivity.
Qed.

Lemma page_sig_dct_spec ac page d t :
  (∀ k, k ∉ ["signature_manual"; "signingdate"; "contact"; "location"] →
        d !! k = None) →
  rendered_from t d →
  endesive_kind (page_sig_dct cfg ac page d) = Approval page ∧
  rendered_from t (page_sig_dct cfg ac page d).
Proof.
  intros Hd (Hs & Hm2 & Hm3). split.
  - unfold endesive_kind, page_sig_dct.
    rewrite !lookup_union, !tsa_entries_lookup by done.
    rewrite !Hd by (rewrite !not_elem_of_cons, elem_of_nil; naive_solver).
    dict. reflexivity.
  - unfold rendered_from, manual_text in *. unfold page_sig_dct.
    rewrite !lookup_union, !tsa_entries_lookup by done. dict. rewrite Hs.
    destruct (d !! "signature_manual") as [v|] eqn:E; [|done].
    cbn. split; [done|]. split; assumption.
Qed.

Lemma approval_request_weaken lo hi lo' hi' c :
  lo' ≤ lo → hi ≤ hi' → approval_request lo hi c → approval_request lo' hi' c.
Proof.
  intros ?? (datau&udct&key&cert&others&ret&t&k&->&?&?&?).
  eexists _, _, _, _, _, _, t, k.
  split; [reflexivity|]. split; [lia|]. split; assumption.
Qed.

(** The page loop: what it leaves in the world, whether or not it
    completes. *)
Lemma approval_loop_spec E ac key cert cas d pages : ∀ cur w doc,
  files w !! cur = Some (Binary doc) →
  ∃ r w' calls,
    approval_loop cfg E ac key cert cas d pages cur w = (r, w') ∧
    (∀ q, files w' !! Path q = files w !! Path q) ∧
    clock w ≤ clock w' ∧
    lib_calls w' = (lib_calls w ++ calls)%list ∧
    Forall (approval_request (clock w) (clock w')) calls ∧
    match r with
    | Ok p =>
        (p = cur ∨ ∃ name, p = TempPath d name) ∧
        ∃ final, files w' !! p = Some (Binary final) ∧
          revision_chain doc calls = Some final ∧
          call_kind <$> calls = (λ k, Approval (Z.of_nat k)) <$> pages
    | Raise _ => True
    end.
Proof.
  induction pages as [|page pages IH]; intros cur w doc Hcur.
  - exists (Ok cur), w, []. rewrite app_nil_r.
    repeat split; try done; try lia; [by left|by exists doc].
  - cbn [approval_loop]. rewrite bind_eq. unfold read_bytes at 1.
    rewrite bind_eq. unfold read_file at 1. rewrite Hcur. cbn [mret M_ret].
    rewrite bind_eq.
    destruct (build_appearance_dict_spec ac (Z.of_nat page) w) as (dct & -> & Hdk & Hdr).
    destruct (page_sig_dct_spec ac (Z.of_nat page) dct (clock w) Hdk Hdr) as [Hk Hr].
    set (w1 := (datetime_now w).2).
    assert (files w1 = files w ∧ lib_calls w1 = lib_calls w ∧ clock w ≤ clock w1)
      as (Hf1 & Hc1 & Ht1) by (subst w1; cbn; repeat split; lia).
    rewrite bind_eq. unfold cms_sign. rewrite bind_eq.
    set (udct := page_sig_dct cfg ac (Z.of_nat page) dct) in *.
    set (ret := endesive_cms_sign E doc udct key cert cas "sha256").
    set (c := EndesiveSign doc udct key cert cas "sha256" ret).
    assert (approval_request (clock w) (clock w1) c) as Hc.
    { eexists _, _, _, _, _, _, (clock w), _.
      split; [reflexivity|]. split; [lia|]. split; [exact Hk|exact Hr]. }
    unfold record_call. cbn [fst snd].
    destruct ret as [signature_data|e] eqn:Hret.
    + cbn [mret M_ret]. rewrite bind_eq. unfold write_file at 1.
      match goal with |- context [approval_loop _ _ _ _ _ _ _ _ ?p ?w3] =>
        destruct (IH p w3 (doc ++ signature_data)%list) as (r & w' & calls & -> & Hp & Ht & Hl & Hfa & Hr')
      end.
      { unfold set_files; cbn [files]. by rewrite lookup_insert_eq. }
      cbn [clock lib_calls files set_files] in *.
      exists r, w', (c :: calls). split; [reflexivity|].
      split. { intros q. rewrite Hp, lookup_insert_ne by done. by rewrite Hf1. }
      split; [lia|]. split. { rewrite Hl, Hc1, <- app_assoc. done. }
      split.
      { constructor.
        - eapply approval_request_weaken; [| |exact Hc]; lia.
        - eapply Forall_impl; [exact Hfa|]. intros c' Hc'.
          eapply approval_request_weaken; [| |exact Hc']; lia. }
      destruct r as [p|]; [|done].
      destruct Hr' as (Hpp & final & Hfin & Hch & Hks).
      split; [right; destruct Hpp as [->|?]; eauto|]. exists final.
      split; [done|]. split.
      * cbn [revision_chain]. subst c. cbn [call_input call_document].
        rewrite decide_True by done. cbn. exact Hch.
      * cbn [fmap list_fmap]. subst c. cbn [call_kind]. rewrite Hk. f_equal. exact Hks.
    + exists (Raise e), (Build_world (files w1) (clock w1) (ticks w1) (next_key_id w1)
                          (next_tmp w1) (pkcs12_backend w1) (lib_calls w1 ++ [c])), [c].
      cbn [raise]. split; [reflexivity|]. cbn [files clock lib_calls].
      split; [by rewrite Hf1|]. split; [done|]. split; [by rewrite Hc1|].
      split; [|done]. constructor; [|done].
      eapply approval_request_weaken; [| |exact Hc]; lia.
Qed.

Lemma signing_steps_spec E ac info key cert cas d input_path output_path w :
  ∃ r w' calls,
    signing_steps L cfg E ac info key cert cas d input_path output_path w = (r, w') ∧
    clock w ≤ clock w' ∧
    lib_calls w' = (lib_calls w ++ calls)%list ∧
    Forall (approval_request (clock w) (clock w')) (tail calls) ∧
    steps_outcome L Endesive input_path output_path w r w' calls.
Proof.
  unfold signing_steps. rewrite bind_eq. cbn [datetime_now]. rewrite bind_eq.
  set (w1 := Build_world _ _ _ _ _ _ _).
  assert (files w1 = files w ∧ lib_calls w1 = lib_calls w ∧ clock w ≤ clock w1)
    as (Hf1 & Hc1 & Ht1) by (subst w1; cbn; repeat split; lia).
  unfold read_bytes at 1. rewrite bind_eq. unfold read_file at 1. rewrite Hf1.
  destruct (files w !! Path input_path) as [content|] eqn:Hin.
  2:{ exists (Raise (FileNotFoundError "No such file or directory")), w1, [].
      rewrite app_nil_r. cbn. repeat split; first [done | by rewrite Hf1 | lia]. }
  destruct content as [| | | | |pdf_in];
    try (eexists _, w1, []; rewrite app_nil_r; cbn;
         split; [reflexivity|]; repeat split; first [done | by rewrite Hf1 | lia]).
  cbn [mret M_ret]. rewrite bind_eq. unfold cms_sign. rewrite bind_eq.
  set (udct := certify_dct cfg info (clock w)).
  set (ret := endesive_cms_sign E pdf_in udct key cert cas "sha256").
  set (c := EndesiveSign pdf_in udct key cert cas "sha256" ret).
  unfold record_call. cbn [fst snd].
  destruct ret as [signature_data|e] eqn:Hret.
  2:{ eexists _, _, [c]. cbn [raise]. split; [reflexivity|]. cbn.
      repeat split; first [done | by rewrite Hf1 | by rewrite Hc1 | lia]. }
  cbn [mret M_ret]. rewrite bind_eq. unfold write_file at 1. rewrite bind_eq.
  set (certified := (pdf_in ++ signature_data)%list).
  set (w2 := set_files _ _).
  assert (files w2 !! TempPath d "certified.pdf" = Some (Binary certified)) as Hcert.
  { subst w2. unfold set_files; cbn. by rewrite lookup_insert_eq. }
  assert ((∀ q, files w2 !! Path q = files w !! Path q) ∧ clock w2 = clock w1 ∧
          lib_calls w2 = (lib_calls w ++ [c])%list) as (Hf2 & Ht2 & Hc2).
  { subst w2. unfold set_files; cbn.
    split; [intros q; rewrite lookup_insert_ne by done;
            first [done | by rewrite Hf1]|].
    split; [done|]. first [done | by rewrite Hc1]. }
  unfold get_pdf_page_count, read_bytes at 1. rewrite !bind_eq.
  unfold read_file at 1. rewrite Hcert. cbn [mret M_ret].
  destruct (PdfReader_pages L certified) as [n|e] eqn:Hn.
  2:{ eexists _, w2, [c]. cbn [raise]. split; [reflexivity|].
      rewrite Ht2. repeat split; first [done | lia]. }
  cbn [mret M_ret]. rewrite bind_eq.
  destruct (approval_loop_spec E ac key cert cas d (seq 0 n)
              (TempPath d "certified.pdf") w2 certified Hcert)
    as (r & w3 & calls & -> & Hf3 & Ht3 & Hc3 & Hfa & Hr).
  destruct r as [p|e].
  2:{ eexists _, w3, (c :: calls). split; [reflexivity|].
      split; [lia|]. split; [by rewrite Hc3, Hc2, <- app_assoc|].
      split.
      - cbn [tail]. eapply Forall_impl; [exact Hfa|]. intros c' Hc'.
        eapply approval_request_weaken; [| |exact Hc']; lia.
      - cbn. intros q. by rewrite Hf3, Hf2. }
  destruct Hr as (Hp & final & Hfin & Hch & Hks).
  assert (∃ name, p = TempPath d name) as [name ->].
  { destruct Hp as [->|?]; eauto. }
  rewrite bind_eq. unfold shutil_move. rewrite Hfin. cbn [mret M_ret].
  eexists _, _, (c :: calls). split; [reflexivity|].
  unfold set_files; cbn [clock lib_calls files].
  split; [lia|]. split; [by rewrite Hc3, Hc2, <- app_assoc|].
  split.
  { cbn [tail]. eapply Forall_impl; [exact Hfa|]. intros c' Hc'.
    eapply approval_request_weaken; [| |exact Hc']; lia. }
  cbn [steps_outcome files]. split; [done|].
  exists pdf_in, certified, n, final. split; [done|]. split.
  { cbn [fmap list_fmap]. unfold certify_then_approve. f_equal; [|exact Hks].
    subst c. cbn [call_kind]. apply certify_dct_kind. }
  split.
  { subst c. cbn [take revision_chain call_input call_document].
    rewrite decide_True by done. reflexivity. }
  split; [cbn; by rewrite Hn|]. split.
  { subst c. cbn [revision_chain call_input call_document].
    rewrite decide_True by done. exact Hch. }
  split; [by rewrite lookup_insert_eq|].
  intros q Hq. rewrite lookup_insert_ne by congruence.
  rewrite lookup_delete_ne by done. by rewrite Hf3, Hf2.
Qed.

Lemma load_certificate_data_spec w :
  ∃ r, load_certificate_data cfg w = (r, w).
Proof.
  unfold load_certificate_data, try_except, pkcs12_load_key_and_certificates. run.
  destruct (files w !! Path (CERTIFICATE_P12_PATH cfg)) as [c|] eqn:E.
  - rewrite bool_decide_true by eauto. cbn. rewrite E.
    destruct c; cbn; eauto.
    destruct (String.eqb password (CERTIFICATE_PASSWORD cfg)); cbn; eauto.
  - rewrite bool_decide_false by (by intros [? ?]). cbn. eauto.
Qed.

Lemma lookup_after_rmtree d (m : gmap path file_content) q :
  filter (λ kv, in_temp_dir d kv.1 = false) m !! Path q = m !! Path q.
Proof.
  apply option_eq. intros x. rewrite map_lookup_filter_Some. cbn. tauto.
Qed.

(** [sign_pdf_multi_page_with_proper_mdp]: the outcome of its steps is
    the outcome of the call. *)
Lemma proper_mdp_spec input_path output_path w :
  ∃ r w' calls,
    sign_pdf_multi_page_with_proper_mdp L cfg input_path output_path w = (r, w') ∧
    clock w ≤ clock w' ∧
    lib_calls w' = (lib_calls w ++ calls)%list ∧
    Forall (approval_request (clock w) (clock w')) (tail calls) ∧
    steps_outcome L Endesive input_path output_path w r w' calls ∧
    (identity_loads Endesive L cfg w = false →
     is_ok r = false ∧ files w' = files w ∧ calls = []).
Proof.
  unfold sign_pdf_multi_page_with_proper_mdp, identity_loads.
  destruct (endesive L) as [E|].
  2:{ exists (Raise (Exception "Endesive library is required for PDF signing.")), w, [].
      rewrite app_nil_r. cbn. repeat split; first [done | lia]. }
  rewrite bind_eq. destruct (load_certificate_data_spec w) as [r0 Hl]. rewrite Hl.
  destruct r0 as [[[key cert] cas]|e].
  2:{ exists (Raise e), w, []. rewrite app_nil_r. cbn.
      repeat split; first [done | lia]. }
  rewrite bind_eq. unfold mkdtemp at 1. unfold try_finally, try_except, rmtree.
  set (w1 := Build_world _ _ _ _ _ _ _).
  destruct (signing_steps_spec E (SignatureAppearance_init (get_signer_info_from_cert cert))
              (get_signer_info_from_cert cert) key cert cas (next_tmp w)
              input_path output_path w1)
    as (r & w' & calls & -> & Ht & Hc & Hfa & Ho).
  eexists r, _, calls.
  split; [by destruct r|]. subst w1. cbn [clock lib_calls files] in *.
  destruct r as [p|e]; cbn [fst snd raise set_files clock lib_calls files];
    (split; [done|]; split; [done|]; split; [done|]; split; [|done]);
    cbn [steps_outcome files] in *.
  - destruct Ho as (-> & pdf_in & certified & n & final & H1 & H2 & H3 & H4 & H5 & H6 & H7).
    split; [done|]. exists pdf_in, certified, n, final.
    repeat split; try done; intros; unfold set_files; cbn [files];
      rewrite ?lookup_after_rmtree; auto.
  - intros q. unfold set_files; cbn [files]. rewrite lookup_after_rmtree. apply Ho.
Qed.

(** [sign_pdf_multi_page]: the same steps; on failure the original is
    copied to a missing output path. *)
Lemma legacy_spec input_path output_path w :
  ∃ r w' calls,
    sign_pdf_multi_page L cfg input_path output_path w = (r, w') ∧
    clock w ≤ clock w' ∧
    lib_calls w' = (lib_calls w ++ calls)%list ∧
    Forall (approval_request (clock w) (clock w')) (tail calls) ∧
    match r with
    | Ok _ => steps_outcome L EndesiveLegacy input_path output_path w r w' calls
    | Raise _ =>
        (∀ q, q ≠ output_path → files w' !! Path q = files w !! Path q) ∧
        files w' !! Path output_path =
          match files w !! Path output_path with
          | Some c => Some c
          | None =>
              if identity_loads Endesive L cfg w
              then files w !! Path input_path else None
          end
    end ∧
    (identity_loads Endesive L cfg w = false →
     is_ok r = false ∧ files w' = files w ∧ calls = []).
Proof.
  unfold sign_pdf_multi_page, identity_loads.
  destruct (endesive L) as [E|].
  2:{ exists (Raise (Exception "Endesive library is required for PDF signing.")), w, [].
      rewrite app_nil_r. cbn.
      repeat split; try done; try lia. by destruct (files w !! Path output_path). }
  rewrite bind_eq. destruct (load_certificate_data_spec w) as [r0 Hl]. rewrite Hl.
  destruct r0 as [[[key cert] cas]|e].
  2:{ exists (Raise e), w, []. rewrite app_nil_r. cbn.
      repeat split; try done; try lia. by destruct (files w !! Path output_path). }
  rewrite bind_eq. unfold mkdtemp at 1. unfold try_finally, try_except, rmtree.
  set (w1 := Build_world _ _ _ _ _ _ _).
  destruct (signing_steps_spec E (SignatureAppearance_init (get_signer_info_from_cert cert))
              (get_signer_info_from_cert cert) key cert cas (next_tmp w)
              input_path output_path w1)
    as (r & w' & calls & -> & Ht & Hc & Hfa & Ho).
  subst w1. cbn [clock lib_calls files] in *.
  destruct r as [p|e]; cbn [steps_outcome] in Ho.
  - eexists (Ok p), _, calls. split; [reflexivity|].
    cbn [fst snd raise set_files clock lib_calls files].
    split; [done|]. split; [done|]. split; [done|]. split; [|done].
    destruct Ho as (-> & pdf_in & certified & n & final & H1 & H2 & H3 & H4 & H5 & H6 & H7).
    split; [done|]. exists pdf_in, certified, n, final.
    repeat split; try done; intros; unfold set_files; cbn [files];
      rewrite ?lookup_after_rmtree; auto.
  - run_engine. rewrite !Ho. cbn [fst snd is_ok andb].
    rewrite (bool_decide_true (is_Some (Some E))) by eauto.
    destruct (files w !! Path output_path) as [oc|] eqn:Hout.
    + rewrite bool_decide_true by eauto. cbn.
      eexists (Raise e), _, calls. split; [reflexivity|].
      cbn. repeat split; try done; intros; unfold set_files; cbn [files];
        rewrite lookup_after_rmtree, ?Ho; auto.
    + rewrite bool_decide_false by (by intros [? ?]). cbn [negb andb].
      destruct (files w !! Path input_path) as [ic|] eqn:Hin.
      * rewrite bool_decide_true by eauto. cbn. rewrite Ho, Hin. cbn.
        eexists (Raise e), _, calls. split; [reflexivity|].
        cbn. repeat split; try done; intros; unfold set_files; cbn [files];
          rewrite lookup_after_rmtree.
        -- rewrite lookup_insert_ne by congruence. apply Ho.
        -- by rewrite lookup_insert_eq.
      * rewrite bool_decide_false by (by intros [? ?]). cbn.
        eexists (Raise e), _, calls. split; [reflexivity|].
        cbn. repeat split; try done; intros; unfold set_files; cbn [files];
        rewrite lookup_after_rmtree, ?Ho; auto.
Qed.

Lemma approval_meta_kind i : pyhanko_kind (approval_meta i) false = Approval i.
Proof. unfold pyhanko_kind, approval_meta. dict. reflexivity. Qed.

Lemma cert_meta_kind : pyhanko_kind cert_meta true = Certification.
Proof. unfold pyhanko_kind, cert_meta, NO_CHANGES. dict. reflexivity. Qed.

Lemma pyhanko_approval_loop_spec P signer pages : ∀ cur w,
  ∃ r w' calls,
    pyhanko_approval_loop P signer pages cur w = (r, w') ∧
    files w' = files w ∧ clock w ≤ clock w' ∧
    lib_calls w' = (lib_calls w ++ calls)%list ∧
    match r with
    | Ok final =>
        revision_chain cur calls = Some final ∧
        call_kind <$> calls = (λ k, Approval (Z.of_nat k)) <$> pages
    | Raise _ => True
    end.
Proof.
  induction pages as [|page pages IH]; intros cur w.
  - exists (Ok cur), w, []. rewrite app_nil_r. repeat split; first [done | lia].
  - cbn [pyhanko_approval_loop]. rewrite bind_eq. cbn [datetime_now].
    rewrite bind_eq. unfold sign_pdf. rewrite bind_eq.
    unfold record_call. cbn [fst snd].
    match goal with |- context [PyhankoSign cur ?m signer ?st false ?ret] =>
      set (c := PyhankoSign cur m signer st false ret); destruct ret as [out|e] eqn:Hret
    end.
    + cbn [mret M_ret].
      match goal with |- context [pyhanko_approval_loop _ _ _ out ?w2] =>
        destruct (IH out w2) as (r & w' & calls & -> & Hf & Ht & Hc & Hr)
      end.
      cbn [files clock lib_calls] in *.
      exists r, w', (c :: calls). split; [reflexivity|]. split; [done|].
      split; [lia|]. split; [by rewrite Hc, <- app_assoc|].
      destruct r as [final|]; [|done]. destruct Hr as [Hch Hk]. split.
      * subst c. cbn [revision_chain call_input call_document].
        rewrite decide_True by done. exact Hch.
      * cbn [fmap list_fmap]. subst c. cbn [call_kind].
        rewrite approval_meta_kind. f_equal. exact Hk.
    + eexists (Raise e), _, [c]. cbn [raise]. split; [reflexivity|].
      cbn. repeat split; first [done | lia].
Qed.

Lemma get_certificate_info_pyhanko_spec cert_path password w :
  ∃ r, get_certificate_info_pyhanko L cert_path password w = (r, w).
Proof.
  unfold get_certificate_info_pyhanko. destruct (pyhanko L); [|by eexists].
  run_engine. destruct (files w !! Path cert_path) as [c|]; [|by eexists].
  destruct c; try (by eexists).
  destruct (String.eqb password0 password); by eexists.
Qed.

Lemma pyhanko_spec input_path output_path w :
  ∃ r w' calls,
    sign_pdf_multi_page_pyhanko L cfg input_path output_path w = (r, w') ∧
    clock w ≤ clock w' ∧
    lib_calls w' = (lib_calls w ++ calls)%list ∧
    steps_outcome L PyHankoEngine input_path output_path w r w' calls ∧
    (is_ok (get_certificate_info_pyhanko L (CERTIFICATE_P12_PATH cfg)
              (CERTIFICATE_PASSWORD cfg) w).1 = false →
     is_ok r = false ∧ files w' = files w ∧ calls = []).
Proof.
  unfold sign_pdf_multi_page_pyhanko, sign_pdf_pyhanko_with_proper_mdp.
  destruct (pyhanko L) as [P|] eqn:HP.
  2:{ eexists _, w, []. rewrite app_nil_r. split; [reflexivity|]. cbn.
      repeat split; first [done | lia]. }
  unfold try_except. rewrite bind_eq.
  destruct (get_certificate_info_pyhanko_spec (CERTIFICATE_P12_PATH cfg)
              (CERTIFICATE_PASSWORD cfg) w) as [r0 Hl].
  rewrite Hl. destruct r0 as [signer|e].
  2:{ eexists _, w, []. rewrite app_nil_r. split; [reflexivity|]. cbn.
      repeat split; first [done | lia]. }
  cbn [fst is_ok].
  rewrite bind_eq. unfold read_bytes at 1. rewrite bind_eq. unfold read_file at 1.
  destruct (files w !! Path input_path) as [content|] eqn:Hin.
  2:{ eexists _, w, []. rewrite app_nil_r. split; [reflexivity|]. cbn.
      repeat split; first [done | lia]. }
  destruct content as [| | | | |pdf_in];
    try (eexists _, w, []; rewrite app_nil_r; split; [reflexivity|]; cbn;
         repeat split; first [done | lia]).
  cbn [mret M_ret]. rewrite bind_eq.
  destruct (pyhanko_pages_count P pdf_in) as [[[num_pages|]|]|e] eqn:Hn;
    try (eexists _, w, []; rewrite app_nil_r; split; [reflexivity|]; cbn;
         repeat split; first [done | lia]).
  cbn [mret M_ret]. rewrite bind_eq. unfold sign_pdf at 1. rewrite bind_eq.
  unfold record_call. cbn [fst snd].
  match goal with |- context [PyhankoSign pdf_in cert_meta signer None true ?ret] =>
    set (c := PyhankoSign pdf_in cert_meta signer None true ret);
    destruct ret as [certified|e] eqn:Hret
  end.
  2:{ eexists _, _, [c]. cbn [raise]. split; [reflexivity|]. cbn.
      repeat split; first [done | lia]. }
  cbn [mret M_ret]. rewrite bind_eq.
  match goal with |- context [pyhanko_approval_loop _ _ ?pages certified ?w2] =>
    destruct (pyhanko_approval_loop_spec P signer pages certified w2)
      as (r & w' & calls & -> & Hf & Ht & Hc & Hr)
  end.
  cbn [files clock lib_calls] in *.
  destruct r as [final|e].
  2:{ eexists _, w', (c :: calls). split; [reflexivity|]. cbn.
      split; [lia|]. split; [by rewrite Hc, <- app_assoc|].
      split; [by rewrite Hf|intros Hx; discriminate Hx]. }
  destruct Hr as [Hch Hk]. rewrite bind_eq. unfold write_file. cbn [mret M_ret].
  eexists _, _, (c :: calls). split; [reflexivity|].
  unfold set_files; cbn [clock lib_calls files].
  split; [lia|]. split; [by rewrite Hc, <- app_assoc|]. split; [|intros Hx; discriminate Hx].
  cbn [steps_outcome files]. split; [done|].
  exists pdf_in, certified, (Z.to_nat num_pages), final. split; [done|]. split.
  { cbn [fmap list_fmap]. unfold certify_then_approve.
    subst c. cbn [call_kind]. rewrite cert_meta_kind, Hk. reflexivity. }
  split.
  { subst c. cbn [take revision_chain call_input call_document].
    rewrite decide_True by done. reflexivity. }
  split; [cbn; by rewrite HP, Hn|]. split.
  { subst c. cbn [revision_chain call_input call_document].
    rewrite decide_True by done. exact Hch. }
  split; [by rewrite lookup_insert_eq|].
  intros q Hq. rewrite lookup_insert_ne by congruence. by rewrite Hf.
Qed.

End EngineFacts.

Section EngineClaims.

Context (L : libraries) (cfg : config).

(** All three routes at once. *)
Lemma sign_with_spec e input_path output_path w :
  ∃ r w' calls,
    sign_with e L cfg input_path output_path w = (r, w') ∧
    clock w ≤ clock w' ∧
    lib_calls w' = (lib_calls w ++ calls)%list ∧
    (e ≠ PyHankoEngine → Forall (approval_request (clock w) (clock w')) (tail calls)) ∧
    match r with
    | Ok _ => steps_outcome L e input_path output_path w r w' calls
    | Raise _ =>
        (∀ q, q ≠ output_path → files w' !! Path q = files w !! Path q) ∧
        files w' !! Path output_path =
          match e, files w !! Path output_path with
          | EndesiveLegacy, None =>
              if identity_loads e L cfg w then files w !! Path input_path else None
          | _, o => o
          end
    end ∧
    (identity_loads e L cfg w = false →
     is_ok r = false ∧ files w' = files w ∧ calls = []).
Proof.
  destruct e; cbn [sign_with].
  - destruct (proper_mdp_spec L cfg input_path output_path w)
      as (r & w' & calls & Hr & Ht & Hc & Hfa & Ho & Hl).
    exists r, w', calls. split; [exact Hr|]. split; [exact Ht|]. split; [exact Hc|].
    split; [intros _; exact Hfa|]. split; [|exact Hl].
    destruct r; [exact Ho|]. cbn in Ho. split; [auto|].
    rewrite Ho. by destruct (files w !! Path output_path).
  - destruct (legacy_spec L cfg input_path output_path w)
      as (r & w' & calls & Hr & Ht & Hc & Hfa & Ho & Hl).
    exists r, w', calls. split; [exact Hr|]. split; [exact Ht|]. split; [exact Hc|].
    split; [intros _; exact Hfa|]. split; [|exact Hl].
    destruct r; [exact Ho|]. destruct Ho as [Ho1 Ho2]. split; [exact Ho1|].
    rewrite Ho2. by destruct (files w !! Path output_path).
  - destruct (pyhanko_spec L cfg input_path output_path w)
      as (r & w' & calls & Hr & Ht & Hc & Ho & Hl).
    exists r, w', calls. split; [exact Hr|]. split; [exact Ht|]. split; [exact Hc|].
    split; [by intros []|]. split; [|exact Hl].
    destruct r; [exact Ho|]. cbn in Ho. split; [auto|].
    rewrite Ho. by destruct (files w !! Path output_path).
Qed.

End EngineClaims.

(** ** The claims about the signing engine *)

(** C2. Certification first, approvals chained behind it.  In every run
    of a signing route that returns, on each of the three routes, the
    calls made to the signing library are: first one certification request
    (DocMDP level 1, no changes allowed, no signature box) on exactly the
    bytes of the input file, then one approval request per page counted,
    for pages 0, 1, ... in order; every request is given exactly the
    document the request before it produced, and the output file holds
    the document after the last one. *)
Theorem certification_precedes_approvals (e : engine) (L : libraries) (cfg : config)
    (input_path output_path : string) (w : world) (p : string) (w' : world) :
  sign_with e L cfg input_path output_path w = (Ok p, w') →
  ∃ calls pdf_in certified n final,
    lib_calls w' = (lib_calls w ++ calls)%list ∧
    files w !! Path input_path = Some (Binary pdf_in) ∧
    call_kind <$> calls = certify_then_approve n ∧
    revision_chain pdf_in (take 1 calls) = Some certified ∧
    pages_counted e L pdf_in certified = Some n ∧
    revision_chain pdf_in calls = Some final ∧
    files w' !! Path output_path = Some (Binary final).
Proof.
  intros Hrun.
  destruct (sign_with_spec L cfg e input_path output_path w)
    as (r & w1 & calls & Hr & _ & Hc & _ & Ho & _).
  rewrite Hrun in Hr. injection Hr as <- <-.
  destruct Ho as (_ & pdf_in & certified & n & final & H1 & H2 & H3 & H4 & H5 & H6 & _).
  exists calls, pdf_in, certified, n, final. done.
Qed.

(** A three-page document on the endesive route: a certification and
    three approvals. *)
Lemma certification_precedes_approvals_witness :
  let w := Fixture.signing_world 1750400000 Fixture.three_pages in
  let L := Fixture.toy_libraries Fixture.sign_always in
  ∃ p w' calls n final,
    sign_with Endesive L default_config "in.pdf" "out.pdf" w = (Ok p, w') ∧
    lib_calls w' = (lib_calls w ++ calls)%list ∧
    call_kind <$> calls = certify_then_approve n ∧
    revision_chain Fixture.three_pages calls = Some final ∧
    files w' !! Path "out.pdf" = Some (Binary final).
Proof.
  intros w L.
  destruct (sign_with Endesive L default_config "in.pdf" "out.pdf" w)
    as [[p|err] w'] eqn:Hrun; [|vm_compute in Hrun; discriminate Hrun].
  destruct (certification_precedes_approvals Endesive L default_config
              "in.pdf" "out.pdf" w p w' Hrun)
    as (calls & pdf_in & certified & n & final & Hc & Hin & Hk & Hcert & Hn & Hch & Hout).
  exists p, w', calls, n, final. split; [reflexivity|]. split; [exact Hc|].
  split; [exact Hk|]. split; [|exact Hout].
  vm_compute in Hin. injection Hin as <-. exact Hch.
Defined.



(** C6, as stated, fails twice over.  On [sign_pdf_multi_page] a failure
    at the second page leaves a copy of the unsigned original at the
    output location, which was empty before; and with an expired
    certificate the engine signs all the same and writes the output. *)
Lemma failure_atomicity_counterexample :
  ¬ failure_atomic EndesiveLegacy (Fixture.toy_libraries Fixture.sign_fails_on_page_2)
      default_config "in.pdf" "out.pdf"
      (Fixture.signing_world 1750400000 Fixture.three_pages) ∧
  ¬ expiry_aborts Endesive (Fixture.toy_libraries Fixture.sign_always)
      default_config "in.pdf" "out.pdf" Fixture.expired_world.
Proof.
  split.
  - unfold failure_atomic.
    destruct (sign_with EndesiveLegacy _ _ _ _ _) as [[p|err] w'] eqn:Hrun;
      [vm_compute in Hrun; discriminate Hrun|].
    intros [_ Hout]. vm_compute in Hrun. injection Hrun as _ <-.
    vm_compute in Hout. discriminate Hout.
  - unfold expiry_aborts. intros H.
    assert (certificate_expired default_config Fixture.expired_world) as Hexp.
    { destruct (files Fixture.expired_world !! Path (CERTIFICATE_P12_PATH default_config))
        as [[| | |b pw| |]|] eqn:E; try (vm_compute in E; discriminate E).
      exists b, pw. split; [exact E|].
      vm_compute in E. injection E as <- _. vm_compute. reflexivity. }
    specialize (H Hexp).
    destruct (sign_with Endesive _ _ _ _ _) as [[p|err] w'] eqn:Hrun; [done|].
    vm_compute in Hrun. discriminate Hrun.
Qed.

(** The run the examples below share. *)
Lemma toy_run :
  sign_with Endesive (Fixture.toy_libraries Fixture.sign_always) default_config
    "in.pdf" "out.pdf" (Fixture.signing_world 1750400000 Fixture.three_pages)
  = (Ok "out.pdf", Fixture.signed_world).
Proof. vm_compute. reflexivity. Qed.

Section VerifierFacts.

Context (L : libraries).

Lemma process_verification_result_entry vr entry :
  process_verification_result L vr = Some entry → entry_well_formed entry.
Proof.
  unfold process_verification_result. intros H.
  destruct (py_len vr) as [[|[[|[]|]|[|[]|]|]|]|]; try discriminate H.
  destruct (py_iter vr) as [[|sig_name [|cert_bytes [|signed_data [|signature_ok
    [|hash_ok [|]]]]]]|]; try discriminate H.
  destruct sig_name; try discriminate H.
  destruct (if truthy cert_bytes then py_len cert_bytes else Some 0);
    [|discriminate H].
  injection H as <-. split.
  - cbn. rewrite !dom_insert_L, dom_empty_L. unfold report_keys. set_solver.
  - exists signature_ok, hash_ok. cbn. by dict.
Qed.

Lemma verify_pdf_signature_spec pdf_path w :
  ∃ report,
    verify_pdf_signature L pdf_path w = (Ok report, w) ∧
    Forall entry_well_formed report ∧
    ∀ E doc raws,
      endesive L = Some E →
      files w !! Path pdf_path = Some (Binary doc) →
      endesive_verify_func E doc [] = Ok (VList raws) →
      report = omap (process_verification_result L) raws.
Proof.
  unfold verify_pdf_signature. destruct (endesive L) as [E|].
  2:{ exists []. split; [reflexivity|]. split; [constructor|]. done. }
  run_engine.
  assert (∀ raws, Forall entry_well_formed (omap (process_verification_result L) raws))
    as Hwf.
  { intros raws. rewrite Forall_forall. intros entry [vr [_ Hvr]]%list_elem_of_omap.
    by eapply process_verification_result_entry. }
  destruct (files w !! Path pdf_path) as [[| | | | |doc]|] eqn:Hf;
    try (exists []; split; [reflexivity|]; split; [constructor|];
         intros ? ? ? ?; congruence).
  destruct (endesive_verify_func E doc []) as [verified|e] eqn:Hv.
  2:{ exists []. split; [reflexivity|]. split; [constructor|].
      intros ? ? ? [= <-] [= <-]. congruence. }
  destruct (truthy verified) eqn:Ht; cbn.
  - destruct (py_len verified) eqn:Hlen, (py_iter verified) as [results|] eqn:Hi;
      try (exists []; split; [reflexivity|]; split; [constructor|];
           intros ? ? ? [= <-] [= <-]; rewrite Hv; intros [= ->]; cbn in *; congruence).
    exists (omap (process_verification_result L) results).
    split; [reflexivity|]. split; [apply Hwf|].
    intros ? ? ? [= <-] [= <-]. rewrite Hv. intros [= ->]. cbn in Hi. congruence.
  - exists []. split; [reflexivity|]. split; [constructor|].
    intros ? ? raws [= <-] [= <-]. rewrite Hv. intros [= ->].
    destruct raws; [done|discriminate Ht].
Qed.

End VerifierFacts.

Lemma toy_verify :
  verify_pdf_signature (Fixture.toy_libraries Fixture.sign_always) "out.pdf"
    Fixture.signed_world
  = (Ok Fixture.signed_report, Fixture.signed_world).
Proof.
  destruct (verify_pdf_signature_spec (Fixture.toy_libraries Fixture.sign_always)
              "out.pdf" Fixture.signed_world) as (report & Hv & _).
  unfold Fixture.signed_report. rewrite Hv. reflexivity.
Qed.

(** C3, as the code has it.  After a run of a signing route that returns,
    the signing library has been asked for exactly one certification
    (DocMDP level 1) and one approval per page counted: [n + 1] requests
    for [n] pages.  The verifier, run on the output, returns normally with
    one entry for each result of five values the library returns; an
    entry holds the signature's name, the validity [signature_ok and
    hash_ok] and four details (name, the two flags, certificate size):
    it carries no certifying flag and no permission level. *)
Theorem signing_then_verifying (e : engine) (L : libraries) (cfg : config)
    (input_path output_path : string) (w : world) (p : string) (w' : world) :
  sign_with e L cfg input_path output_path w = (Ok p, w') →
  (∃ calls n,
     lib_calls w' = (lib_calls w ++ calls)%list ∧
     call_kind <$> calls = certify_then_approve n ∧ length calls = S n) ∧
  ∃ report,
    verify_pdf_signature L output_path w' = (Ok report, w') ∧
    Forall entry_well_formed report ∧
    ∀ E final raws,
      endesive L = Some E →
      files w' !! Path output_path = Some (Binary final) →
      endesive_verify_func E final [] = Ok (VList raws) →
      report = omap (process_verification_result L) raws.
Proof.
  intros Hrun. split.
  - destruct (sign_with_spec L cfg e input_path output_path w)
      as (r & w1 & calls & Hr & _ & Hc & _ & Ho & _).
    rewrite Hrun in Hr. injection Hr as <- <-.
    destruct Ho as (_ & pdf_in & certified & n & final & _ & Hk & _).
    exists calls, n. split; [done|]. split; [done|].
    rewrite <- (length_fmap call_kind), Hk. unfold certify_then_approve.
    cbn. by rewrite length_fmap, length_seq.
  - apply verify_pdf_signature_spec.
Qed.

(** Three pages signed and verified: four entries, each named and valid. *)
Lemma signing_then_verifying_witness :
  let w := Fixture.signing_world 1750400000 Fixture.three_pages in
  let L := Fixture.toy_libraries Fixture.sign_always in
  ∃ p w' report,
    sign_with Endesive L default_config "in.pdf" "out.pdf" w = (Ok p, w') ∧
    verify_pdf_signature L "out.pdf" w' = (Ok report, w') ∧
    Forall entry_well_formed report.
Proof.
  intros w L.
  assert (sign_with Endesive L default_config "in.pdf" "out.pdf" w
          = (Ok "out.pdf", Fixture.signed_world)) as Hrun
    by (vm_compute; reflexivity).
  destruct (signing_then_verifying Endesive L default_config
              "in.pdf" "out.pdf" w "out.pdf" Fixture.signed_world Hrun)
    as [_ (report & Hv & Hwf & _)].
  exists "out.pdf", Fixture.signed_world, report.
  split; [exact Hrun|]. split; [exact Hv|exact Hwf].
Defined.

(** C3, as stated, fails: for the three-page document signed and then
    verified, with a library that finds all four signatures sound, the
    report shows no certifying signature and no permission level. *)
Lemma round_trip_counterexample :
  ¬ round_trip Endesive (Fixture.toy_libraries Fixture.sign_always) default_config
      "in.pdf" "out.pdf" (Fixture.signing_world 1750400000 Fixture.three_pages) 3.
Proof.
  intros H.
  destruct (H "out.pdf" Fixture.signed_world Fixture.signed_report
              Fixture.signed_world toy_run toy_verify) as [Hcert _].
  vm_compute in Hcert. discriminate Hcert.
Qed.
(* ===================================================================== *)
(** * Further facts about the certificate authority *)
(* ===================================================================== *)

Section IssuanceFacts.

Context (self : PDFSigningCA).

Lemma load_keeps_backend w r w1 :
  load_ca_certificate self w = (r, w1) →
  pkcs12_backend w1 = pkcs12_backend w ∧ lib_calls w1 = lib_calls w.
Proof.
  destruct (decide (ca_present self w)) as [Hp|Hn].
  - destruct (load_present self w Hp) as [r' Hl]. rewrite Hl. by intros [= _ <-].
  - rewrite (load_absent self w Hn).
    destruct (create_ca_certificate_spec self w) as (c&k&w'&->&_&_&_&_&Hc&Hb&_).
    by intros [= _ <-].
Qed.

(** What one issuance does, once the root has been loaded. *)
Lemma issue_spec cn email w ca_cert ca_key w1 :
  paths_distinct self →
  load_ca_certificate self w = (Ok (ca_cert, ca_key), w1) →
  ∃ r w',
    create_pdf_signing_certificate self cn email w = (r, w') ∧
    (∀ q, q ≠ serial_file self → q ≠ cert_path self → q ≠ ca_bundle_path self →
          files w' !! Path q = files w1 !! Path q) ∧
    match r with
    | Ok res =>
        res = (cert_path self, ca_bundle_path self) ∧
        ∃ s b,
          next_value self w1 = Some s ∧ serial_number_ok s = true ∧
          pkcs12_backend w1 ≠ NoPkcs12 ∧
          next_value self w' = Some (s + 1) ∧
          files w' !! Path (cert_path self) = Some (Pkcs12File b p12_password) ∧
          files w' !! Path (ca_bundle_path self) = Some (PemCertificate ca_cert) ∧
          p12_key b = {| key_id := next_key_id w1; key_size := 2048;
                         public_exponent := 65537 |} ∧
          p12_cas b = match pkcs12_backend w1 with PyOpenSSL => [] | _ => [ca_cert] end ∧
          subject (p12_cert b) = signing_subject cn email ∧
          issuer (p12_cert b) = subject ca_cert ∧
          cert_public_key (p12_cert b) = public_key_of (p12_key b) ∧
          serial_number (p12_cert b) = s ∧
          not_valid_before (p12_cert b) = clock w1 ∧
          not_valid_after (p12_cert b)
            = clock w1 + Z.of_N (hd 0%N (ticks w1)) + timedelta_days (365 * 3) ∧
          signature_by (p12_cert b) = public_key_of ca_key ∧
          signature_hash (p12_cert b) = SHA256 ∧
          extensions (p12_cert b) =
            [ (BasicConstraints false None, true);
              (KeyUsage {| digital_signature := true; content_commitment := true;
                           key_encipherment := false; data_encipherment := false;
                           key_agreement := false; key_cert_sign := false;
                           crl_sign := false; encipher_only := false;
                           decipher_only := false |}, true);
              (ExtendedKeyUsage [CODE_SIGNING; EMAIL_PROTECTION; CLIENT_AUTH], true);
              (SubjectAlternativeName [email], false);
              (SubjectKeyIdentifier (public_key_of (p12_key b)), false);
              (AuthorityKeyIdentifier (public_key_of ca_key), false);
              (CRLDistributionPoints ["http://localhost:8000/pdf-signature/crl/"], false);
              (AuthorityInformationAccess
                 ["http://localhost:8000/pdf-signature/ca-cert/"], false) ]
    | Raise e =>
        files w' !! Path (cert_path self) = files w1 !! Path (cert_path self) ∧
        files w' !! Path (ca_bundle_path self) = files w1 !! Path (ca_bundle_path self) ∧
        match next_value self w1 with
        | None =>
            files w' = files w1 ∧
            e = ValueError "invalid literal for int() with base 10"
        | Some s =>
            next_value self w' = Some (s + 1) ∧
            if serial_number_ok s
            then pkcs12_backend w1 = NoPkcs12 ∧
                 e = Exception "Cannot create PKCS#12 bundle - missing dependencies"
            else e = ValueError "The serial number should be positive and fit in 159 bits"
        end
    end.
Proof.
  intros Hd Hl. destruct (paths_distinct_ne self Hd) as (?&?&?&?&?&?&?&?&?&?&_).
  unfold create_pdf_signing_certificate.
  rewrite !bind_eq, Hl. rewrite !bind_eq. cbn [generate_private_key].
  rewrite !bind_eq, !get_next_serial_number_spec.
  change (next_value self (Build_world (files w1) _ _ _ _ _ _))
    with (next_value self w1).
  destruct (next_value self w1) as [s|] eqn:Hs.
  2:{ eexists _, _. split; [reflexivity|]. cbn [files]. done. }
  run. destruct (serial_number_ok s) eqn:Hok.
  2:{ eexists _, _. split; [reflexivity|].
      split; [intros; by lookups|].
      split; [by lookups|]. split; [by lookups|].
      split; [unfold next_value; lookups; apply int_strip_str|done]. }
  unfold _create_pkcs12_with_openssl, _create_simple_pkcs12. run.
  destruct (pkcs12_backend w1) eqn:Hb;
    (eexists _, _; split; [reflexivity|]);
    (split; [intros; by lookups|]).
  4:{ split; [by lookups|]. split; [by lookups|].
      split; [unfold next_value; lookups; apply int_strip_str|done]. }
  all: split; [reflexivity|]; exists s; eexists;
    (split; [reflexivity|]); (split; [exact Hok|]); (split; [done|]);
    (split; [unfold next_value; lookups; apply int_strip_str|]);
    (split; [by lookups|]); (split; [by lookups|]); cbn; done.
Qed.

End IssuanceFacts.

Section RevocationListFacts.

Context (self : PDFSigningCA).

(** The loop over the serial numbers writes no file; it stops, with a
    [ValueError], at the first number the builder does not accept. *)
Lemma add_revoked_certificates_outcome l : ∀ w,
  ∃ r w', add_revoked_certificates l w = (r, w') ∧ files w' = files w ∧
    match r with
    | Ok entries =>
        Forall (λ s, serial_number_ok s = true) l ∧ rc_serial_number <$> entries = l
    | Raise e =>
        Exists (λ s, serial_number_ok s = false) l ∧
        e = ValueError "The serial number should be positive and fit in 159 bits"
    end.
Proof.
  induction l as [|s l IH]; intros w.
  - eexists _, _. split; [reflexivity|]. split; [done|]. by split.
  - cbn [add_revoked_certificates]. rewrite bind_eq.
    unfold builder_serial_number at 1. destruct (serial_number_ok s) eqn:Hs.
    2:{ eexists _, _. split; [reflexivity|]. split; [done|].
        split; [by apply Exists_cons_hd|done]. }
    cbn [mret M_ret]. rewrite bind_eq. cbn [datetime_now]. rewrite bind_eq.
    match goal with |- context [add_revoked_certificates l ?w1] =>
      destruct (IH w1) as (r & w' & -> & Hf & Hr) end.
    cbn [files] in Hf. destruct r as [entries|e].
    + eexists _, _. split; [reflexivity|]. split; [done|].
      destruct Hr as [Hok Hm]. split; [by constructor|]. cbn. by rewrite Hm.
    + eexists _, _. split; [reflexivity|]. split; [done|].
      destruct Hr as [Hex ->]. split; [by apply Exists_cons_tl|done].
Qed.

Lemma create_crl_outcome revoked_serials w ca_cert ca_key w1 :
  load_ca_certificate self w = (Ok (ca_cert, ca_key), w1) →
  ∃ r w', create_crl self revoked_serials w = (r, w') ∧
    (∀ p, p ≠ Path (crl_path self) → files w' !! p = files w1 !! p) ∧
    match r with
    | Ok res =>
        res = crl_path self ∧
        Forall (λ s, serial_number_ok s = true) (default [] revoked_serials) ∧
        ∃ l, files w' !! Path (crl_path self) = Some (PemCrl l) ∧
             crl_issuer l = subject ca_cert ∧
             crl_signature_by l = public_key_of ca_key ∧
             rc_serial_number <$> revoked l = default [] revoked_serials
    | Raise e =>
        files w' = files w1 ∧
        Exists (λ s, serial_number_ok s = false) (default [] revoked_serials)
    end.
Proof.
  intros Hl. unfold create_crl. rewrite bind_eq, Hl. run.
  match goal with |- context [add_revoked_certificates ?l ?w2] =>
    destruct (add_revoked_certificates_outcome l w2) as (r & w' & -> & Hf & Hr) end.
  cbn [files] in Hf. destruct r as [entries|e].
  - eexists _, _. split; [reflexivity|]. cbn [files].
    split; [intros p Hp; rewrite lookup_insert_ne by done; by rewrite Hf|].
    split; [reflexivity|]. destruct Hr as [Hok Hm]. split; [exact Hok|].
    eexists. rewrite lookup_insert_eq. split; [reflexivity|]. cbn. done.
  - eexists _, _. split; [reflexivity|]. split; [by rewrite Hf|].
    split; [done|]. by destruct Hr.
Qed.

(** An issuance leaves the root alone. *)
Lemma issue_keeps_root cn email w ca_cert ca_key w1 r w' :
  paths_distinct self →
  load_ca_certificate self w = (Ok (ca_cert, ca_key), w1) →
  create_pdf_signing_certificate self cn email w = (r, w') →
  files w' !! Path (ca_cert_path self) = files w1 !! Path (ca_cert_path self) ∧
  files w' !! Path (ca_key_path self) = files w1 !! Path (ca_key_path self) ∧
  files w' !! Path (crl_path self) = files w1 !! Path (crl_path self).
Proof.
  intros Hd Hl Hrun.
  destruct (paths_distinct_ne self Hd) as (?&?&?&?&?&?&?&?&?&?&?&?&?&?).
  assert (crl_path self ≠ ca_bundle_path self) as Hcb.
  { intros E. unfold paths_distinct in Hd.
    rewrite !NoDup_cons, !not_elem_of_cons, E in Hd. tauto. }
  destruct (issue_spec self cn email w ca_cert ca_key w1 Hd Hl) as (r2 & w2 & Hr & Hfr & _).
  rewrite Hrun in Hr. injection Hr as <- <-.
  split; [|split]; apply Hfr; congruence.
Qed.

End RevocationListFacts.

(** ** Issuing: the certificate, its bundle, and the ways it fails *)





(* ===================================================================== *)
(** * Further facts about the signing identity *)
(* ===================================================================== *)

Section IdentityFacts.

Context (cfg : config).

(** What [load_certificate_data] returns, read off the configured file. *)
Lemma load_certificate_data_outcome w :
  load_certificate_data cfg w =
  (match files w !! Path (CERTIFICATE_P12_PATH cfg) with
   | None =>
       Raise (FileNotFoundError
                ("Certificate file not found: " +:+ CERTIFICATE_P12_PATH cfg))
   | Some (Pkcs12File b pw) =>
       if String.eqb pw (CERTIFICATE_PASSWORD cfg)
       then Ok (p12_key b, p12_cert b, p12_cas b)
       else Raise (ValueError "Invalid password or PKCS12 data")
   | Some _ => Raise (ValueError "Could not deserialize PKCS12 data")
   end, w).
Proof.
  unfold load_certificate_data, try_except, pkcs12_load_key_and_certificates. run.
  destruct (files w !! Path (CERTIFICATE_P12_PATH cfg)) as [c|] eqn:E.
  - rewrite bool_decide_true by eauto. cbn. rewrite E.
    destruct c; try reflexivity.
    destruct (String.eqb password (CERTIFICATE_PASSWORD cfg)); reflexivity.
  - rewrite bool_decide_false by (by intros [? ?]). reflexivity.
Qed.

End IdentityFacts.

Section SignerInfoFacts.

Context (c : certificate).

(** The loop over [attrs_map] keeps the fields there are ... *)
Lemma fold_step_dom l : ∀ info : gmap string string,
  Forall (λ entry : name_oid * string, entry.2 ∈ dom info) l →
  dom (fold_left
         (λ info (entry : name_oid * string),
            match get_attributes_for_oid (subject c) entry.1 with
            | [] => info
            | v :: _ => <[entry.2 := v]> info
            end) l info) = dom info.
Proof.
  induction l as [|entry l IH]; intros info Hl; [done|].
  apply Forall_cons in Hl as [He Hl]. cbn [fold_left].
  destruct (get_attributes_for_oid (subject c) entry.1) as [|v vs]; [by apply IH|].
  assert (dom (<[entry.2 := v]> info) = dom info) as Hd.
  { rewrite dom_insert_L. by apply subseteq_union_1_L, singleton_subseteq_l. }
  rewrite IH; [done|]. by rewrite Hd.
Qed.

(** ... leaves alone the fields it has no entry for ... *)
Lemma fold_step_lookup_notin l : ∀ (info : gmap string string) key,
  key ∉ l.*2 →
  fold_left
    (λ info (entry : name_oid * string),
       match get_attributes_for_oid (subject c) entry.1 with
       | [] => info
       | v :: _ => <[entry.2 := v]> info
       end) l info !! key = info !! key.
Proof.
  induction l as [|entry l IH]; intros info key Hk; [done|].
  rewrite fmap_cons, not_elem_of_cons in Hk. destruct Hk as [Hne Hk].
  cbn [fold_left]. rewrite IH by done.
  destruct (get_attributes_for_oid (subject c) entry.1); [done|].
  by rewrite lookup_insert_ne.
Qed.

(** ... and sets each field it has an entry for to the first attribute
    of that kind. *)
Lemma fold_step_lookup_in l : ∀ (info : gmap string string) oid key,
  NoDup l.*2 → (oid, key) ∈ l →
  fold_left
    (λ info (entry : name_oid * string),
       match get_attributes_for_oid (subject c) entry.1 with
       | [] => info
       | v :: _ => <[entry.2 := v]> info
       end) l info !! key =
  match get_attributes_for_oid (subject c) oid with
  | [] => info !! key
  | v :: _ => Some v
  end.
Proof.
  induction l as [|entry l IH]; intros info oid key Hnd Hin.
  - by apply elem_of_nil in Hin.
  - rewrite fmap_cons, NoDup_cons in Hnd. destruct Hnd as [Hnotin Hnd].
    apply elem_of_cons in Hin as [<-|Hin]; cbn [fold_left].
    + rewrite fold_step_lookup_notin by done. cbn [fst snd].
      destruct (get_attributes_for_oid (subject c) oid); [done|].
      by rewrite lookup_insert_eq.
    + rewrite (IH _ oid key Hnd Hin).
      destruct (get_attributes_for_oid (subject c) oid); [|done].
      destruct (get_attributes_for_oid (subject c) entry.1); [done|].
      rewrite lookup_insert_ne; [done|]. intros Heq. apply Hnotin.
      apply list_elem_of_fmap. exists (oid, key). by rewrite Heq.
Qed.

End SignerInfoFacts.

(** ** The signer's details *)

(** [get_signer_info_from_cert] always returns the seven fields of the
    defaults.  A certificate whose subject has no common name yields the
    defaults unchanged, whatever else its subject holds (the lookup of the
    common name raises inside the [try] before any other field is read).
    Otherwise the common name is the subject's first one, and each of
    organization, unit, country, state, locality and e-mail is the
    subject's first attribute of that kind, or the default when the
    subject has none. *)
Theorem signer_info_fields (c : certificate) :
  let info := get_signer_info_from_cert c in
  dom info = dom DEFAULT_SIGNER_INFO ∧
  match get_attributes_for_oid (subject c) COMMON_NAME with
  | [] => info = DEFAULT_SIGNER_INFO
  | cn :: _ =>
      info !! "common_name" = Some cn ∧
      ∀ oid key, (oid, key) ∈ attrs_map →
        info !! key = match get_attributes_for_oid (subject c) oid with
                      | [] => DEFAULT_SIGNER_INFO !! key
                      | v :: _ => Some v
                      end
  end.
Proof.
  intros info. subst info. unfold get_signer_info_from_cert.
  destruct (get_attributes_for_oid (subject c) COMMON_NAME) as [|cn rest] eqn:Hcn.
  - done.
  - split; [|split].
    + rewrite fold_step_dom.
      * rewrite dom_insert_L. apply set_eq. intros k. 
        rewrite elem_of_union, elem_of_singleton. split; [|tauto].
        intros [->|H]; [|done]. by apply elem_of_dom.
      * rewrite dom_insert_L. repeat constructor; cbn;
          apply elem_of_union_r; by apply elem_of_dom.
    + rewrite fold_step_lookup_notin.
      * by rewrite lookup_insert_eq.
      * compute_done.
    + intros oid key Hin.
      rewrite (fold_step_lookup_in c attrs_map _ oid key); [|compute_done|done].
      destruct (get_attributes_for_oid (subject c) oid); [|done].
      rewrite lookup_insert_ne; [done|].
      intros <-. unfold attrs_map in Hin.
      rewrite !elem_of_cons, elem_of_nil in Hin.
      repeat (destruct Hin as [Hin|Hin]; [discriminate Hin|]). exact Hin.
Qed.

(** A subject with an organization but no common name: the organization
    is not taken over. *)
Lemma signer_info_fields_witness :
  let c := {| subject := [(ORGANIZATION_NAME, "ACME")]; issuer := [];
              cert_public_key := {| pk_id := 0; pk_size := 2048 |};
              serial_number := 7; not_valid_before := 0; not_valid_after := 1;
              extensions := []; signature_by := {| pk_id := 0; pk_size := 2048 |};
              signature_hash := SHA256 |} in
  get_signer_info_from_cert c = DEFAULT_SIGNER_INFO ∧
  get_signer_info_from_cert c !! "organization" = Some "PERSONAL".
Proof.
  intros c. pose proof (signer_info_fields c) as [_ H].
  change (get_attributes_for_oid (subject c) COMMON_NAME) with (@nil string) in H.
  split; [exact H|]. rewrite H. reflexivity.
Defined.

(** For a certificate issued by this CA, the signer's details are the
    requested common name and e-mail address, and otherwise the defaults
    (whose values are the ones the CA writes into every subject). *)
Theorem signer_info_of_issued_certificate (c : certificate) (cn email : string) :
  subject c = signing_subject cn email →
  get_signer_info_from_cert c =
  <["email" := email]> (<["common_name" := cn]> DEFAULT_SIGNER_INFO).
Proof.
  intros Hs. unfold get_signer_info_from_cert. rewrite Hs.
  vm_compute. reflexivity.
Qed.

(** A certificate issued to "TEST SIGNER". *)
Lemma signer_info_of_issued_certificate_witness :
  let c := {| subject := signing_subject "TEST SIGNER" "test@example.com";
              issuer := ca_subject;
              cert_public_key := {| pk_id := 1; pk_size := 2048 |};
              serial_number := 2; not_valid_before := 0; not_valid_after := 1;
              extensions := []; signature_by := {| pk_id := 0; pk_size := 4096 |};
              signature_hash := SHA256 |} in
  get_signer_info_from_cert c !! "common_name" = Some "TEST SIGNER" ∧
  get_signer_info_from_cert c !! "organization" = Some "PERSONAL".
Proof.
  intros c.
  rewrite (signer_info_of_issued_certificate c "TEST SIGNER" "test@example.com")
    by reflexivity.
  split; reflexivity.
Defined.

(** ** Loading the signing identity *)

(** [load_certificate_data] changes nothing and fails in three ways: a
    missing bundle file raises [FileNotFoundError] naming the configured
    path; a file that is no PKCS#12 bundle, or a bundle under another
    password, raises [ValueError]; otherwise the bundle's key,
    certificate and further certificates are returned. *)
Theorem identity_loading_outcomes (cfg : config) (w : world) :
  ∃ r, load_certificate_data cfg w = (r, w) ∧
    match files w !! Path (CERTIFICATE_P12_PATH cfg) with
    | None =>
        r = Raise (FileNotFoundError
                     ("Certificate file not found: " +:+ CERTIFICATE_P12_PATH cfg))
    | Some (Pkcs12File b pw) =>
        if String.eqb pw (CERTIFICATE_PASSWORD cfg)
        then r = Ok (p12_key b, p12_cert b, p12_cas b)
        else ∃ msg, r = Raise (ValueError msg)
    | Some _ => ∃ msg, r = Raise (ValueError msg)
    end.
Proof.
  rewrite load_certificate_data_outcome. eexists. split; [reflexivity|].
  destruct (files w !! Path (CERTIFICATE_P12_PATH cfg)) as [[| | |b pw| |]|]; eauto.
  destruct (String.eqb pw (CERTIFICATE_PASSWORD cfg)); eauto.
Qed.

(** Issue, then load.  When the engine is configured with the path and
    the password the CA writes its bundle under, the identity loaded after
    an issuance is the one just issued: the certificate for the requested
    name together with the private key it certifies, and the signer's
    details read from it are the requested name and address.  The further
    certificates are the root alone (or none, when the bundle had to be
    built by pyOpenSSL). *)
Theorem issued_bundle_loads_back (self : PDFSigningCA) (cfg : config)
    (cn email : string) (w : world) (res : string * string) (w' : world) :
  paths_distinct self →
  CERTIFICATE_P12_PATH cfg = cert_path self →
  CERTIFICATE_PASSWORD cfg = p12_password →
  create_pdf_signing_certificate self cn email w = (Ok res, w') →
  ∃ key cert cas,
    load_certificate_data cfg w' = (Ok (key, cert, cas), w') ∧
    cert_public_key cert = public_key_of key ∧
    subject cert = signing_subject cn email ∧
    get_signer_info_from_cert cert =
      <["email" := email]> (<["common_name" := cn]> DEFAULT_SIGNER_INFO) ∧
    ∃ ca_cert,
      files w' !! Path (ca_bundle_path self) = Some (PemCertificate ca_cert) ∧
      issuer cert = subject ca_cert ∧
      (cas = [ca_cert] ∨ cas = [] ∧ pkcs12_backend w = PyOpenSSL).
Proof.
  intros Hd Hpath Hpw Hrun.
  destruct (load_ca_certificate self w) as [[[ca_cert ca_key]|e] w0] eqn:Hl.
  2:{ unfold create_pdf_signing_certificate in Hrun. rewrite bind_eq, Hl in Hrun.
      discriminate Hrun. }
  destruct (load_keeps_backend self w _ _ Hl) as [Hbk _].
  destruct (issue_spec self cn email w ca_cert ca_key w0 Hd Hl) as (r & w2 & Hr & _ & Ho).
  rewrite Hrun in Hr. injection Hr as <- <-.
  destruct Ho as (_ & s & b & _ & _ & _ & _ & Hf & Hbundle & _ & Hcas & Hsub & Hiss
                  & Hpk & _).
  exists (p12_key b), (p12_cert b), (p12_cas b).
  rewrite load_certificate_data_outcome, Hpath, Hf, Hpw, String.eqb_refl.
  split; [done|]. split; [done|]. split; [done|].
  split; [by apply signer_info_of_issued_certificate|].
  exists ca_cert. split; [done|]. split; [done|].
  rewrite Hcas, <- Hbk. destruct (pkcs12_backend w0); auto.
Qed.

(** The default CA and the default configuration agree on path and
    password. *)
Lemma issued_bundle_loads_back_witness :
  ∃ res w' key cert cas,
    create_pdf_signing_certificate default_ca "TEST SIGNER" "test@example.com"
      (empty_world 1750400000) = (Ok res, w') ∧
    load_certificate_data default_config w' = (Ok (key, cert, cas), w') ∧
    subject cert = signing_subject "TEST SIGNER" "test@example.com".
Proof.
  assert (is_ok (create_pdf_signing_certificate default_ca "TEST SIGNER"
                   "test@example.com" (empty_world 1750400000)).1 = true) as Hok
    by (vm_compute; reflexivity).
  destruct (create_pdf_signing_certificate default_ca "TEST SIGNER" "test@example.com"
              (empty_world 1750400000)) as [[res|e] w'] eqn:Hrun; [|discriminate Hok].
  destruct (issued_bundle_loads_back default_ca default_config "TEST SIGNER"
              "test@example.com" (empty_world 1750400000) res w')
    as (key & cert & cas & Hload & _ & Hsub & _).
  - compute_done.
  - reflexivity.
  - reflexivity.
  - exact Hrun.
  - exists res, w', key, cert, cas. split; [reflexivity|]. split; [exact Hload|exact Hsub].
Defined.

(** ** Revocation lists: what a call touches, and when it gives up *)

(** With the root in place, [create_crl] changes no file but the CRL
    file.  It stops with an exception at the first serial number the
    builder does not accept (not positive, or 2^159 and more), and then
    nothing has been written: the CRL stored before is still there. *)
Theorem crl_creation_touches_only_the_crl (self : PDFSigningCA)
    (revoked_serials : option (list Z)) (w : world) (r : result string) (w' : world) :
  ca_present self w →
  create_crl self revoked_serials w = (r, w') →
  (∀ p, p ≠ Path (crl_path self) → files w' !! p = files w !! p) ∧
  (is_ok r = false → files w' = files w) ∧
  (Exists (λ s, serial_number_ok s = false) (default [] revoked_serials) →
   is_ok r = false).
Proof.
  intros Hp Hrun. destruct (load_present self w Hp) as [r0 Hl].
  destruct r0 as [[ca_cert ca_key]|e].
  - destruct (create_crl_outcome self revoked_serials w ca_cert ca_key w Hl)
      as (r1 & w1 & Hr & Hfr & Ho).
    rewrite Hrun in Hr. injection Hr as <- <-. split; [exact Hfr|].
    destruct r as [res|e].
    + split; [intros Hx; discriminate Hx|]. intros Hex.
      destruct Ho as (_ & Hok & _). apply Exists_exists in Hex as (s & Hin & Hs).
      rewrite Forall_forall in Hok. specialize (Hok s Hin). congruence.
    + destruct Ho as [Hf _]. by split.
  - unfold create_crl in Hrun. rewrite bind_eq, Hl in Hrun. injection Hrun as <- <-.
    by split.
Qed.

(** After serial number 2 was revoked, a call listing 0 fails and the
    earlier list stays. *)
Lemma crl_creation_touches_only_the_crl_witness :
  let w := (create_crl default_ca (Some [2])
              (load_ca_certificate default_ca (empty_world 1750400000)).2).2 in
  ∃ e w',
    create_crl default_ca (Some [3; 0]) w = (Raise e, w') ∧
    files w' !! Path (crl_path default_ca) = files w !! Path (crl_path default_ca).
Proof.
  intros w.
  assert (is_ok (create_crl default_ca (Some [3; 0]) w).1 = false) as Hok
    by (vm_compute; reflexivity).
  destruct (create_crl default_ca (Some [3; 0]) w) as [[res|e] w'] eqn:Hrun;
    [discriminate Hok|].
  destruct (crl_creation_touches_only_the_crl default_ca (Some [3; 0]) w (Raise e) w')
    as (_ & Hf & _).
  - compute_done.
  - exact Hrun.
  - exists e, w'. split; [reflexivity|]. by rewrite Hf.
Defined.

(** ** The [setup_ca] command and [setup_ca_infrastructure] *)

Section SetupFacts.

Context (cfg : config).

(** Loading, issuing and listing, one after the other, over a root that
    is in place. *)
Lemma setup_steps_over_root (ca : PDFSigningCA) cn email w c k :
  paths_distinct ca →
  files w !! Path (ca_cert_path ca) = Some (PemCertificate c) →
  files w !! Path (ca_key_path ca) = Some (PemEncryptedKey k ca_password) →
  ∃ r w',
    (load_ca_certificate ca;;
     '(cert_path, ca_bundle_path) ← create_pdf_signing_certificate ca cn email;
     create_crl ca None;;
     test_certificate cfg cert_path) w = (r, w') ∧
    files w' !! Path (ca_cert_path ca) = Some (PemCertificate c) ∧
    files w' !! Path (ca_key_path ca) = Some (PemEncryptedKey k ca_password) ∧
    (is_ok r = true →
       ∃ b l, files w' !! Path (cert_path ca) = Some (Pkcs12File b p12_password) ∧
         subject (p12_cert b) = signing_subject cn email ∧
         issuer (p12_cert b) = subject c ∧
         signature_by (p12_cert b) = public_key_of k ∧
         next_value ca w = Some (serial_number (p12_cert b)) ∧
         files w' !! Path (crl_path ca) = Some (PemCrl l) ∧ revoked l = []).
Proof.
  intros Hd Hc Hk.
  destruct (paths_distinct_ne ca Hd) as (?&?&?&?&?&?&?&?&?&?&?&?&?&?).
  pose proof (load_wellformed ca w c k Hc Hk) as Hl.
  rewrite bind_eq, Hl.
  destruct (issue_spec ca cn email w c k w Hd Hl) as (r1 & w1 & Hr1 & Hfr1 & Ho1).
  destruct (issue_keeps_root ca cn email w c k w r1 w1 Hd Hl Hr1) as (Hc1 & Hk1 & _).
  rewrite Hc in Hc1. rewrite Hk in Hk1.
  rewrite bind_eq, Hr1. destruct r1 as [[p1 p2]|e1].
  2:{ eexists _, _. split; [reflexivity|]. split; [done|]. split; [done|].
      intros Hx; discriminate Hx. }
  pose proof (load_wellformed ca w1 c k Hc1 Hk1) as Hl1.
  destruct (create_crl_outcome ca None w1 c k w1 Hl1) as (r2 & w2 & Hr2 & Hfr2 & Ho2).
  rewrite bind_eq, Hr2. destruct r2 as [p3|e2].
  2:{ destruct Ho2 as [Hf2 _]. eexists _, _. split; [reflexivity|]. rewrite Hf2.
      split; [done|]. split; [done|]. intros Hx; discriminate Hx. }
  unfold test_certificate, try_except. rewrite bind_eq.
  destruct (load_certificate_data_spec cfg w2) as [r3 ->].
  exists (Ok tt), w2. split; [by destruct r3|].
  rewrite !Hfr2 by (apply path_ne; congruence).
  split; [done|]. split; [done|]. intros _.
  destruct Ho1 as (_ & s & b & Hs & _ & _ & _ & Hf & _ & _ & _ & Hsub & Hiss & _ & Hser
                   & _ & _ & Hsig & _).
  destruct Ho2 as (_ & _ & l & Hcrl & _ & _ & Hrev).
  exists b, l. rewrite Hser. repeat split; try done.
  by apply fmap_nil_inv in Hrev.
Qed.

End SetupFacts.

(** The [setup_ca] command never replaces a root that is in place, with
    or without [--force]: the root certificate and key files are
    afterwards what they were.  Without [--force], and with a signing
    certificate under [certificates/signing_cert.p12], it changes nothing
    at all.  Otherwise, when it succeeds, it has issued a new signing
    certificate under the old root, with the next serial number, and has
    stored an empty CRL. *)
Theorem setup_command_keeps_the_root (cfg : config) (ca_dir : string) (force : bool)
    (cn email : string) (w : world) (c : certificate) (k : private_key)
    (r : result unit) (w' : world) :
  let ca := PDFSigningCA_init ca_dir in
  paths_distinct ca →
  files w !! Path (ca_cert_path ca) = Some (PemCertificate c) →
  files w !! Path (ca_key_path ca) = Some (PemEncryptedKey k ca_password) →
  handle cfg ca_dir force cn email w = (r, w') →
  files w' !! Path (ca_cert_path ca) = Some (PemCertificate c) ∧
  files w' !! Path (ca_key_path ca) = Some (PemEncryptedKey k ca_password) ∧
  (force = false → is_Some (files w !! Path "certificates/signing_cert.p12") →
     r = Ok tt ∧ w' = w) ∧
  (force = true ∨ files w !! Path "certificates/signing_cert.p12" = None →
   is_ok r = true →
     ∃ b l, files w' !! Path (cert_path ca) = Some (Pkcs12File b p12_password) ∧
       subject (p12_cert b) = signing_subject cn email ∧
       issuer (p12_cert b) = subject c ∧
       signature_by (p12_cert b) = public_key_of k ∧
       next_value ca w = Some (serial_number (p12_cert b)) ∧
       files w' !! Path (crl_path ca) = Some (PemCrl l) ∧ revoked l = []).
Proof.
  intros ca Hd Hc Hk Hrun.
  destruct (setup_steps_over_root cfg ca cn email w c k Hd Hc Hk)
    as (r1 & w1 & Hsteps & Hc1 & Hk1 & Hok1).
  unfold handle in Hrun. fold ca in Hrun. rewrite !bind_eq in Hrun.
  unfold os_path_exists at 1 2 3 in Hrun. cbn beta iota in Hrun.
  rewrite !bind_eq in Hrun. cbn beta iota in Hrun.
  rewrite (bool_decide_true (is_Some (files w !! Path (ca_cert_path ca)))) in Hrun
    by (rewrite Hc; eauto).
  rewrite (bool_decide_true (is_Some (files w !! Path (ca_key_path ca)))) in Hrun
    by (rewrite Hk; eauto).
  change (os_path_join "certificates" "signing_cert.p12")
    with "certificates/signing_cert.p12" in Hrun.
  cbn [andb] in Hrun.
  destruct (decide (is_Some (files w !! Path "certificates/signing_cert.p12")))
    as [Hthere|Hnot].
  - rewrite (bool_decide_true _ Hthere) in Hrun. destruct force; cbn [andb negb] in Hrun.
    + unfold try_except in Hrun. rewrite Hsteps in Hrun.
      assert (r = r1 ∧ w' = w1) as [-> ->] by (destruct r1; by injection Hrun as <- <-).
      split; [done|]. split; [done|]. split; [intros Hx; discriminate Hx|].
      intros _. exact Hok1.
    + injection Hrun as <- <-. split; [done|]. split; [done|]. split; [done|].
      intros [Hx|Hx]; [discriminate Hx|]. rewrite Hx in Hthere. by destruct Hthere.
  - rewrite (bool_decide_false _ Hnot) in Hrun. cbn [andb] in Hrun.
    unfold try_except in Hrun. rewrite Hsteps in Hrun.
    assert (r = r1 ∧ w' = w1) as [-> ->] by (destruct r1; by injection Hrun as <- <-).
    split; [done|]. split; [done|]. split; [intros _ Hx; by destruct Hnot|].
    intros _. exact Hok1.
Qed.

(** [--force] on an installation made by [setup_ca_infrastructure]: the
    root stays, the signing certificate for the new name gets serial
    number 3. *)
Lemma setup_command_keeps_the_root_witness :
  let w := (setup_ca_infrastructure (empty_world 1750400000)).2 in
  ∃ c w',
    files w !! Path (ca_cert_path default_ca) = Some (PemCertificate c) ∧
    handle default_config "certificates/ca" true "TEST SIGNER" "test@example.com" w
      = (Ok tt, w') ∧
    files w' !! Path (ca_cert_path default_ca) = Some (PemCertificate c) ∧
    stored_serial default_ca w' = Some 3.
Proof.
  intros w.
  assert (is_ok (handle default_config "certificates/ca" true "TEST SIGNER"
                   "test@example.com" w).1 = true) as Hok by (vm_compute; reflexivity).
  assert (is_Some (files w !! Path (ca_cert_path default_ca))) as [cf Hc]
    by compute_done.
  assert (is_Some (files w !! Path (ca_key_path default_ca))) as [kf Hk]
    by compute_done.
  destruct cf as [c| | | | |]; try (vm_compute in Hc; discriminate Hc).
  destruct kf as [|k pw| | | |]; try (vm_compute in Hk; discriminate Hk).
  assert (pw = ca_password) as ->.
  { vm_compute in Hk. injection Hk as _ <-. reflexivity. }
  assert (next_value default_ca w = Some 3) as Hn by (vm_compute; reflexivity).
  destruct (handle default_config "certificates/ca" true "TEST SIGNER"
              "test@example.com" w) as [[[]|e] w'] eqn:Hrun; [|discriminate Hok].
  destruct (setup_command_keeps_the_root default_config "certificates/ca" true
              "TEST SIGNER" "test@example.com" w c k (Ok tt) w')
    as (Hc' & _ & _ & Hnew).
  - compute_done.
  - exact Hc.
  - exact Hk.
  - exact Hrun.
  - exists c, w'. split; [exact Hc|]. split; [reflexivity|]. split; [exact Hc'|].
    destruct Hnew as (b & l & Hb & _ & _ & _ & Hs & _); [by left|reflexivity|].
    unfold stored_serial. change (PDFSigningCA_init "certificates/ca") with default_ca in *.
    rewrite Hb. rewrite Hn in Hs. by injection Hs as <-.
Defined.

(** [setup_ca_infrastructure()] where the root is missing (and some way
    of building a PKCS#12 bundle is installed): it returns the four
    paths, and leaves a self-signed root with serial number 1, a signing
    certificate for "ARUL M" with serial number 2, issued in the root's
    name, signed with the root's key and over a key of its own, the root
    again as CA bundle, an empty CRL in the root's name, and a serial file
    that stands for 3. *)
Theorem setup_on_an_empty_directory (w : world) :
  ¬ ca_present default_ca w →
  pkcs12_backend w ≠ NoPkcs12 →
  ∃ w' root root_key b l,
    setup_ca_infrastructure w =
      (Ok (cert_path default_ca, ca_bundle_path default_ca, crl_path default_ca,
           ca_cert_path default_ca), w') ∧
    files w' !! Path (ca_cert_path default_ca) = Some (PemCertificate root) ∧
    files w' !! Path (ca_key_path default_ca)
      = Some (PemEncryptedKey root_key ca_password) ∧
    files w' !! Path (ca_bundle_path default_ca) = Some (PemCertificate root) ∧
    files w' !! Path (cert_path default_ca) = Some (Pkcs12File b p12_password) ∧
    files w' !! Path (crl_path default_ca) = Some (PemCrl l) ∧
    next_value default_ca w' = Some 3 ∧
    self_signed root ∧ serial_number root = 1 ∧
    cert_public_key root = public_key_of root_key ∧
    subject (p12_cert b) = signing_subject "ARUL M" "m.arul@fte.com" ∧
    serial_number (p12_cert b) = 2 ∧
    issuer (p12_cert b) = subject root ∧
    signature_by (p12_cert b) = cert_public_key root ∧
    cert_public_key (p12_cert b) ≠ cert_public_key root ∧
    revoked l = [] ∧ crl_issuer l = subject root ∧
    crl_signature_by l = cert_public_key root.
Proof.
  intros Hn Hbk. set (ca := default_ca).
  assert (paths_distinct ca) as Hd by compute_done.
  destruct (paths_distinct_ne ca Hd) as (?&?&?&?&?&?&?&?&?&?&?&?&?&?).
  assert (crl_path ca ≠ ca_bundle_path ca) as Hcb by (by vm_compute).
  unfold setup_ca_infrastructure. fold ca. cbn zeta.
  rewrite bind_eq, (load_absent ca w Hn).
  destruct (create_ca_certificate_spec ca w)
    as (c & k & w1 & -> & Hkey & Hcert & Hf1 & Hid1 & _ & Hb1 & _).
  assert (files w1 !! Path (ca_cert_path ca) = Some (PemCertificate c)) as Hc1.
  { rewrite Hf1. by lookups. }
  assert (files w1 !! Path (ca_key_path ca) = Some (PemEncryptedKey k ca_password))
    as Hk1.
  { rewrite Hf1. by lookups. }
  assert (next_value ca w1 = Some 2) as Hn1.
  { unfold next_value. rewrite Hf1. by lookups. }
  pose proof (load_wellformed ca w1 c k Hc1 Hk1) as Hl1.
  destruct (issue_spec ca "ARUL M" "m.arul@fte.com" w1 c k w1 Hd Hl1)
    as (r2 & w2 & Hr2 & Hfr2 & Ho2).
  destruct (issue_keeps_root ca _ _ w1 c k w1 r2 w2 Hd Hl1 Hr2) as (Hc2 & Hk2 & _).
  rewrite Hc1 in Hc2. rewrite Hk1 in Hk2.
  rewrite bind_eq, Hr2. destruct r2 as [res|e2].
  2:{ exfalso. destruct Ho2 as (_ & _ & Ho2). rewrite Hn1 in Ho2.
      change (serial_number_ok 2) with true in Ho2. destruct Ho2 as (_ & Hno & _).
      apply Hbk. by rewrite <- Hb1. }
  destruct Ho2 as (-> & s & b & Hs & _ & _ & Hn2 & Hp12 & Hbundle & Hbkey & _ & Hsub
                   & Hiss & Hpk & Hser & _ & _ & Hsig & _).
  rewrite Hn1 in Hs. injection Hs as <-.
  pose proof (load_wellformed ca w2 c k Hc2 Hk2) as Hl2.
  destruct (create_crl_outcome ca None w2 c k w2 Hl2) as (r3 & w3 & Hr3 & Hfr3 & Ho3).
  rewrite bind_eq, Hr3. destruct r3 as [p3|e3].
  2:{ exfalso. destruct Ho3 as [_ Hex]. by apply Exists_nil in Hex. }
  destruct Ho3 as (-> & _ & l & Hcrl & Hci & Hcs & Hrev).
  apply fmap_nil_inv in Hrev.
  exists w3, c, k, b, l. split; [reflexivity|].
  rewrite !Hfr3 by (apply path_ne; congruence).
  assert (next_value ca w3 = Some 3) as Hn3.
  { unfold next_value in *. rewrite Hfr3 by (apply path_ne; congruence). exact Hn2. }
  repeat (split; [done|]).
  rewrite Hpk, Hbkey, Hid1. subst c k. cbn in *.
  repeat split; done.
Qed.

(** The empty directory. *)
Lemma setup_on_an_empty_directory_witness :
  ∃ w' b,
    is_ok (setup_ca_infrastructure (empty_world 1750400000)).1 = true ∧
    files w' !! Path (cert_path default_ca) = Some (Pkcs12File b p12_password) ∧
    serial_number (p12_cert b) = 2 ∧ next_value default_ca w' = Some 3.
Proof.
  destruct (setup_on_an_empty_directory (empty_world 1750400000))
    as (w' & root & k & b & l & Hrun & _ & _ & _ & Hb & _ & Hn & _ & _ & _ & _ & Hs & _).
  - compute_done.
  - intros Hx. discriminate Hx.
  - exists w', b. rewrite Hrun. split; [reflexivity|]. split; [exact Hb|].
    split; [exact Hs|exact Hn].
Defined.

(* ===================================================================== *)
(** * Further facts about the endesive routes *)
(* ===================================================================== *)

Lemma lookup_rmtree d (m : gmap path file_content) p :
  filter (λ kv, in_temp_dir d kv.1 = false) m !! p
  = if in_temp_dir d p then None else m !! p.
Proof.
  apply option_eq. intros x. rewrite map_lookup_filter_Some. cbn.
  destruct (in_temp_dir d p); split; try tauto; try (intros [? ?]; done); done.
Qed.

Section EngineFrames.

Context (L : libraries) (cfg : config).

Lemma read_bytes_world p w r w' : read_bytes p w = (r, w') → w' = w.
Proof.
  unfold read_bytes. run. destruct (files w !! p) as [[]|]; by intros [= _ <-].
Qed.

(** A request made to endesive with the given identity and SHA-256, for
    the certification or for the approval of one page with an appearance
    built by [build_appearance_dict]. *)
Lemma approval_loop_frame E ac key cert cas d pages : ∀ cur w,
  ∃ r w' calls,
    approval_loop cfg E ac key cert cas d pages cur w = (r, w') ∧
    (∀ p, in_temp_dir d p = false → files w' !! p = files w !! p) ∧
    next_tmp w' = next_tmp w ∧
    lib_calls w' = (lib_calls w ++ calls)%list ∧
    (∀ p, r = Ok p → p = cur ∨ in_temp_dir d p = true) ∧
    Forall (λ c, ∃ datau page d0 w0 ret,
              c = EndesiveSign datau (page_sig_dct cfg ac page d0) key cert cas
                    "sha256" ret ∧
              (build_appearance_dict ac page w0).1 = Ok d0) calls.
Proof.
  induction pages as [|page pages IH]; intros cur w.
  - exists (Ok cur), w, []. rewrite app_nil_r. repeat split; try done.
    intros p [= <-]. by left.
  - cbn [approval_loop]. rewrite bind_eq.
    destruct (read_bytes cur w) as [[doc|e] w0] eqn:Hread;
      pose proof (read_bytes_world _ _ _ _ Hread) as ->.
    2:{ exists (Raise e), w, []. rewrite app_nil_r. repeat split; done. }
    rewrite bind_eq.
    destruct (build_appearance_dict_spec ac (Z.of_nat page) w) as (dct & Hb & _ & _).
    rewrite Hb. set (w1 := (datetime_now w).2).
    assert (files w1 = files w ∧ lib_calls w1 = lib_calls w ∧ next_tmp w1 = next_tmp w)
      as (Hf1 & Hc1 & Hn1) by (subst w1; cbn; done).
    rewrite bind_eq. unfold cms_sign. rewrite bind_eq.
    set (udct := page_sig_dct cfg ac (Z.of_nat page) dct).
    set (ret := endesive_cms_sign E doc udct key cert cas "sha256").
    set (c := EndesiveSign doc udct key cert cas "sha256" ret).
    assert (∃ datau page d0 w0 ret,
              c = EndesiveSign datau (page_sig_dct cfg ac page d0) key cert cas
                    "sha256" ret ∧
              (build_appearance_dict ac page w0).1 = Ok d0) as Hc.
    { exists doc, (Z.of_nat page), dct, w, ret. split; [done|]. by rewrite Hb. }
    unfold record_call. cbn [fst snd].
    destruct ret as [signature_data|e] eqn:Hret.
    + cbn [mret M_ret]. rewrite bind_eq. unfold write_file at 1.
      match goal with |- context [approval_loop _ _ _ _ _ _ _ _ ?p ?w3] =>
        destruct (IH p w3) as (r & w' & calls & -> & Hp & Hn & Hl & Hres & Hfa)
      end.
      cbn [clock lib_calls files set_files next_tmp] in *.
      exists r, w', (c :: calls). split; [reflexivity|].
      split. { intros p Hpd. rewrite Hp by done.
               rewrite lookup_insert_ne; [by rewrite Hf1|].
               intros <-. cbn in Hpd. by rewrite Nat.eqb_refl in Hpd. }
      split; [congruence|]. split; [by rewrite Hl, Hc1, <- app_assoc|].
      split; [|by constructor].
      intros p Hr. right. destruct (Hres p Hr) as [->|?]; [|done].
      cbn. by rewrite Nat.eqb_refl.
    + exists (Raise e), (Build_world (files w1) (clock w1) (ticks w1) (next_key_id w1)
                          (next_tmp w1) (pkcs12_backend w1) (lib_calls w1 ++ [c])), [c].
      cbn [raise]. split; [reflexivity|]. cbn [files clock lib_calls next_tmp].
      split; [by rewrite Hf1|]. split; [done|]. split; [by rewrite Hc1|].
      split; [intros p Hx; discriminate Hx|]. by constructor.
Qed.

Lemma signing_steps_frame E ac info key cert cas d input_path output_path w :
  ∃ r w' calls,
    signing_steps L cfg E ac info key cert cas d input_path output_path w = (r, w') ∧
    (∀ p, in_temp_dir d p = false → p ≠ Path output_path →
          files w' !! p = files w !! p) ∧
    next_tmp w' = next_tmp w ∧
    lib_calls w' = (lib_calls w ++ calls)%list ∧
    Forall (λ c, ∃ datau udct ret,
              c = EndesiveSign datau udct key cert cas "sha256" ret ∧
              ((∃ t, udct = certify_dct cfg info t) ∨
               ∃ page d0 w0, udct = page_sig_dct cfg ac page d0 ∧
                             (build_appearance_dict ac page w0).1 = Ok d0)) calls.
Proof.
  unfold signing_steps. rewrite bind_eq. cbn [datetime_now]. rewrite bind_eq.
  set (w1 := Build_world _ _ _ _ _ _ _).
  assert (files w1 = files w ∧ lib_calls w1 = lib_calls w ∧ next_tmp w1 = next_tmp w)
    as (Hf1 & Hc1 & Hn1) by (subst w1; cbn; done).
  destruct (read_bytes (Path input_path) w1) as [[pdf_in|e] w0] eqn:Hread;
    pose proof (read_bytes_world _ _ _ _ Hread) as ->.
  2:{ exists (Raise e), w1, []. rewrite app_nil_r.
      split; [reflexivity|]. split; [intros; first [done | by rewrite Hf1]|]. done. }
  rewrite bind_eq. unfold cms_sign. rewrite bind_eq.
  set (udct := certify_dct cfg info (clock w)).
  set (ret := endesive_cms_sign E pdf_in udct key cert cas "sha256").
  set (c := EndesiveSign pdf_in udct key cert cas "sha256" ret).
  assert (∃ datau udct ret,
            c = EndesiveSign datau udct key cert cas "sha256" ret ∧
            ((∃ t, udct = certify_dct cfg info t) ∨
             ∃ page d0 w0, udct = page_sig_dct cfg ac page d0 ∧
                           (build_appearance_dict ac page w0).1 = Ok d0)) as Hc.
  { exists pdf_in, udct, ret. split; [done|]. left. by exists (clock w). }
  unfold record_call. cbn [fst snd].
  destruct ret as [signature_data|e] eqn:Hret.
  2:{ eexists _, _, [c]. cbn [raise]. split; [reflexivity|]. cbn.
      split; [intros; first [done | by rewrite Hf1]|]. split; [done|].
      split; [first [done | by rewrite Hc1]|]. by constructor. }
  cbn [mret M_ret]. rewrite bind_eq. unfold write_file at 1. rewrite bind_eq.
  set (w2 := set_files _ _).
  assert ((∀ p, in_temp_dir d p = false → files w2 !! p = files w !! p) ∧
          next_tmp w2 = next_tmp w ∧
          lib_calls w2 = (lib_calls w ++ [c])%list) as (Hf2 & Hn2 & Hc2).
  { subst w2. unfold set_files; cbn. split.
    - intros p Hp. rewrite lookup_insert_ne; [first [done | by rewrite Hf1]|].
      intros <-. cbn in Hp. by rewrite Nat.eqb_refl in Hp.
    - split; [done|]. first [done | by rewrite Hc1]. }
  destruct (get_pdf_page_count L (TempPath d "certified.pdf") w2) as [[n|e] w0] eqn:Hcount.
  2:{ assert (w0 = w2) as ->.
      { unfold get_pdf_page_count in Hcount. rewrite bind_eq in Hcount.
        destruct (read_bytes (TempPath d "certified.pdf") w2) as [[x|x] wx] eqn:Hrb;
          pose proof (read_bytes_world _ _ _ _ Hrb) as ->.
        - destruct (PdfReader_pages L x); by injection Hcount as _ <-.
        - by injection Hcount as _ <-. }
      eexists _, w2, [c]. split; [reflexivity|].
      split; [intros; by apply Hf2|]. split; [done|]. split; [done|]. by constructor. }
  assert (w0 = w2) as ->.
  { unfold get_pdf_page_count in Hcount. rewrite bind_eq in Hcount.
    destruct (read_bytes (TempPath d "certified.pdf") w2) as [[x|x] wx] eqn:Hrb;
      pose proof (read_bytes_world _ _ _ _ Hrb) as ->.
    - destruct (PdfReader_pages L x); by injection Hcount as _ <-.
    - by injection Hcount as _ <-. }
  rewrite bind_eq.
  destruct (approval_loop_frame E ac key cert cas d (seq 0 n)
              (TempPath d "certified.pdf") w2)
    as (r & w3 & calls & -> & Hf3 & Hn3 & Hc3 & Hres & Hfa).
  assert (Forall (λ c, ∃ datau udct ret,
            c = EndesiveSign datau udct key cert cas "sha256" ret ∧
            ((∃ t, udct = certify_dct cfg info t) ∨
             ∃ page d0 w0, udct = page_sig_dct cfg ac page d0 ∧
                           (build_appearance_dict ac page w0).1 = Ok d0)) (c :: calls))
    as Hall.
  { constructor; [done|]. eapply Forall_impl; [exact Hfa|].
    intros c' (datau & page & d0 & w0 & ret' & -> & Hb).
    eexists _, _, _. split; [reflexivity|]. right. eauto. }
  destruct r as [p|e].
  2:{ eexists _, w3, (c :: calls). split; [reflexivity|].
      split; [intros p Hp _; rewrite Hf3 by done; by apply Hf2|].
      split; [congruence|]. split; [by rewrite Hc3, Hc2, <- app_assoc|]. done. }
  rewrite bind_eq. unfold shutil_move.
  destruct (files w3 !! p) as [content|] eqn:Hp3.
  2:{ eexists _, w3, (c :: calls). split; [reflexivity|].
      split; [intros q Hq _; rewrite Hf3 by done; by apply Hf2|].
      split; [congruence|]. split; [by rewrite Hc3, Hc2, <- app_assoc|]. done. }
  cbn [mret M_ret]. eexists _, _, (c :: calls). split; [reflexivity|].
  unfold set_files; cbn [clock lib_calls files next_tmp].
  split.
  { intros q Hq Hne. rewrite lookup_insert_ne by congruence.
    destruct (decide (q = p)) as [->|Hqp].
    - exfalso. destruct (Hres p eq_refl) as [->|Hin]; [|congruence].
      cbn in Hq. rewrite Nat.eqb_refl in Hq. discriminate Hq.
    - rewrite lookup_delete_ne by congruence. rewrite Hf3 by done. by apply Hf2. }
  split; [congruence|]. split; [by rewrite Hc3, Hc2, <- app_assoc|]. done.
Qed.

(** The two endesive routes: the scratch directory, the other files, and
    the identity every request is made with. *)
Lemma endesive_route_frame e input_path output_path w :
  e ≠ PyHankoEngine →
  ∃ r w' calls,
    sign_with e L cfg input_path output_path w = (r, w') ∧
    lib_calls w' = (lib_calls w ++ calls)%list ∧
    (∀ p, in_temp_dir (next_tmp w) p = false → p ≠ Path output_path →
          files w' !! p = files w !! p) ∧
    match endesive L, (load_certificate_data cfg w).1 with
    | Some E, Ok (key, cert, cas) =>
        let info := get_signer_info_from_cert cert in
        let ac := SignatureAppearance_init info in
        next_tmp w' = S (next_tmp w) ∧
        (∀ p, in_temp_dir (next_tmp w) p = true → files w' !! p = None) ∧
        Forall (λ c, ∃ datau udct ret,
                  c = EndesiveSign datau udct key cert cas "sha256" ret ∧
                  ((∃ t, udct = certify_dct cfg info t) ∨
                   ∃ page d0 w0, udct = page_sig_dct cfg ac page d0 ∧
                                 (build_appearance_dict ac page w0).1 = Ok d0)) calls
    | _, _ => w' = w ∧ calls = []
    end.
Proof.
  intros He.
  assert (sign_with e L cfg input_path output_path w
          = sign_pdf_multi_page_with_proper_mdp L cfg input_path output_path w ∨
          sign_with e L cfg input_path output_path w
          = sign_pdf_multi_page L cfg input_path output_path w) as Hroute
    by (destruct e; [by left|by right|done]).
  assert (sign_pdf_multi_page_with_proper_mdp L cfg input_path output_path w
          = match endesive L with
            | None => (Raise (Exception "Endesive library is required for PDF signing."), w)
            | Some E =>
                match load_certificate_data cfg w with
                | (Ok (key, cert, cas), _) =>
                    let info := get_signer_info_from_cert cert in
                    let ac := SignatureAppearance_init info in
                    let w1 := (mkdtemp w).2 in
                    match signing_steps L cfg E ac info key cert cas (next_tmp w)
                            input_path output_path w1 with
                    | (r, w2) => (r, (rmtree (next_tmp w) w2).2)
                    end
                | (Raise e, _) => (Raise e, w)
                end
            end) as Hproper.
  { unfold sign_pdf_multi_page_with_proper_mdp. destruct (endesive L) as [E|]; [|done].
    rewrite bind_eq. destruct (load_certificate_data_spec cfg w) as [r0 ->].
    destruct r0 as [[[key cert] cas]|e0]; [|done].
    rewrite bind_eq. unfold mkdtemp at 1. unfold try_finally, try_except, rmtree.
    cbn [snd mkdtemp].
    destruct (signing_steps _ _ _ _ _ _ _ _ _ _ _ _) as [[p|e1] w2]; reflexivity. }
  destruct (endesive L) as [E|] eqn:HE.
  2:{ exists (Raise (Exception "Endesive library is required for PDF signing.")), w, [].
      rewrite app_nil_r. split; [|done].
      destruct Hroute as [->| ->]; [exact Hproper|].
      unfold sign_pdf_multi_page. by rewrite HE. }
  destruct (load_certificate_data_spec cfg w) as [r0 Hl]. rewrite Hl in *. cbn [fst].
  destruct r0 as [[[key cert] cas]|e0].
  2:{ exists (Raise e0), w, []. rewrite app_nil_r. split; [|done].
      destruct Hroute as [->| ->]; [exact Hproper|].
      unfold sign_pdf_multi_page. by rewrite HE, bind_eq, Hl. }
  cbn zeta in *.
  destruct (signing_steps_frame E (SignatureAppearance_init (get_signer_info_from_cert cert))
              (get_signer_info_from_cert cert) key cert cas (next_tmp w)
              input_path output_path (mkdtemp w).2)
    as (r & w2 & calls & Hsteps & Hf2 & Hn2 & Hc2 & Hall).
  rewrite Hsteps in Hproper. cbn [mkdtemp snd files next_tmp lib_calls] in *.
  destruct Hroute as [Hr|Hr]; rewrite Hr.
  - rewrite Hproper. eexists _, _, calls. split; [reflexivity|].
    unfold rmtree, set_files; cbn [snd files next_tmp lib_calls].
    split; [done|]. split.
    { intros p Hp Hne. rewrite lookup_rmtree, Hp. by apply Hf2. }
    split; [congruence|]. split; [|done].
    intros p Hp. by rewrite lookup_rmtree, Hp.
  - unfold sign_pdf_multi_page. rewrite HE, bind_eq, Hl, bind_eq.
    unfold mkdtemp at 1. unfold try_finally, try_except at 1. rewrite Hsteps.
    destruct r as [p|e1].
    + eexists _, _, calls. split; [reflexivity|].
      unfold rmtree, set_files; cbn [snd files next_tmp lib_calls].
      split; [done|]. split.
      { intros q Hq Hne. rewrite lookup_rmtree, Hq. by apply Hf2. }
      split; [congruence|]. split; [|done].
      intros q Hq. by rewrite lookup_rmtree, Hq.
    + run_engine.
      destruct (bool_decide (is_Some (files w2 !! Path output_path))); cbn [negb andb].
      * eexists _, _, calls. split; [reflexivity|]. cbn [files next_tmp lib_calls].
        split; [done|]. split.
        { intros q Hq Hne. rewrite lookup_rmtree, Hq. by apply Hf2. }
        split; [congruence|]. split; [|done].
        intros q Hq. by rewrite lookup_rmtree, Hq.
      * destruct (bool_decide (is_Some (files w2 !! Path input_path))); cbn [negb andb].
        -- destruct (files w2 !! Path input_path) as [ic|];
             eexists _, _, calls; (split; [reflexivity|]); cbn [files next_tmp lib_calls];
             (split; [done|]); (split; [|split; [congruence|split; [|done]]]);
             intros q Hq; rewrite lookup_rmtree, Hq; try done; intros Hne;
             rewrite ?lookup_insert_ne by congruence; by apply Hf2.
        -- eexists _, _, calls. split; [reflexivity|]. cbn [files next_tmp lib_calls].
           split; [done|]. split.
           { intros q Hq Hne. rewrite lookup_rmtree, Hq. by apply Hf2. }
           split; [congruence|]. split; [|done].
           intros q Hq. by rewrite lookup_rmtree, Hq.
Qed.

End EngineFrames.

(** ** The endesive routes: scratch files, identity, what the stamp shows *)

(** The scratch directory.  On both endesive routes, whatever the
    outcome: no file outside the run's scratch directory is changed other
    than the output file (so no other scratch directory is touched), and
    once the signing identity was loaded, the run has made one scratch
    directory and has left nothing in it. *)
Theorem scratch_directory_is_removed (e : engine) (L : libraries) (cfg : config)
    (input_path output_path : string) (w : world) (r : result string) (w' : world) :
  e ≠ PyHankoEngine →
  sign_with e L cfg input_path output_path w = (r, w') →
  (∀ p, in_temp_dir (next_tmp w) p = false → p ≠ Path output_path →
        files w' !! p = files w !! p) ∧
  (identity_loads e L cfg w = true →
     next_tmp w' = S (next_tmp w) ∧
     ∀ name, files w' !! TempPath (next_tmp w) name = None) ∧
  (identity_loads e L cfg w = false → w' = w).
Proof.
  intros He Hrun.
  destruct (endesive_route_frame L cfg e input_path output_path w He)
    as (r1 & w1 & calls & Hr & _ & Hfr & Ho).
  rewrite Hrun in Hr. injection Hr as <- <-. split; [exact Hfr|].
  assert (identity_loads e L cfg w
          = bool_decide (is_Some (endesive L)) && is_ok (load_certificate_data cfg w).1)
    as -> by (by destruct e).
  destruct (endesive L) as [E|].
  2:{ split; [intros Hx; discriminate Hx|]. intros _. by destruct Ho. }
  rewrite (bool_decide_true (is_Some (Some E))) by eauto. cbn [andb].
  destruct (load_certificate_data cfg w).1 as [[[key cert] cas]|e0]; cbn [is_ok].
  - destruct Ho as (Hn & Hgone & _). split; [|intros Hx; discriminate Hx].
    intros _. split; [exact Hn|]. intros name. apply Hgone. cbn. apply Nat.eqb_refl.
  - split; [intros Hx; discriminate Hx|]. intros _. by destruct Ho.
Qed.

(** The three-page run: one scratch directory made, nothing left in it. *)
Lemma scratch_directory_is_removed_witness :
  let w := Fixture.signing_world 1750400000 Fixture.three_pages in
  next_tmp Fixture.signed_world = S (next_tmp w) ∧
  files Fixture.signed_world !! TempPath (next_tmp w) "certified.pdf" = None.
Proof.
  intros w.
  destruct (scratch_directory_is_removed Endesive
              (Fixture.toy_libraries Fixture.sign_always) default_config
              "in.pdf" "out.pdf" w (Ok "out.pdf") Fixture.signed_world)
    as (_ & H & _).
  - discriminate.
  - exact toy_run.
  - destruct H as [Hn Hgone]; [vm_compute; reflexivity|]. split; [exact Hn|apply Hgone].
Defined.

(** The identity.  On both endesive routes every request made to the
    signing library, the certification and each approval, is made with
    the key, the certificate and the further certificates of the
    configured PKCS#12 bundle, stored under the configured password, and
    asks for SHA-256. *)
Theorem requests_use_the_configured_identity (e : engine) (L : libraries)
    (cfg : config) (input_path output_path : string) (w : world)
    (r : result string) (w' : world) :
  e ≠ PyHankoEngine →
  sign_with e L cfg input_path output_path w = (r, w') →
  ∃ calls, lib_calls w' = (lib_calls w ++ calls)%list ∧
    Forall (λ c, ∃ b datau udct ret,
              files w !! Path (CERTIFICATE_P12_PATH cfg)
                = Some (Pkcs12File b (CERTIFICATE_PASSWORD cfg)) ∧
              c = EndesiveSign datau udct (p12_key b) (p12_cert b) (p12_cas b)
                    "sha256" ret) calls.
Proof.
  intros He Hrun.
  destruct (endesive_route_frame L cfg e input_path output_path w He)
    as (r1 & w1 & calls & Hr & Hc & _ & Ho).
  rewrite Hrun in Hr. injection Hr as <- <-. exists calls. split; [exact Hc|].
  destruct (endesive L) as [E|]; [|destruct Ho as [_ ->]; constructor].
  rewrite load_certificate_data_outcome in Ho. cbn [fst] in Ho.
  destruct (files w !! Path (CERTIFICATE_P12_PATH cfg)) as [[| | |b pw| |]|];
    try (cbn match in Ho; destruct Ho as [_ ->]; constructor).
  destruct (String.eqb pw (CERTIFICATE_PASSWORD cfg)) eqn:Heq;
    [|destruct Ho as [_ ->]; constructor].
  apply String.eqb_eq in Heq. subst pw.
  destruct Ho as (_ & _ & Hall). eapply Forall_impl; [exact Hall|].
  intros c (datau & udct & ret & -> & _). by exists b, datau, udct, ret.
Qed.

(** The three-page run makes four requests, all with the bundle made by
    [setup_ca_infrastructure]. *)
Lemma requests_use_the_configured_identity_witness :
  let w := Fixture.signing_world 1750400000 Fixture.three_pages in
  ∃ calls, lib_calls Fixture.signed_world = (lib_calls w ++ calls)%list ∧
    Forall (λ c, ∃ b datau udct ret,
              files w !! Path (CERTIFICATE_P12_PATH default_config)
                = Some (Pkcs12File b (CERTIFICATE_PASSWORD default_config)) ∧
              c = EndesiveSign datau udct (p12_key b) (p12_cert b) (p12_cas b)
                    "sha256" ret) calls.
Proof.
  intros w.
  apply (requests_use_the_configured_identity Endesive
           (Fixture.toy_libraries Fixture.sign_always) default_config
           "in.pdf" "out.pdf" w (Ok "out.pdf") Fixture.signed_world).
  - discriminate.
  - exact toy_run.
Defined.

Section AppearanceFacts.

Context (cfg : config).



End AppearanceFacts.



(** One clock reading per stamp.  On both endesive routes, every request
    after the first (the certification) is an approval whose signing date
    and whose visible date and time lines are rendered from one reading
    of the clock, taken during the run, in the +05:30 offset: read back,
    the signing date and the visible lines denote the same local minute
    (the signing date adds the seconds).  This holds for clock readings
    whose local year has four digits. *)
Theorem approval_time_stamps_agree (e : engine) (L : libraries) (cfg : config)
    (input_path output_path : string) (w : world) (r : result string) (w' : world) :
  e ≠ PyHankoEngine →
  four_digit_years (clock w) → four_digit_years (clock w') →
  sign_with e L cfg input_path output_path w = (r, w') →
  ∃ calls, lib_calls w' = (lib_calls w ++ calls)%list ∧
    Forall (λ c, ∃ t k,
              clock w ≤ t ≤ clock w' ∧ call_kind c = Approval k ∧
              rendered_from t (call_params c) ∧ same_instant c) (tail calls).
Proof.
  intros He [Hlo _] [_ Hhi] Hrun.
  destruct (sign_with_spec L cfg e input_path output_path w)
    as (r1 & w1 & calls & Hr & _ & Hc & Hfa & _).
  rewrite Hrun in Hr. injection Hr as <- <-. exists calls. split; [exact Hc|].
  eapply Forall_impl; [exact (Hfa He)|].
  intros c (datau & udct & key & cert & others & ret & t & k & -> & Ht & Hk & Hren).
  exists t, k. split; [exact Ht|]. split; [exact Hk|]. split; [exact Hren|].
  destruct Hren as (Hs & Hd & Htm).
  destruct (rendered_strings_agree t) as [Hpdf Hvis]; [split; lia|].
  unfold same_instant. eexists "signingdate", _, _, _, _.
  split; [exact Hs|]. split; [exact Hpdf|].
  cbn [visible_lines]. rewrite Hd, Htm. cbn [mbind option_bind].
  split; [reflexivity|exact Hvis].
Qed.

(** The three-page run at 2025-06-20. *)
Lemma approval_time_stamps_agree_witness :
  let w := Fixture.signing_world 1750400000 Fixture.three_pages in
  ∃ calls, lib_calls Fixture.signed_world = (lib_calls w ++ calls)%list ∧
    Forall (λ c, ∃ t k,
              clock w ≤ t ≤ clock Fixture.signed_world ∧ call_kind c = Approval k ∧
              rendered_from t (call_params c) ∧ same_instant c) (tail calls).
Proof.
  intros w.
  apply (approval_time_stamps_agree Endesive
           (Fixture.toy_libraries Fixture.sign_always) default_config
           "in.pdf" "out.pdf" w (Ok "out.pdf") Fixture.signed_world).
  - discriminate.
  - unfold four_digit_years. vm_compute. split; [discriminate|reflexivity].
  - unfold four_digit_years. vm_compute. split; [discriminate|reflexivity].
  - exact toy_run.
Defined.

(* ===================================================================== *)
(** * Further facts about the two verifiers *)
(* ===================================================================== *)

Lemma omap_length_le {A B} (f : A → option B) (l : list A) :
  (length (omap f l) ≤ length l)%nat.
Proof.
  induction l as [|x l IH]; [done|]. cbn. destruct (f x); cbn; lia.
Qed.

Section VerifierOutcomes.

Context (L : libraries).

(** The whole of [verify_pdf_signature], read off the document. *)
Lemma verify_pdf_signature_outcome pdf_path w :
  verify_pdf_signature L pdf_path w =
  (Ok match endesive L, files w !! Path pdf_path with
      | Some E, Some (Binary doc) =>
          match endesive_verify_func E doc [] with
          | Ok verified =>
              match py_iter verified with
              | Some raws => omap (process_verification_result L) raws
              | None => []
              end
          | Raise _ => []
          end
      | _, _ => []
      end, w).
Proof.
  unfold verify_pdf_signature. destruct (endesive L) as [E|]; [|done].
  run_engine.
  destruct (files w !! Path pdf_path) as [[| | | | |doc]|]; try done.
  destruct (endesive_verify_func E doc []) as [verified|e]; [|done].
  destruct verified as [|[]|z|s|b|l|l]; try done; cbn.
  - destruct (negb (z =? 0)%Z); done.
  - destruct s; done.
  - destruct b; done.
  - destruct l; done.
  - destruct l; done.
Qed.

(** The whole of [verify_pdf_signature_pyhanko]. *)
Lemma verify_pdf_signature_pyhanko_outcome pdf_path w :
  verify_pdf_signature_pyhanko L pdf_path w =
  (Ok match pyhanko L, files w !! Path pdf_path with
      | Some P, Some (Binary doc) =>
          match pyhanko_embedded_signatures P doc with
          | Ok sigs => validate_one P <$> sigs
          | Raise _ => []
          end
      | _, _ => []
      end, w).
Proof.
  unfold verify_pdf_signature_pyhanko. destruct (pyhanko L) as [P|]; [|done].
  run_engine.
  destruct (files w !! Path pdf_path) as [[| | | | |doc]|]; try done.
  by destruct (pyhanko_embedded_signatures P doc).
Qed.

End VerifierOutcomes.

(** ** The endesive verifier *)

(** [verify_pdf_signature] never raises and changes nothing.  Whatever
    goes wrong, it answers with the empty report, the answer it also
    gives for a document without signatures: endesive not installed, the
    file missing, the library raising, or the library's answer not being
    iterable.  Otherwise the report holds one entry for each result of
    five values whose first is the signature's name as bytes; results of
    any other shape are left out.  Every entry carries the four details
    and, as validity, [signature_ok and hash_ok]. *)
Theorem verifier_never_raises (L : libraries) (pdf_path : string) (w : world) :
  ∃ report,
    verify_pdf_signature L pdf_path w = (Ok report, w) ∧
    Forall entry_well_formed report ∧
    match endesive L, files w !! Path pdf_path with
    | Some E, Some (Binary doc) =>
        match endesive_verify_func E doc [] with
        | Ok verified =>
            match py_iter verified with
            | Some raws =>
                report = omap (process_verification_result L) raws ∧
                (length report ≤ length raws)%nat
            | None => report = []
            end
        | Raise _ => report = []
        end
    | _, _ => report = []
    end.
Proof.
  rewrite verify_pdf_signature_outcome. eexists. split; [reflexivity|].
  assert (∀ raws, Forall entry_well_formed (omap (process_verification_result L) raws))
    as Hwf.
  { intros raws. rewrite Forall_forall. intros entry [vr [_ Hvr]]%list_elem_of_omap.
    by eapply process_verification_result_entry. }
  destruct (endesive L) as [E|]; [|by split].
  destruct (files w !! Path pdf_path) as [[| | | | |doc]|]; try by split.
  destruct (endesive_verify_func E doc []) as [verified|e]; [|by split].
  destruct (py_iter verified) as [raws|]; [|by split].
  split; [apply Hwf|]. split; [done|]. apply omap_length_le.
Qed.

(** The verifier is handed the document and nothing else: the library is
    called with the bytes of the file and an empty list of trusted
    certificates, and no other file is read.  So two states of the file
    system that hold the same document give the same report, whatever the
    CA directory, its CRL or the CA bundle hold; the same goes for the
    pyHanko verifier. *)
Theorem verifiers_read_only_the_document (L : libraries) (pdf_path : string)
    (w1 w2 : world) :
  files w1 !! Path pdf_path = files w2 !! Path pdf_path →
  (verify_pdf_signature L pdf_path w1).1 = (verify_pdf_signature L pdf_path w2).1 ∧
  (verify_pdf_signature_pyhanko L pdf_path w1).1
    = (verify_pdf_signature_pyhanko L pdf_path w2).1.
Proof.
  intros Hf. rewrite !verify_pdf_signature_outcome, !verify_pdf_signature_pyhanko_outcome.
  cbn [fst]. by rewrite Hf.
Qed.

(** The signed document before and after serial number 2, the number of
    its signing certificate, is put on the CRL: the same report. *)
Lemma verifiers_read_only_the_document_witness :
  let L := Fixture.toy_libraries Fixture.sign_always in
  files Fixture.signed_world !! Path (crl_path default_ca)
    ≠ files Fixture.revoked_world !! Path (crl_path default_ca) ∧
  (verify_pdf_signature L "out.pdf" Fixture.signed_world).1
    = (verify_pdf_signature L "out.pdf" Fixture.revoked_world).1.
Proof.
  intros L. split.
  - vm_compute. intros H. discriminate H.
  - apply (verifiers_read_only_the_document L "out.pdf"
             Fixture.signed_world Fixture.revoked_world).
    vm_compute. reflexivity.
Defined.

(** ** The pyHanko verifier *)

(** [verify_pdf_signature_pyhanko] never raises and changes nothing.
    When pyHanko lists the embedded signatures of the document, the
    report has exactly one entry for each of them, in order and under its
    field name: a signature whose validation raises is not left out but
    reported as invalid, with the error text as its only detail.  When
    pyHanko is missing, the file cannot be read or the listing fails, the
    report is empty. *)
Theorem pyhanko_verifier_reports_every_signature (L : libraries)
    (pdf_path : string) (w : world) :
  ∃ report,
    verify_pdf_signature_pyhanko L pdf_path w = (Ok report, w) ∧
    match pyhanko L, files w !! Path pdf_path with
    | Some P, Some (Binary doc) =>
        match pyhanko_embedded_signatures P doc with
        | Ok sigs =>
            (λ entry : pyhanko_entry, entry.1.1) <$> report = sig_field_name <$> sigs ∧
            Forall2 (λ sig (entry : pyhanko_entry),
                       match pyhanko_validate_pdf_signature P sig with
                       | Ok status =>
                           entry.1.2 = vs_valid status ∧
                           entry.2 !! "valid" = Some (VBool (vs_valid status)) ∧
                           entry.2 !! "trusted" = Some (VBool (vs_trusted status))
                       | Raise e =>
                           entry.1.2 = false ∧ dom entry.2 = {["error"]}
                       end) sigs report
        | Raise _ => report = []
        end
    | _, _ => report = []
    end.
Proof.
  rewrite verify_pdf_signature_pyhanko_outcome. eexists. split; [reflexivity|].
  destruct (pyhanko L) as [P|]; [|done].
  destruct (files w !! Path pdf_path) as [[| | | | |doc]|]; try done.
  destruct (pyhanko_embedded_signatures P doc) as [sigs|e]; [|done].
  split.
  - rewrite <- list_fmap_compose. apply list_fmap_ext. intros i sig _.
    unfold validate_one. cbn. by destruct (pyhanko_validate_pdf_signature P sig).
  - apply Forall2_fmap_r, Forall_Forall2_diag, Forall_forall. intros sig _.
    unfold compose, validate_one. cbn beta.
    destruct (pyhanko_validate_pdf_signature P sig) as [st|e].
    + cbn [fst snd]. split; [done|]. by dict.
    + cbn [fst snd]. split; [done|]. by rewrite dom_singleton_L.
Qed.

(* ===================================================================== *)
(** * Further facts about the pyHanko route *)
(* ===================================================================== *)

Section PyHankoShape.

Context (L : libraries) (cfg : config).

(** The page loop: each request is an approval for one page, with the
    stamp rendered from a clock reading of its own. *)
Lemma pyhanko_approval_loop_shape P signer pages : ∀ cur w,
  ∃ r w' calls,
    pyhanko_approval_loop P signer pages cur w = (r, w') ∧
    files w' = files w ∧ clock w ≤ clock w' ∧
    lib_calls w' = (lib_calls w ++ calls)%list ∧
    Forall (λ c, ∃ pdf i t ret,
              clock w ≤ t ≤ clock w' ∧
              c = PyhankoSign pdf (approval_meta i) signer
                    (Some (approval_stamp (datetime_at t chennai_offset))) false ret)
      calls.
Proof.
  induction pages as [|page pages IH]; intros cur w.
  - exists (Ok cur), w, []. rewrite app_nil_r. repeat split; first [done | lia].
  - cbn [pyhanko_approval_loop]. rewrite bind_eq. cbn [datetime_now].
    rewrite bind_eq. unfold sign_pdf. rewrite bind_eq.
    unfold record_call. cbn [fst snd].
    match goal with |- context [PyhankoSign cur ?m signer ?st false ?ret] =>
      set (c := PyhankoSign cur m signer st false ret); destruct ret as [out|e] eqn:Hret
    end.
    + cbn [mret M_ret].
      match goal with |- context [pyhanko_approval_loop _ _ _ out ?w2] =>
        destruct (IH out w2) as (r & w' & calls & -> & Hf & Ht & Hc & Hall)
      end.
      cbn [files clock lib_calls] in *.
      exists r, w', (c :: calls). split; [reflexivity|]. split; [done|].
      split; [lia|]. split; [by rewrite Hc, <- app_assoc|].
      constructor.
      * exists cur, (Z.of_nat page), (clock w), (Ok out). split; [lia|done].
      * eapply Forall_impl; [exact Hall|].
        intros c' (pdf & i & t & ret & Hb & ->). exists pdf, i, t, ret. split; [lia|done].
    + eexists (Raise e), _, [c]. cbn [raise]. split; [reflexivity|].
      cbn [files clock lib_calls]. split; [done|]. split; [lia|]. split; [done|].
      constructor; [|done].
      exists cur, (Z.of_nat page), (clock w), (Raise e). split; [lia|done].
Qed.

(** What [get_certificate_info_pyhanko] returns, read off the file. *)
Lemma get_certificate_info_pyhanko_outcome cert_path password w :
  get_certificate_info_pyhanko L cert_path password w =
  (match pyhanko L with
   | None => Raise (ImportError "PyHanko library is not available")
   | Some _ =>
       match files w !! Path cert_path with
       | None => Raise (FileNotFoundError "No such file or directory")
       | Some (Pkcs12File b pw) =>
           if String.eqb pw password
           then Ok {| signer_key := p12_key b; signer_cert := p12_cert b;
                      signer_registry := p12_cert b :: p12_cas b |}
           else Raise (LibraryError "could not load PKCS#12 file")
       | Some _ => Raise (LibraryError "could not load PKCS#12 file")
       end
   end, w).
Proof.
  unfold get_certificate_info_pyhanko. destruct (pyhanko L); [|done].
  run_engine. destruct (files w !! Path cert_path) as [c|]; [|done].
  destruct c; try done.
  by destruct (String.eqb password0 password).
Qed.

(** The whole route. *)
Lemma pyhanko_route_shape input_path output_path w :
  ∃ r w' calls,
    sign_pdf_multi_page_pyhanko L cfg input_path output_path w = (r, w') ∧
    clock w ≤ clock w' ∧
    lib_calls w' = (lib_calls w ++ calls)%list ∧
    (∀ p, p ≠ Path output_path → files w' !! p = files w !! p) ∧
    (calls ≠ [] →
       ∃ P b pdf_in n,
         pyhanko L = Some P ∧
         files w !! Path (CERTIFICATE_P12_PATH cfg)
           = Some (Pkcs12File b (CERTIFICATE_PASSWORD cfg)) ∧
         files w !! Path input_path = Some (Binary pdf_in) ∧
         pyhanko_pages_count P pdf_in = Ok (Some (Some n)) ∧
         let signer := {| signer_key := p12_key b; signer_cert := p12_cert b;
                          signer_registry := p12_cert b :: p12_cas b |} in
         ∃ ret rest,
           calls = PyhankoSign pdf_in cert_meta signer None true ret :: rest ∧
           Forall (λ c, ∃ pdf i t ret,
                     clock w ≤ t ≤ clock w' ∧
                     c = PyhankoSign pdf (approval_meta i) signer
                           (Some (approval_stamp (datetime_at t chennai_offset)))
                           false ret) rest).
Proof.
  unfold sign_pdf_multi_page_pyhanko, sign_pdf_pyhanko_with_proper_mdp.
  destruct (pyhanko L) as [P|] eqn:HP.
  2:{ eexists _, w, []. rewrite app_nil_r. split; [reflexivity|].
      repeat split; first [done | lia]. }
  unfold try_except. rewrite bind_eq.
  rewrite get_certificate_info_pyhanko_outcome, HP.
  destruct (files w !! Path (CERTIFICATE_P12_PATH cfg)) as [[| | |b pw| |]|] eqn:Hid;
    try (eexists _, w, []; rewrite app_nil_r; split; [reflexivity|];
         repeat split; first [done | lia]).
  destruct (String.eqb pw (CERTIFICATE_PASSWORD cfg)) eqn:Hpw.
  2:{ eexists _, w, []. rewrite app_nil_r. split; [reflexivity|].
      repeat split; first [done | lia]. }
  apply String.eqb_eq in Hpw. subst pw.
  set (signer := Build_simple_signer _ _ _).
  rewrite bind_eq. unfold read_bytes at 1. rewrite bind_eq. unfold read_file at 1.
  destruct (files w !! Path input_path) as [content|] eqn:Hin.
  2:{ eexists _, w, []. rewrite app_nil_r. split; [reflexivity|].
      repeat split; first [done | lia]. }
  destruct content as [| | | | |pdf_in];
    try (eexists _, w, []; rewrite app_nil_r; split; [reflexivity|];
         repeat split; first [done | lia]).
  cbn [mret M_ret]. rewrite bind_eq.
  destruct (pyhanko_pages_count P pdf_in) as [[[num_pages|]|]|e] eqn:Hn;
    try (eexists _, w, []; rewrite app_nil_r; split; [reflexivity|];
         repeat split; first [done | lia]).
  cbn [mret M_ret]. rewrite bind_eq. unfold sign_pdf at 1. rewrite bind_eq.
  unfold record_call. cbn [fst snd].
  match goal with |- context [PyhankoSign pdf_in cert_meta signer None true ?ret] =>
    set (c := PyhankoSign pdf_in cert_meta signer None true ret);
    destruct ret as [certified|e] eqn:Hret
  end.
  2:{ eexists _, _, [c]. cbn [raise]. split; [reflexivity|].
      cbn [files clock lib_calls]. split; [lia|]. split; [done|]. split; [done|].
      intros _. exists P, b, pdf_in, num_pages. repeat split; try done.
      eexists _, []. split; [reflexivity|constructor]. }
  cbn [mret M_ret]. rewrite bind_eq.
  match goal with |- context [pyhanko_approval_loop _ _ ?pages certified ?w2] =>
    destruct (pyhanko_approval_loop_shape P signer pages certified w2)
      as (r & w' & calls & -> & Hf & Ht & Hc & Hall)
  end.
  cbn [files clock lib_calls] in *.
  assert (∀ w3, clock w3 = clock w' →
          ∃ P0 b0 pdf_in0 n,
            Some P = Some P0 ∧
            Some (Pkcs12File b (CERTIFICATE_PASSWORD cfg))
              = Some (Pkcs12File b0 (CERTIFICATE_PASSWORD cfg)) ∧
            Some (Binary pdf_in) = Some (Binary pdf_in0) ∧
            pyhanko_pages_count P0 pdf_in0 = Ok (Some (Some n)) ∧
            let signer := {| signer_key := p12_key b0; signer_cert := p12_cert b0;
                             signer_registry := p12_cert b0 :: p12_cas b0 |} in
            ∃ ret rest,
              c :: calls = PyhankoSign pdf_in0 cert_meta signer None true ret :: rest ∧
              Forall (λ c, ∃ pdf i t ret,
                        clock w ≤ t ≤ clock w3 ∧
                        c = PyhankoSign pdf (approval_meta i) signer
                              (Some (approval_stamp (datetime_at t chennai_offset)))
                              false ret) rest) as Hshape.
  { intros w3 Hw3. exists P, b, pdf_in, num_pages. repeat split; try done.
    eexists _, calls. split; [reflexivity|]. rewrite Hw3. exact Hall. }
  destruct r as [final|e].
  2:{ eexists _, w', (c :: calls). split; [reflexivity|].
      split; [lia|]. split; [by rewrite Hc, <- app_assoc|].
      split; [intros; by rewrite Hf|]. intros _. by apply Hshape. }
  rewrite bind_eq. unfold write_file. cbn [mret M_ret].
  eexists _, _, (c :: calls). split; [reflexivity|].
  unfold set_files; cbn [clock lib_calls files].
  split; [lia|]. split; [by rewrite Hc, <- app_assoc|].
  split; [intros p Hp; rewrite lookup_insert_ne by congruence; by rewrite Hf|].
  intros _. by apply Hshape.
Qed.

End PyHankoShape.

(** ** The pyHanko route: what its stamps show, and when it gives up *)

(** On the pyHanko route every approval request is made with the key and
    certificate of the configured bundle, for the field
    [ApprovalSignaturePage<k+1>] on page [k], and with a stamp whose text
    is fixed but for the date and the time: the name "ARUL M" and the
    location "Chennai" are printed whatever the certificate says.  Date
    and time are rendered in the +05:30 offset from a reading of the
    clock taken for that page during the run.  The request carries no
    signing date: its parameters are the field name, location, page and
    box, so the time inside the signature is left to the library. *)
Theorem pyhanko_stamp_is_fixed (L : libraries) (cfg : config)
    (input_path output_path : string) (w : world) (r : result string) (w' : world) :
  sign_with PyHankoEngine L cfg input_path output_path w = (r, w') →
  ∃ calls, lib_calls w' = (lib_calls w ++ calls)%list ∧
    Forall (λ c, ∀ k, call_kind c = Approval k →
              ∃ b pdf t ret,
                files w !! Path (CERTIFICATE_P12_PATH cfg)
                  = Some (Pkcs12File b (CERTIFICATE_PASSWORD cfg)) ∧
                clock w ≤ t ≤ clock w' ∧
                let dt := datetime_at t chennai_offset in
                c = PyhankoSign pdf (approval_meta k)
                      {| signer_key := p12_key b; signer_cert := p12_cert b;
                         signer_registry := p12_cert b :: p12_cas b |}
                      (Some {| stamp_text :=
                                 "ARUL M" +:+ newline +:+
                                 "Date: " +:+ strftime "%d/%m/%Y" dt +:+ newline +:+
                                 "Time: " +:+ strftime "%H:%M GMT +5:30" dt +:+ newline +:+
                                 "Location: Chennai";
                               text_box_font_size := 10;
                               box_width := 130; box_height := 70 |})
                      false ret ∧
                dom (call_params c) = {[ "field_name"; "location"; "page"; "box" ]})
      calls.
Proof.
  intros Hrun.
  destruct (pyhanko_route_shape L cfg input_path output_path w)
    as (r1 & w1 & calls & Hr & _ & Hc & _ & Hshape).
  cbn [sign_with] in Hrun. rewrite Hrun in Hr. injection Hr as <- <-.
  exists calls. split; [exact Hc|].
  destruct calls as [|c0 rest]; [constructor|].
  destruct Hshape as (P & b & pdf_in & n & _ & Hid & _ & _ & ret & rest' & Heq & Hall);
    [done|].
  injection Heq as -> ->. constructor.
  - intros k Hk. cbn [call_kind] in Hk. rewrite cert_meta_kind in Hk. discriminate Hk.
  - eapply Forall_impl; [exact Hall|].
    intros c (pdf & i & t & ret' & Ht & ->) k Hk.
    cbn [call_kind] in Hk. rewrite approval_meta_kind in Hk. injection Hk as <-.
    exists b, pdf, t, ret'. split; [exact Hid|]. split; [exact Ht|]. cbn zeta.
    split; [reflexivity|]. cbn [call_params]. unfold approval_meta.
    rewrite !dom_insert_L, dom_empty_L. set_solver.
Qed.

(** A run of the pyHanko route over the three-page document. *)
Lemma pyhanko_stamp_is_fixed_witness :
  let w := Fixture.signing_world 1750400000 Fixture.three_pages in
  let run := sign_with PyHankoEngine (Fixture.toy_libraries Fixture.sign_always)
               default_config "in.pdf" "out.pdf" w in
  is_ok run.1 = true ∧
  ∃ calls, lib_calls run.2 = (lib_calls w ++ calls)%list ∧ length calls = 4%nat.
Proof.
  intros w run.
  assert (is_ok run.1 = true) as Hok by (vm_compute; reflexivity).
  split; [exact Hok|].
  destruct (pyhanko_stamp_is_fixed (Fixture.toy_libraries Fixture.sign_always)
              default_config "in.pdf" "out.pdf" w run.1 run.2) as (calls & Hc & _).
  - subst run. by destruct (sign_with _ _ _ _ _ _).
  - exists calls. split; [exact Hc|].
    assert (length (lib_calls run.2) = (length (lib_calls w) + 4)%nat) as Hlen
      by (vm_compute; reflexivity).
    rewrite Hc, length_app in Hlen. lia.
Defined.

(** The pyHanko route counts the pages of the input before it signs
    anything.  When pyHanko is missing, or the reader finds no [/Pages]
    node or no [/Count] in it, the run fails without a single request
    to the signing library and without changing a file. *)
Theorem pyhanko_route_needs_a_page_count (L : libraries) (cfg : config)
    (input_path output_path : string) (w : world) (pdf_in : bytes)
    (r : result string) (w' : world) :
  files w !! Path input_path = Some (Binary pdf_in) →
  pages_counted PyHankoEngine L pdf_in pdf_in = None →
  sign_with PyHankoEngine L cfg input_path output_path w = (r, w') →
  is_ok r = false ∧ lib_calls w' = lib_calls w ∧
  ∀ q, files w' !! Path q = files w !! Path q.
Proof.
  intros Hin Hcount Hrun.
  destruct (pyhanko_route_shape L cfg input_path output_path w)
    as (r1 & w1 & calls & Hr & _ & Hc & _ & Hshape).
  destruct (pyhanko_spec L cfg input_path output_path w)
    as (r2 & w2 & calls2 & Hr2 & _ & _ & Ho & _).
  cbn [sign_with] in Hrun. rewrite Hrun in Hr, Hr2.
  injection Hr as <- <-. injection Hr2 as <- <-.
  assert (calls = []) as ->.
  { destruct calls as [|c0 rest]; [done|]. exfalso.
    destruct Hshape as (P & b & pdf_in' & n & HP & _ & Hin' & Hn & _); [done|].
    rewrite Hin in Hin'. injection Hin' as <-.
    cbn [pages_counted] in Hcount. by rewrite HP, Hn in Hcount. }
  rewrite app_nil_r in Hc. destruct r as [p|e].
  - exfalso. destruct Ho as (_ & pdf_in' & certified & n & final & Hin' & _ & _ & Hn & _).
    rewrite Hin in Hin'. injection Hin' as <-.
    cbn [pages_counted] in *. congruence.
  - split; [done|]. split; [done|]. exact Ho.
Qed.

(** A reader that finds no page tree. *)
Lemma pyhanko_route_needs_a_page_count_witness :
  let L := {| endesive := None;
              pyhanko := Some {| pyhanko_sign_pdf := λ doc _ _ _ _, Ok doc;
                                 pyhanko_pages_count := λ _, Ok None;
                                 pyhanko_embedded_signatures := λ _, Ok [];
                                 pyhanko_validate_pdf_signature := λ _,
                                   Raise (SignatureValidationError "unused") |};
              PdfReader_pages := λ _, Ok 0%nat;
              utf8_decode_ignore := string_of_list_byte |} in
  let w := Fixture.signing_world 1750400000 Fixture.three_pages in
  is_ok (sign_with PyHankoEngine L default_config "in.pdf" "out.pdf" w).1 = false.
Proof.
  intros L w.
  destruct (sign_with PyHankoEngine L default_config "in.pdf" "out.pdf" w)
    as [r w'] eqn:Hrun.
  destruct (pyhanko_route_needs_a_page_count L default_config "in.pdf" "out.pdf" w
              Fixture.three_pages r w') as (Hr & _).
  - vm_compute. reflexivity.
  - reflexivity.
  - exact Hrun.
  - exact Hr.
Defined.

(** ** [sign_pdf_cryptographically]: the fall-back *)

(** Asking for pyHanko where pyHanko is not installed gives exactly what
    the endesive route gives: same result, same files, same requests.
    Where pyHanko is installed there is no fall-back: whatever the
    pyHanko route returns or raises, other than an [ImportError], is the
    outcome, and endesive is not tried. *)
Theorem pyhanko_fallback (L : libraries) (cfg : config)
    (input_path output_path : string) (w : world) :
  (pyhanko L = None →
     sign_pdf_cryptographically L cfg input_path output_path true w
     = sign_pdf_multi_page_with_proper_mdp L cfg input_path output_path w) ∧
  (∀ r w', sign_pdf_multi_page_pyhanko L cfg input_path output_path w = (r, w') →
     (∀ m, r ≠ Raise (ImportError m)) →
     sign_pdf_cryptographically L cfg input_path output_path true w = (r, w')) ∧
  sign_pdf_cryptographically L cfg input_path output_path false w
  = sign_pdf_multi_page_with_proper_mdp L cfg input_path output_path w.
Proof.
  split; [|split; [|reflexivity]].
  - intros HP. unfold sign_pdf_cryptographically, try_except,
      sign_pdf_multi_page_pyhanko, sign_pdf_pyhanko_with_proper_mdp.
    by rewrite HP.
  - intros r w' Hrun Hne. unfold sign_pdf_cryptographically, try_except.
    rewrite Hrun. destruct r as [p|[]]; try reflexivity. by destruct (Hne msg).
Qed.

(** No pyHanko, and the three-page document: the endesive run. *)
Lemma pyhanko_fallback_witness :
  let L := {| endesive := endesive (Fixture.toy_libraries Fixture.sign_always);
              pyhanko := None;
              PdfReader_pages :=
                PdfReader_pages (Fixture.toy_libraries Fixture.sign_always);
              utf8_decode_ignore := string_of_list_byte |} in
  let w := Fixture.signing_world 1750400000 Fixture.three_pages in
  sign_pdf_cryptographically L default_config "in.pdf" "out.pdf" true w
  = sign_pdf_multi_page_with_proper_mdp L default_config "in.pdf" "out.pdf" w.
Proof.
  intros L w.
  destruct (pyhanko_fallback L default_config "in.pdf" "out.pdf" w) as [H _].
  apply H. reflexivity.
Defined.

(* ===================================================================== *)
(** * Further facts about the reporting helper *)
(* ===================================================================== *)

Lemma string_app_assoc (a b c : string) : (a +:+ b) +:+ c = a +:+ (b +:+ c).
Proof.
  induction a as [|x a IH]; [reflexivity|].
  change (String x ((a +:+ b) +:+ c) = String x (a +:+ (b +:+ c))). by rewrite IH.
Qed.

(** [get_certificate_info] never raises and changes nothing.  When the
    identity cannot be loaded, the answer is the text "Certificate
    information not available: " followed by the error's text (for a
    missing bundle file, by "Certificate file not found: " and the
    configured path).  Otherwise it is the eight-line description of the
    loaded certificate; no field can be missing from the signer's details,
    so the lookups never fail. *)
Theorem certificate_info_never_raises (cfg : config) (w : world) :
  ∃ text,
    get_certificate_info cfg w = (Ok text, w) ∧
    match files w !! Path (CERTIFICATE_P12_PATH cfg),
          (load_certificate_data cfg w).1 with
    | None, _ =>
        text = "Certificate information not available: Certificate file not found: "
               +:+ CERTIFICATE_P12_PATH cfg
    | Some _, Raise e =>
        text = "Certificate information not available: " +:+ exn_message e
    | Some _, Ok (_, certificate, _) =>
        let info := get_signer_info_from_cert certificate in
        text =
          "Certificate Information:" +:+ newline +:+
          "Common Name: " +:+ info !!! "common_name" +:+ newline +:+
          "Organization: " +:+ info !!! "organization" +:+ newline +:+
          "Country: " +:+ info !!! "country" +:+ newline +:+
          "State: " +:+ info !!! "state" +:+ newline +:+
          "Email: " +:+ info !!! "email" +:+ newline +:+
          "Valid From: " +:+ str_datetime_utc (not_valid_before certificate) +:+ newline +:+
          "Valid Until: " +:+ str_datetime_utc (not_valid_after certificate) +:+ newline +:+
          "Serial Number: " +:+ str (serial_number certificate) +:+ newline
    end.
Proof.
  unfold get_certificate_info, try_except. rewrite bind_eq.
  rewrite load_certificate_data_outcome. cbn [fst].
  destruct (files w !! Path (CERTIFICATE_P12_PATH cfg)) as [content|].
  2:{ eexists. split; reflexivity. }
  assert (∀ certificate : certificate, ∀ k, k ∈ dom DEFAULT_SIGNER_INFO →
            item (get_signer_info_from_cert certificate) k w
            = (Ok (get_signer_info_from_cert certificate !!! k), w)) as Hitem.
  { intros certificate k Hk. unfold item.
    destruct (signer_info_fields certificate) as [Hdom _]. cbn zeta in Hdom.
    rewrite <- Hdom in Hk. apply elem_of_dom in Hk as [v Hv].
    by rewrite (lookup_total_correct _ _ _ Hv), Hv. }
  destruct content as [| | |b pw| |]; try (eexists; split; reflexivity).
  destruct (String.eqb pw (CERTIFICATE_PASSWORD cfg)); [|eexists; split; reflexivity].
  cbn zeta. rewrite !bind_eq.
  rewrite (Hitem (p12_cert b) "common_name") by (apply elem_of_dom; by eexists).
  rewrite bind_eq, (Hitem (p12_cert b) "organization") by (apply elem_of_dom; by eexists).
  rewrite bind_eq, (Hitem (p12_cert b) "country") by (apply elem_of_dom; by eexists).
  rewrite bind_eq, (Hitem (p12_cert b) "state") by (apply elem_of_dom; by eexists).
  rewrite bind_eq, (Hitem (p12_cert b) "email") by (apply elem_of_dom; by eexists).
  eexists. split; [reflexivity|].
  rewrite !string_app_assoc. reflexivity.
Qed.

(* ===================================================================== *)
(** * A refused request ends the run *)
(* ===================================================================== *)

Section StopsAtRefusal.

Context (L : libraries) (cfg : config).

Lemma refusal_nil {A} (r : result A) :
  ∀ i c, ([] : list lib_call) !! i = Some c → call_document c = None →
         S i = length ([] : list lib_call) ∧ is_ok r = false.
Proof. intros i c Hi. by rewrite lookup_nil in Hi. Qed.

Lemma refusal_single {A} (r : result A) c0 :
  (call_document c0 = None → is_ok r = false) →
  ∀ i c, [c0] !! i = Some c → call_document c = None →
         S i = length [c0] ∧ is_ok r = false.
Proof.
  intros Hr [|i] c Hi Hc; [|by rewrite lookup_cons, lookup_nil in Hi].
  injection Hi as <-. split; [done|]. by apply Hr.
Qed.

Lemma refusal_cons {A} (r : result A) c0 calls :
  is_Some (call_document c0) →
  (∀ i c, calls !! i = Some c → call_document c = None →
          S i = length calls ∧ is_ok r = false) →
  ∀ i c, (c0 :: calls) !! i = Some c → call_document c = None →
         S i = length (c0 :: calls) ∧ is_ok r = false.
Proof.
  intros [doc Hdoc] IH [|i] c Hi Hc.
  - injection Hi as <-. congruence.
  - destruct (IH i c Hi Hc) as [Hlen Hr]. split; [cbn; lia|done].
Qed.

Lemma refusal_none {A B} (x : A) (r : result B) calls :
  (∀ i c, calls !! i = Some c → call_document c = None →
          S i = length calls ∧ is_ok (Ok x) = false) →
  ∀ i c, calls !! i = Some c → call_document c = None →
         S i = length calls ∧ is_ok r = false.
Proof. intros H i c Hi Hc. by destruct (H i c Hi Hc) as [_ ?]. Qed.

Lemma approval_loop_stops E ac key cert cas d pages : ∀ cur w,
  ∃ r w' calls,
    approval_loop cfg E ac key cert cas d pages cur w = (r, w') ∧
    lib_calls w' = (lib_calls w ++ calls)%list ∧
    ∀ i c, calls !! i = Some c → call_document c = None →
           S i = length calls ∧ is_ok r = false.
Proof.
  induction pages as [|page pages IH]; intros cur w.
  - exists (Ok cur), w, []. rewrite app_nil_r. split; [done|]. split; [done|].
    apply refusal_nil.
  - cbn [approval_loop]. rewrite bind_eq.
    destruct (read_bytes cur w) as [[doc|e] w0] eqn:Hread;
      pose proof (read_bytes_world _ _ _ _ Hread) as ->.
    2:{ exists (Raise e), w, []. rewrite app_nil_r. split; [done|]. split; [done|].
        apply refusal_nil. }
    rewrite bind_eq.
    destruct (build_appearance_dict_spec ac (Z.of_nat page) w) as (dct & Hb & _ & _).
    rewrite Hb. set (w1 := (datetime_now w).2).
    assert (lib_calls w1 = lib_calls w) as Hc1 by (subst w1; cbn; done).
    rewrite bind_eq. unfold cms_sign. rewrite bind_eq.
    set (udct := page_sig_dct cfg ac (Z.of_nat page) dct).
    set (ret := endesive_cms_sign E doc udct key cert cas "sha256").
    set (c := EndesiveSign doc udct key cert cas "sha256" ret).
    unfold record_call. cbn [fst snd].
    destruct ret as [signature_data|e] eqn:Hret.
    + cbn [mret M_ret]. rewrite bind_eq. unfold write_file at 1.
      match goal with |- context [approval_loop _ _ _ _ _ _ _ _ ?p ?w3] =>
        destruct (IH p w3) as (r & w' & calls & -> & Hl & Hstop)
      end.
      cbn [lib_calls set_files] in *.
      exists r, w', (c :: calls). split; [reflexivity|].
      split; [by rewrite Hl, Hc1, <- app_assoc|].
      apply refusal_cons; [|exact Hstop]. subst c. cbn. eauto.
    + exists (Raise e), (Build_world (files w1) (clock w1) (ticks w1) (next_key_id w1)
                          (next_tmp w1) (pkcs12_backend w1) (lib_calls w1 ++ [c])), [c].
      cbn [raise]. split; [reflexivity|]. cbn [lib_calls].
      split; [by rewrite Hc1|]. by apply refusal_single.
Qed.

Lemma get_pdf_page_count_world p w r w' :
  get_pdf_page_count L p w = (r, w') → w' = w.
Proof.
  unfold get_pdf_page_count. rewrite bind_eq.
  destruct (read_bytes p w) as [[x|x] wx] eqn:Hrb;
    pose proof (read_bytes_world _ _ _ _ Hrb) as ->.
  - destruct (PdfReader_pages L x); by intros [= _ <-].
  - by intros [= _ <-].
Qed.

Lemma signing_steps_stops E ac info key cert cas d input_path output_path w :
  ∃ r w' calls,
    signing_steps L cfg E ac info key cert cas d input_path output_path w = (r, w') ∧
    lib_calls w' = (lib_calls w ++ calls)%list ∧
    ∀ i c, calls !! i = Some c → call_document c = None →
           S i = length calls ∧ is_ok r = false.
Proof.
  unfold signing_steps. rewrite bind_eq. cbn [datetime_now]. rewrite bind_eq.
  set (w1 := Build_world _ _ _ _ _ _ _).
  assert (lib_calls w1 = lib_calls w) as Hc1 by (subst w1; cbn; done).
  destruct (read_bytes (Path input_path) w1) as [[pdf_in|e] w0] eqn:Hread;
    pose proof (read_bytes_world _ _ _ _ Hread) as ->.
  2:{ exists (Raise e), w1, []. rewrite app_nil_r.
      split; [reflexivity|]. split; [done|]. apply refusal_nil. }
  rewrite bind_eq. unfold cms_sign. rewrite bind_eq.
  set (udct := certify_dct cfg info (clock w)).
  set (ret := endesive_cms_sign E pdf_in udct key cert cas "sha256").
  set (c := EndesiveSign pdf_in udct key cert cas "sha256" ret).
  unfold record_call. cbn [fst snd].
  destruct ret as [signature_data|e] eqn:Hret.
  2:{ eexists _, _, [c]. cbn [raise]. split; [reflexivity|]. cbn [lib_calls].
      split; [done|]. by apply refusal_single. }
  assert (is_Some (call_document c)) as Hdoc by (subst c; cbn; eauto).
  cbn [mret M_ret]. rewrite bind_eq. unfold write_file at 1. rewrite bind_eq.
  set (w2 := set_files _ _).
  assert (lib_calls w2 = (lib_calls w ++ [c])%list) as Hc2 by (subst w2; cbn; done).
  destruct (get_pdf_page_count L (TempPath d "certified.pdf") w2) as [[n|e] w0] eqn:Hcount;
    pose proof (get_pdf_page_count_world _ _ _ _ Hcount) as ->.
  2:{ eexists _, w2, [c]. split; [reflexivity|]. split; [done|].
      apply refusal_single. intros Hx. destruct Hdoc as [? Hd]. congruence. }
  rewrite bind_eq.
  destruct (approval_loop_stops E ac key cert cas d (seq 0 n)
              (TempPath d "certified.pdf") w2) as (r & w3 & calls & -> & Hc3 & Hstop).
  destruct r as [p|e].
  2:{ eexists _, w3, (c :: calls). split; [reflexivity|].
      split; [by rewrite Hc3, Hc2, <- app_assoc|]. by apply refusal_cons. }
  rewrite bind_eq. unfold shutil_move.
  destruct (files w3 !! p) as [content|].
  2:{ eexists _, w3, (c :: calls). split; [reflexivity|].
      split; [by rewrite Hc3, Hc2, <- app_assoc|].
      apply refusal_cons; [done|]. by eapply refusal_none. }
  cbn [mret M_ret]. eexists _, _, (c :: calls). split; [reflexivity|].
  unfold set_files; cbn [lib_calls].
  split; [by rewrite Hc3, Hc2, <- app_assoc|].
  apply refusal_cons; [done|]. by eapply refusal_none.
Qed.

Lemma pyhanko_approval_loop_stops P signer pages : ∀ cur w,
  ∃ r w' calls,
    pyhanko_approval_loop P signer pages cur w = (r, w') ∧
    lib_calls w' = (lib_calls w ++ calls)%list ∧
    ∀ i c, calls !! i = Some c → call_document c = None →
           S i = length calls ∧ is_ok r = false.
Proof.
  induction pages as [|page pages IH]; intros cur w.
  - exists (Ok cur), w, []. rewrite app_nil_r. split; [done|]. split; [done|].
    apply refusal_nil.
  - cbn [pyhanko_approval_loop]. rewrite bind_eq. cbn [datetime_now].
    rewrite bind_eq. unfold sign_pdf. rewrite bind_eq.
    unfold record_call. cbn [fst snd].
    match goal with |- context [PyhankoSign cur ?m signer ?st false ?ret] =>
      set (c := PyhankoSign cur m signer st false ret); destruct ret as [out|e] eqn:Hret
    end.
    + cbn [mret M_ret].
      match goal with |- context [pyhanko_approval_loop _ _ _ out ?w2] =>
        destruct (IH out w2) as (r & w' & calls & -> & Hc & Hstop)
      end.
      cbn [lib_calls] in *.
      exists r, w', (c :: calls). split; [reflexivity|].
      split; [by rewrite Hc, <- app_assoc|].
      apply refusal_cons; [|exact Hstop]. subst c. cbn. eauto.
    + eexists (Raise e), _, [c]. cbn [raise]. split; [reflexivity|].
      cbn [lib_calls]. split; [done|]. by apply refusal_single.
Qed.

(** All three routes. *)
Lemma sign_with_stops e input_path output_path w :
  ∃ r w' calls,
    sign_with e L cfg input_path output_path w = (r, w') ∧
    lib_calls w' = (lib_calls w ++ calls)%list ∧
    ∀ i c, calls !! i = Some c → call_document c = None →
           S i = length calls ∧ is_ok r = false.
Proof.
  assert (∀ E key cert cas (h : exn → M string) (fin : M unit),
            (∀ e0 w0, ∃ w1, h e0 w0 = (Raise e0, w1) ∧ lib_calls w1 = lib_calls w0) →
            (∀ w0, ∃ w1, fin w0 = (Ok tt, w1) ∧ lib_calls w1 = lib_calls w0) →
            ∃ r w' calls,
              (temp_dir ← mkdtemp;
               try_finally
                 (try_except
                    (signing_steps L cfg E
                       (SignatureAppearance_init (get_signer_info_from_cert cert))
                       (get_signer_info_from_cert cert) key cert cas temp_dir
                       input_path output_path) h) fin) w = (r, w') ∧
              lib_calls w' = (lib_calls w ++ calls)%list ∧
              ∀ i c, calls !! i = Some c → call_document c = None →
                     S i = length calls ∧ is_ok r = false) as Hsteps.
  { intros E key cert cas h fin Hh Hfin. rewrite bind_eq. unfold mkdtemp at 1.
    unfold try_finally, try_except.
    match goal with |- context [signing_steps _ _ _ _ _ _ _ _ _ _ _ ?w1] =>
      destruct (signing_steps_stops E
                  (SignatureAppearance_init (get_signer_info_from_cert cert))
                  (get_signer_info_from_cert cert) key cert cas (next_tmp w)
                  input_path output_path w1) as (r & w2 & calls & -> & Hc & Hstop)
    end.
    cbn [lib_calls] in Hc. destruct r as [p|e0].
    - destruct (Hfin w2) as (w3 & -> & Hl3). exists (Ok p), w3, calls.
      split; [reflexivity|]. split; [congruence|exact Hstop].
    - destruct (Hh e0 w2) as (w3 & -> & Hl3). destruct (Hfin w3) as (w4 & -> & Hl4).
      exists (Raise e0), w4, calls. split; [reflexivity|]. split; [congruence|exact Hstop]. }
  destruct e; cbn [sign_with].
  - unfold sign_pdf_multi_page_with_proper_mdp. destruct (endesive L) as [E|].
    2:{ eexists _, w, []. rewrite app_nil_r. split; [reflexivity|]. split; [done|].
        apply refusal_nil. }
    rewrite bind_eq. destruct (load_certificate_data_spec cfg w) as [r0 ->].
    destruct r0 as [[[key cert] cas]|e0].
    2:{ eexists _, w, []. rewrite app_nil_r. split; [reflexivity|]. split; [done|].
        apply refusal_nil. }
    apply Hsteps.
    + intros e0 w0. by exists w0.
    + intros w0. unfold try_except, rmtree. eexists. split; [reflexivity|done].
  - unfold sign_pdf_multi_page. destruct (endesive L) as [E|].
    2:{ eexists _, w, []. rewrite app_nil_r. split; [reflexivity|]. split; [done|].
        apply refusal_nil. }
    rewrite bind_eq. destruct (load_certificate_data_spec cfg w) as [r0 ->].
    destruct r0 as [[[key cert] cas]|e0].
    2:{ eexists _, w, []. rewrite app_nil_r. split; [reflexivity|]. split; [done|].
        apply refusal_nil. }
    apply Hsteps.
    + intros e0 w0. run_engine.
      destruct (negb (bool_decide (is_Some (files w0 !! Path output_path)))
                && bool_decide (is_Some (files w0 !! Path input_path)));
        [destruct (files w0 !! Path input_path)|]; eexists; split; reflexivity || done.
    + intros w0. unfold rmtree. eexists. split; [reflexivity|done].
  - unfold sign_pdf_multi_page_pyhanko, sign_pdf_pyhanko_with_proper_mdp.
    destruct (pyhanko L) as [P|] eqn:HP.
    2:{ eexists _, w, []. rewrite app_nil_r. split; [reflexivity|]. split; [done|].
        apply refusal_nil. }
    unfold try_except. rewrite bind_eq.
    destruct (get_certificate_info_pyhanko_spec L (CERTIFICATE_P12_PATH cfg)
                (CERTIFICATE_PASSWORD cfg) w) as [r0 ->].
    destruct r0 as [signer|e0].
    2:{ eexists _, w, []. rewrite app_nil_r. split; [reflexivity|]. split; [done|].
        apply refusal_nil. }
    rewrite bind_eq.
    destruct (read_bytes (Path input_path) w) as [[pdf_in|e0] w0] eqn:Hread;
      pose proof (read_bytes_world _ _ _ _ Hread) as ->.
    2:{ eexists _, w, []. rewrite app_nil_r. split; [reflexivity|]. split; [done|].
        apply refusal_nil. }
    rewrite bind_eq.
    destruct (pyhanko_pages_count P pdf_in) as [[[num_pages|]|]|e0];
      try (eexists _, w, []; rewrite app_nil_r; split; [reflexivity|]; split; [done|];
           apply refusal_nil).
    cbn [mret M_ret]. rewrite bind_eq. unfold sign_pdf at 1. rewrite bind_eq.
    unfold record_call. cbn [fst snd].
    match goal with |- context [PyhankoSign pdf_in cert_meta signer None true ?ret] =>
      set (c := PyhankoSign pdf_in cert_meta signer None true ret);
      destruct ret as [certified|e0] eqn:Hret
    end.
    2:{ eexists _, _, [c]. cbn [raise]. split; [reflexivity|]. cbn [lib_calls].
        split; [done|]. by apply refusal_single. }
    assert (is_Some (call_document c)) as Hdoc by (subst c; cbn; eauto).
    cbn [mret M_ret]. rewrite bind_eq.
    match goal with |- context [pyhanko_approval_loop _ _ ?pages certified ?w2] =>
      destruct (pyhanko_approval_loop_stops P signer pages certified w2)
        as (r & w' & calls & -> & Hc & Hstop)
    end.
    cbn [lib_calls] in Hc. destruct r as [final|e0].
    2:{ eexists _, w', (c :: calls). split; [reflexivity|].
        split; [by rewrite Hc, <- app_assoc|]. by apply refusal_cons. }
    rewrite bind_eq. unfold write_file. cbn [mret M_ret].
    eexists _, _, (c :: calls). split; [reflexivity|]. unfold set_files; cbn [lib_calls].
    split; [by rewrite Hc, <- app_assoc|].
    apply refusal_cons; [done|]. by eapply refusal_none.
Qed.

End StopsAtRefusal.

(** On every route, a request the signing library refuses is the last
    one the run makes, and the run fails: after a refusal no further
    page is signed, and a run that returns has had every request
    granted. *)
Theorem refused_request_ends_the_run (e : engine) (L : libraries) (cfg : config)
    (input_path output_path : string) (w : world) (r : result string) (w' : world) :
  sign_with e L cfg input_path output_path w = (r, w') →
  ∃ calls, lib_calls w' = (lib_calls w ++ calls)%list ∧
    (∀ i c, calls !! i = Some c → call_document c = None →
            S i = length calls ∧ is_ok r = false) ∧
    (is_ok r = true → Forall (λ c, is_Some (call_document c)) calls).
Proof.
  intros Hrun.
  destruct (sign_with_stops L cfg e input_path output_path w)
    as (r1 & w1 & calls & Hr & Hc & Hstop).
  rewrite Hrun in Hr. injection Hr as <- <-. exists calls.
  split; [exact Hc|]. split; [exact Hstop|].
  intros Hok. apply Forall_lookup. intros i c Hi.
  destruct (call_document c) as [doc|] eqn:Hdoc; [eauto|].
  destruct (Hstop i c Hi Hdoc) as [_ Hr]. congruence.
Qed.

(** The library refuses the second page of three: three requests are
    made (certification, page 1, page 2) and the run fails. *)
Lemma refused_request_ends_the_run_witness :
  let w := Fixture.signing_world 1750400000 Fixture.three_pages in
  let run := sign_with Endesive (Fixture.toy_libraries Fixture.sign_fails_on_page_2)
               default_config "in.pdf" "out.pdf" w in
  is_ok run.1 = false ∧
  ∃ calls, lib_calls run.2 = (lib_calls w ++ calls)%list ∧ length calls = 3%nat.
Proof.
  intros w run.
  destruct (refused_request_ends_the_run Endesive
              (Fixture.toy_libraries Fixture.sign_fails_on_page_2)
              default_config "in.pdf" "out.pdf" w run.1 run.2) as (calls & Hc & _).
  - subst run. by destruct (sign_with _ _ _ _ _ _).
  - split; [vm_compute; reflexivity|]. exists calls. split; [exact Hc|].
    assert (length (lib_calls run.2) = (length (lib_calls w) + 3)%nat) as Hlen
      by (vm_compute; reflexivity).
    rewrite Hc, length_app in Hlen. lia.
Defined.
